(** * lsr-gpt-generic: batch planning, checkpoint/resume and consolidation

    A shallow embedding of the batch pipeline of the repository
    ([impacts_common.py], [gpt_common.py], [gpt_classify.py]) and the
    properties of it that the design document states.

    Conventions of the embedding.
    - Python [int] is [Z]; [//] and [%] are [Z.div] and [Z.modulo], which
      round towards minus infinity exactly as Python does, with the
      [ZeroDivisionError] of a zero divisor written out.
    - Python [float] is idealised as an exact rational ([Q], kept reduced);
      the non-finite values have no counterpart.  The two scores the design
      document quotes are also evaluated on IEEE binary64 numbers.
    - [str] is [string] (the UTF-8 bytes of the text).
    - A [dict] is an association list in insertion order, as iteration over a
      Python dict observes it.
    - An exception is a value of [exn]; a computation that can raise returns a
      [result]; code that also mutates the batch plan, the results directory
      or the console runs in the monad [M] over [state], where the state
      reached so far survives a raised exception as it does in Python. *)

From Stdlib Require Import ZArith QArith String Ascii List Bool Lia.
From Stdlib Require Import Permutation DecimalString DecimalPos DecimalZ.
From Stdlib Require Import Floats Lqa.
Import ListNotations.

Local Open Scope string_scope.
Local Open Scope Z_scope.

(** ** Exceptions and results *)

(** The exception classes the pipeline can meet.  The first four are the
    ones the driver's [except] clause names; [APIConnectionError] stands for
    the service's other error classes, which that clause does not name. *)
Inductive exn : Type :=
| RateLimitError
| ServiceUnavailableError
| APIError
| OSError
| APIConnectionError
| JSONDecodeError
| KeyError
| ValueError
| TypeError
| IndexError
| ZeroDivisionError
| UnboundLocalError.

Inductive result (A : Type) : Type :=
| Ok (a : A)
| Raise (e : exn).

Arguments Ok {A} a.
Arguments Raise {A} e.

Definition rbind {A B : Type} (r : result A) (k : A -> result B) : result B :=
  match r with
  | Ok a => k a
  | Raise e => Raise e
  end.

Declare Scope result_scope.
Delimit Scope result_scope with res.
Notation "x <-? r ; k" := (rbind r (fun x => k))
  (at level 61, r at next level, right associativity) : result_scope.

(** ** Python built-ins on strings *)

Definition dquote : ascii := "034"%char.
Definition newline : ascii := "010"%char.

(** [s.endswith(suffix)] *)
Fixpoint str_endswith (s suffix : string) : bool :=
  String.eqb s suffix ||
  match s with
  | EmptyString => false
  | String _ s' => str_endswith s' suffix
  end.

(** [needle in hay] *)
Fixpoint str_contains (needle hay : string) : bool :=
  prefix needle hay ||
  match hay with
  | EmptyString => false
  | String _ hay' => str_contains needle hay'
  end.

(** [s.split(sep)] for a non-empty [sep] (every call site passes a literal):
    the pieces between the non-overlapping occurrences of [sep], scanned from
    the left.  [skip] counts the characters of a matched separator that are
    still to be passed over and [cur] is the piece read so far. *)
Fixpoint split_go (sep : string) (skip : nat) (cur s : string) : list string :=
  match s with
  | EmptyString => [cur]
  | String c s' =>
      match skip with
      | S k => split_go sep k cur s'
      | O =>
          if prefix sep s
          then cur :: split_go sep (String.length sep - 1) EmptyString s'
          else split_go sep O (cur ++ String c EmptyString) s'
      end
  end.

Definition str_split (sep s : string) : list string := split_go sep O EmptyString s.

(** [l[-1]] and [l[0]] on the list a [split] returns, which is never empty. *)
Definition py_last (l : list string) : string := last l EmptyString.
Definition py_first (l : list string) : string := hd EmptyString l.

(** ** Python [int] and [str] conversions *)

Definition is_digit (c : ascii) : bool :=
  let n := nat_of_ascii c in (48 <=? n)%nat && (n <=? 57)%nat.

Definition is_space (c : ascii) : bool :=
  let n := nat_of_ascii c in
  ((9 <=? n)%nat && (n <=? 13)%nat) || ((28 <=? n)%nat && (n <=? 32)%nat).

Fixpoint lstrip (s : string) : string :=
  match s with
  | String c s' => if is_space c then lstrip s' else s
  | EmptyString => EmptyString
  end.

Fixpoint string_rev_onto (s acc : string) : string :=
  match s with
  | EmptyString => acc
  | String c s' => string_rev_onto s' (String c acc)
  end.

Definition string_rev (s : string) : string := string_rev_onto s EmptyString.

(** [s.strip()] *)
Definition str_strip (s : string) : string :=
  string_rev (lstrip (string_rev (lstrip s))).

(** The digits of an integer literal, most significant first: decimal digits
    with single underscores allowed between two digits. *)
Fixpoint digits_value (acc : Z) (after_digit : bool) (s : string) : option Z :=
  match s with
  | EmptyString => if after_digit then Some acc else None
  | String c s' =>
      if is_digit c
      then digits_value (10 * acc + Z.of_nat (nat_of_ascii c - 48)) true s'
      else if (Ascii.eqb c "_" && after_digit)%bool
           then match s' with
                | String d _ => if is_digit d then digits_value acc false s' else None
                | EmptyString => None
                end
           else None
  end.

(** [int(s)] on a string: surrounding (ASCII) white space, an optional sign,
    decimal digits; [ValueError] otherwise. *)
Definition py_int (s : string) : result Z :=
  let t := str_strip s in
  let parsed :=
    match t with
    | String c r =>
        if Ascii.eqb c "-" then option_map Z.opp (digits_value 0 false r)
        else if Ascii.eqb c "+" then digits_value 0 false r
        else digits_value 0 false t
    | EmptyString => None
    end in
  match parsed with
  | Some z => Ok z
  | None => Raise ValueError
  end.

(** [str(n)] on an integer. *)
Definition py_str (n : Z) : string := NilEmpty.string_of_int (Z.to_int n).

(** ** Python arithmetic *)

(** [a // b] and [a % b] on integers. *)
Definition py_floordiv (a b : Z) : result Z :=
  if b =? 0 then Raise ZeroDivisionError else Ok (a / b).

Definition py_mod (a b : Z) : result Z :=
  if b =? 0 then Raise ZeroDivisionError else Ok (a mod b).

(** Float arithmetic, idealised: exact, kept in lowest terms. *)
Definition fadd (a b : Q) : Q := Qred (a + b).
Definition fmul (a b : Q) : Q := Qred (a * b).
Definition fdiv (a b : Q) : Q := Qred (a / b).

(** [range(n)] *)
Definition py_range (n : Z) : list Z := map Z.of_nat (seq 0 (Z.to_nat n)).

(** [l[start:stop]] with Python's treatment of negative and oversized bounds. *)
Definition slice_bound {A : Type} (l : list A) (i : Z) : nat :=
  let n := Z.of_nat (List.length l) in
  Z.to_nat (Z.min n (if i <? 0 then Z.max 0 (i + n) else i)).

Definition py_slice {A : Type} (l : list A) (start stop : Z) : list A :=
  let a := slice_bound l start in
  let b := slice_bound l stop in
  firstn (b - a) (skipn a l).

(** ** Python dicts, in insertion order *)

Section Dict.
Context {K V : Type} (eqb : K -> K -> bool).

Fixpoint dict_get (k : K) (d : list (K * V)) : option V :=
  match d with
  | [] => None
  | (k', v) :: d' => if eqb k k' then Some v else dict_get k d'
  end.

(** [d[k] = v]: replaces in place, or appends a new key. *)
Fixpoint dict_set (k : K) (v : V) (d : list (K * V)) : list (K * V) :=
  match d with
  | [] => [(k, v)]
  | (k', v') :: d' =>
      if eqb k k' then (k', v) :: d' else (k', v') :: dict_set k v d'
  end.

(** [d[k]], which raises [KeyError] on a missing key. *)
Definition dict_getitem (k : K) (d : list (K * V)) : result V :=
  match dict_get k d with
  | Some v => Ok v
  | None => Raise KeyError
  end.

End Dict.

Definition keys {K V : Type} (d : list (K * V)) : list K := map fst d.

(** ** Python values, as [json.loads] produces them *)

Set Warnings "-register-all".

Inductive pyval : Type :=
| PyNone
| PyBool (b : bool)
| PyNum (q : Q)
| PyStr (s : string)
| PyList (l : list pyval)
| PyDict (d : list (string * pyval)).

(** The operand of an arithmetic operator: a number, or a [bool] (an [int]
    in Python); anything else is a [TypeError]. *)
Definition as_number (v : pyval) : result Q :=
  match v with
  | PyNum q => Ok q
  | PyBool b => Ok (if b then 1%Q else 0%Q)
  | _ => Raise TypeError
  end.

(** [value["KEY"]] on a decoded JSON value. *)
Definition pyval_getitem (v : pyval) (k : string) : result pyval :=
  match v with
  | PyDict d => dict_getitem String.eqb k d
  | _ => Raise TypeError
  end.

(** * impacts_common.py *)

(** ** [ffsi_score] *)

(** One summand [p / 100 * w] of the score. *)
Definition weighted (p : pyval) (w : Z) : result Q :=
  (q <-? as_number p;
   Ok (fmul (fdiv q (inject_Z 100)) (inject_Z w)))%res.

(** [probs[i]] on a list. *)
Definition list_getitem (l : list pyval) (i : nat) : result pyval :=
  match nth_error l i with
  | Some v => Ok v
  | None => Raise IndexError
  end.

Definition ffsi_score (probs : pyval) (normalize : bool) : result Q :=
  (score <-?
     match probs with
     | PyDict d =>
         p1 <-? dict_getitem String.eqb "MINOR" d;
         t1 <-? weighted p1 1;
         p2 <-? dict_getitem String.eqb "MODERATE" d;
         t2 <-? weighted p2 2;
         p3 <-? dict_getitem String.eqb "SERIOUS" d;
         t3 <-? weighted p3 3;
         p4 <-? dict_getitem String.eqb "SEVERE" d;
         t4 <-? weighted p4 4;
         p5 <-? dict_getitem String.eqb "CATASTROPHIC" d;
         t5 <-? weighted p5 5;
         Ok (fadd (fadd (fadd (fadd t1 t2) t3) t4) t5)
     | PyList l =>
         p1 <-? list_getitem l 0;
         t1 <-? weighted p1 1;
         p2 <-? list_getitem l 1;
         t2 <-? weighted p2 2;
         p3 <-? list_getitem l 2;
         t3 <-? weighted p3 3;
         p4 <-? list_getitem l 3;
         t4 <-? weighted p4 4;
         p5 <-? list_getitem l 4;
         t5 <-? weighted p5 5;
         Ok (fadd (fadd (fadd (fadd t1 t2) t3) t4) t5)
     | _ => Raise UnboundLocalError
     end;
   Ok (if normalize then fdiv score (inject_Z 5) else score))%res.

(** The same expression on IEEE binary64 numbers, for numeric operands. *)
Definition ffsi_score_binary64 (p1 p2 p3 p4 p5 : float) (normalize : bool) : float :=
  let score := (p1 / 100 * 1 + p2 / 100 * 2 + p3 / 100 * 3 + p4 / 100 * 4 + p5 / 100 * 5)%float in
  if normalize then (score / 5)%float else score.

(** ** [define_batches] *)

Record batch : Type := mkBatch {
  indices : Z * Z;
  processed : bool
}.

Definition plan : Type := list (Z * batch).

Definition define_batches (num_reports batch_size : Z) : result plan :=
  let batches : plan := [] in
  if batch_size =? 0
  then Ok (dict_set Z.eqb batch_size (mkBatch (0, num_reports - 1) false) batches)
  else
    (full_batches <-? py_floordiv num_reports batch_size;
     partial_batch <-? py_mod num_reports batch_size;
     let batches :=
       fold_left
         (fun bs batch =>
            dict_set Z.eqb batch
              (mkBatch (batch_size * batch, batch_size * (batch + 1) - 1) false) bs)
         (py_range full_batches) batches in
     let batches :=
       if partial_batch >? 0
       then dict_set Z.eqb full_batches
              (mkBatch (batch_size * full_batches,
                        batch_size * full_batches + partial_batch - 1) false)
              batches
       else batches in
     Ok batches)%res.

(** ** [json.loads]

    The decoder of Python's [json] module on a [str]: objects, arrays,
    strings with their escapes, numbers, [true], [false] and [null], with
    white space between tokens; anything else raises [JSONDecodeError].  A
    number becomes an exact rational; the literals [NaN] and [Infinity], which
    the Python decoder also reads, denote no rational and are refused here.
    The recursion is on [fuel]; [json_loads] supplies more than the text can
    use, since every nested value starts after a consumed character. *)

Definition is_json_space (c : ascii) : bool :=
  (Ascii.eqb c " " || Ascii.eqb c "009" || Ascii.eqb c "010" || Ascii.eqb c "013")%bool.

Fixpoint skip_ws (s : string) : string :=
  match s with
  | String c s' => if is_json_space c then skip_ws s' else s
  | EmptyString => EmptyString
  end.

Fixpoint string_drop (n : nat) (s : string) : string :=
  match n, s with
  | S k, String _ s' => string_drop k s'
  | _, _ => s
  end.

Definition digit_value (c : ascii) : Z := Z.of_nat (nat_of_ascii c - 48).

(** A run of digits: their value read onto [acc], how many there were, and
    the rest of the text. *)
Fixpoint take_digits (acc : Z) (n : nat) (s : string) : Z * nat * string :=
  match s with
  | String c s' =>
      if is_digit c then take_digits (10 * acc + digit_value c) (S n) s' else (acc, n, s)
  | EmptyString => (acc, n, s)
  end.

(** The integer part: a lone [0], or a non-zero digit and a run of digits. *)
Definition scan_int_part (s : string) : option (Z * string) :=
  match s with
  | String c s' =>
      if Ascii.eqb c "0" then Some (0, s')
      else if is_digit c
           then let '(v, _, rest) := take_digits (digit_value c) 1 s' in Some (v, rest)
           else None
  | EmptyString => None
  end.

(** The optional fraction, a dot and at least one digit: its numerator and
    its number of digits. *)
Definition scan_frac (s : string) : Z * nat * string :=
  match s with
  | String "." s' =>
      let '(v, n, rest) := take_digits 0 0 s' in
      match n with
      | O => (0, O, s)
      | _ => (v, n, rest)
      end
  | _ => (0, O, s)
  end.

(** The optional exponent: [e] or [E], an optional sign, at least one digit. *)
Definition scan_exp (s : string) : Z * string :=
  match s with
  | String c s' =>
      if (Ascii.eqb c "e" || Ascii.eqb c "E")%bool
      then
        let '(sign, body) :=
          match s' with
          | String "-" b => (-1, b)
          | String "+" b => (1, b)
          | _ => (1, s')
          end in
        let '(v, n, rest) := take_digits 0 0 body in
        match n with
        | O => (0, s)
        | _ => (sign * v, rest)
        end
      else (0, s)
  | EmptyString => (0, s)
  end.

Definition scan_number (s : string) : option (Q * string) :=
  let '(sign, body) :=
    match s with
    | String "-" b => (-1, b)
    | _ => (1, s)
    end in
  match scan_int_part body with
  | None => None
  | Some (ip, r1) =>
      let '(fp, fn, r2) := scan_frac r1 in
      let '(ex, r3) := scan_exp r2 in
      let scale := 10 ^ Z.of_nat fn in
      Some (Qred (inject_Z (sign * (ip * scale + fp)) / inject_Z scale
                  * Qpower (inject_Z 10) ex)%Q, r3)
  end.

Definition hex_value (c : ascii) : option Z :=
  let n := nat_of_ascii c in
  if is_digit c then Some (Z.of_nat (n - 48))
  else if ((65 <=? n)%nat && (n <=? 70)%nat)%bool then Some (Z.of_nat (n - 55))
  else if ((97 <=? n)%nat && (n <=? 102)%nat)%bool then Some (Z.of_nat (n - 87))
  else None.

Definition scan_hex4 (s : string) : option (Z * string) :=
  match s with
  | String a (String b (String c (String d rest))) =>
      match hex_value a, hex_value b, hex_value c, hex_value d with
      | Some x, Some y, Some z, Some w => Some (((x * 16 + y) * 16 + z) * 16 + w, rest)
      | _, _, _, _ => None
      end
  | _ => None
  end.

Definition byte (n : Z) : ascii := ascii_of_nat (Z.to_nat n).

(** The UTF-8 bytes of a code point. *)
Definition utf8 (n : Z) : string :=
  if n <? 128 then String (byte n) EmptyString
  else if n <? 2048
       then String (byte (192 + n / 64)) (String (byte (128 + n mod 64)) EmptyString)
  else if n <? 65536
       then String (byte (224 + n / 4096))
              (String (byte (128 + (n / 64) mod 64))
                 (String (byte (128 + n mod 64)) EmptyString))
  else String (byte (240 + n / 262144))
         (String (byte (128 + (n / 4096) mod 64))
            (String (byte (128 + (n / 64) mod 64))
               (String (byte (128 + n mod 64)) EmptyString))).

(** A [u] escape of four hexadecimal digits, read after the [u]; a high
    surrogate followed by an escaped low surrogate is one code point. *)
Definition scan_unicode (s : string) : option (string * string) :=
  match scan_hex4 s with
  | None => None
  | Some (hi, rest) =>
      if ((55296 <=? hi) && (hi <=? 56319))%bool
      then
        match rest with
        | String "\" (String "u" rest') =>
            match scan_hex4 rest' with
            | Some (lo, rest'') =>
                if ((56320 <=? lo) && (lo <=? 57343))%bool
                then Some (utf8 (65536 + (hi - 55296) * 1024 + (lo - 56320)), rest'')
                else Some (utf8 hi, rest)
            | None => Some (utf8 hi, rest)
            end
        | _ => Some (utf8 hi, rest)
        end
      else Some (utf8 hi, rest)
  end.

(** The body of a string literal, read after its opening quote. *)
Fixpoint scan_string (fuel : nat) (acc : string) (s : string) : option (string * string) :=
  match fuel with
  | O => None
  | S fuel' =>
      match s with
      | EmptyString => None
      | String c s' =>
          if Ascii.eqb c dquote then Some (acc, s')
          else if Ascii.eqb c "\"
          then
            match s' with
            | String e s'' =>
                let simple (x : ascii) :=
                  scan_string fuel' (acc ++ String x EmptyString) s'' in
                if Ascii.eqb e dquote then simple dquote
                else if Ascii.eqb e "\" then simple "\"%char
                else if Ascii.eqb e "/" then simple "/"%char
                else if Ascii.eqb e "b" then simple "008"%char
                else if Ascii.eqb e "f" then simple "012"%char
                else if Ascii.eqb e "n" then simple "010"%char
                else if Ascii.eqb e "r" then simple "013"%char
                else if Ascii.eqb e "t" then simple "009"%char
                else if Ascii.eqb e "u"
                then match scan_unicode s'' with
                     | Some (bytes, rest) => scan_string fuel' (acc ++ bytes) rest
                     | None => None
                     end
                else None
            | EmptyString => None
            end
          else if (nat_of_ascii c <? 32)%nat then None
          else scan_string fuel' (acc ++ String c EmptyString) s'
      end
  end.

(** A value, read at its first character; the members of an object, read
    after the opening brace or a comma; the elements of an array likewise. *)
Fixpoint scan_once (fuel : nat) (s : string) {struct fuel} : option (pyval * string) :=
  match fuel with
  | O => None
  | S fuel' =>
      match s with
      | EmptyString => None
      | String c s' =>
          if Ascii.eqb c dquote
          then match scan_string (String.length s) EmptyString s' with
               | Some (str, rest) => Some (PyStr str, rest)
               | None => None
               end
          else if Ascii.eqb c "{"
          then let body := skip_ws s' in
               match body with
               | String c' rest =>
                   if Ascii.eqb c' "}" then Some (PyDict [], rest)
                   else scan_members fuel' [] body
               | EmptyString => None
               end
          else if Ascii.eqb c "["
          then let body := skip_ws s' in
               match body with
               | String c' rest =>
                   if Ascii.eqb c' "]" then Some (PyList [], rest)
                   else scan_elements fuel' [] body
               | EmptyString => None
               end
          else if prefix "null" s then Some (PyNone, string_drop 4 s)
          else if prefix "true" s then Some (PyBool true, string_drop 4 s)
          else if prefix "false" s then Some (PyBool false, string_drop 5 s)
          else match scan_number s with
               | Some (q, rest) => Some (PyNum q, rest)
               | None => None
               end
      end
  end
with scan_members (fuel : nat) (acc : list (string * pyval)) (s : string) {struct fuel}
  : option (pyval * string) :=
  match fuel with
  | O => None
  | S fuel' =>
      match s with
      | String c s' =>
          if Ascii.eqb c dquote
          then
            match scan_string (String.length s) EmptyString s' with
            | Some (key, r1) =>
                match skip_ws r1 with
                | String colon r2 =>
                    if Ascii.eqb colon ":"
                    then
                      match scan_once fuel' (skip_ws r2) with
                      | Some (value, r3) =>
                          let acc' := dict_set String.eqb key value acc in
                          match skip_ws r3 with
                          | String c' r4 =>
                              if Ascii.eqb c' "}" then Some (PyDict acc', r4)
                              else if Ascii.eqb c' ","
                                   then scan_members fuel' acc' (skip_ws r4)
                                   else None
                          | EmptyString => None
                          end
                      | None => None
                      end
                    else None
                | EmptyString => None
                end
            | None => None
            end
          else None
      | EmptyString => None
      end
  end
with scan_elements (fuel : nat) (acc : list pyval) (s : string) {struct fuel}
  : option (pyval * string) :=
  match fuel with
  | O => None
  | S fuel' =>
      match scan_once fuel' s with
      | Some (value, r1) =>
          let acc' := (acc ++ [value])%list in
          match skip_ws r1 with
          | String c' r2 =>
              if Ascii.eqb c' "]" then Some (PyList acc', r2)
              else if Ascii.eqb c' ","
                   then scan_elements fuel' acc' (skip_ws r2)
                   else None
          | EmptyString => None
          end
      | None => None
      end
  end.

Definition json_loads (s : string) : result pyval :=
  match scan_once (2 * String.length s + 2) (skip_ws s) with
  | Some (v, rest) =>
      match skip_ws rest with
      | EmptyString => Ok v
      | _ => Raise JSONDecodeError
      end
  | None => Raise JSONDecodeError
  end.

(** * The state the pipeline acts on *)

(** One classified report, the list [[remark, probs_dict, score,
    response_extra]] that [classify_lsr_remarks] stores per index. *)
Record item : Type := mkItem {
  item_remark : string;
  item_probs : pyval;
  item_score : Q;
  item_extra : string
}.

(** The content of a batch result file: the dictionary [json.dump] wrote,
    whose keys are the decimal strings of the local indices. *)
Definition artifact : Type := list (string * item).

(** What the run does that an observer can see: requests to the service,
    pauses, the files written and the console lines that mark the progress of
    the batch loop. *)
Inductive event : Type :=
| EvRequest (remark : string)
| EvWait (seconds : Z)
| EvSleep (seconds : Q)
| EvBatch (batch_id : Z)
| EvSkip (batch_id : Z)
| EvWrite (path : string)
| EvNoPrevious
| EvNoResults.

(** [batches] is the plan dictionary that [main] creates and that
    [match_batch_results] and the batch loop mutate in place; [results_dir]
    is the listing of the results directory, file name to content, every path
    the pipeline opens lying in that directory; [requests] counts the calls
    made to the service; [console] is the trace. *)
Record state : Type := mkState {
  batches : plan;
  results_dir : list (string * artifact);
  requests : nat;
  console : list event
}.

Definition M (A : Type) : Type := state -> result A * state.

Definition ret {A : Type} (a : A) : M A := fun st => (Ok a, st).

Definition bind {A B : Type} (m : M A) (k : A -> M B) : M B :=
  fun st =>
    match m st with
    | (Ok a, st') => k a st'
    | (Raise e, st') => (Raise e, st')
    end.

Definition lift {A : Type} (r : result A) : M A := fun st => (r, st).

(** [try: m except classes: handler], [catches] deciding the classes named. *)
Definition try_except {A : Type} (m : M A) (catches : exn -> bool) (handler : exn -> M A)
  : M A :=
  fun st =>
    match m st with
    | (Raise e, st') => if catches e then handler e st' else (Raise e, st')
    | done => done
    end.

Declare Scope monad_scope.
Delimit Scope monad_scope with M.
Notation "x <- m ;; k" := (bind m (fun x => k))
  (at level 61, m at next level, right associativity) : monad_scope.
Notation "m ;; k" := (bind m (fun _ => k))
  (at level 61, right associativity) : monad_scope.

Definition emit (e : event) : M unit :=
  fun st => (Ok tt, mkState (batches st) (results_dir st) (requests st)
                      (console st ++ [e])).

Definition get_batches : M plan := fun st => (Ok (batches st), st).

Definition set_batches (p : plan) : M unit :=
  fun st => (Ok tt, mkState p (results_dir st) (requests st) (console st)).

(** ** Files *)

(** [os.path.join(a, b)] *)
Definition os_path_join (a b : string) : string :=
  if prefix "/" b then b
  else if (String.eqb a "" || str_endswith a "/")%bool then a ++ b
  else a ++ "/" ++ b.

Definition basename (path : string) : string := py_last (str_split "/" path).

(** [get_files_in_dir(dir_path, extension)] *)
Definition get_files_in_dir (dir_path extension : string) : M (list string) :=
  fun st =>
    (Ok (map (os_path_join dir_path)
           (filter (fun file => str_endswith file extension) (keys (results_dir st)))),
     st).

(** [hash_filename(file_path)], quiet: the name after the last slash, hashed
    by [shortuuid.uuid], which is a function [uuid] of the name it is given. *)
Definition hash_filename (uuid : string -> string) (file_path : string) : string :=
  let stripped_filename := py_last (str_split "/" file_path) in
  uuid stripped_filename.

(** The keys of a dictionary as [json.dump] writes them. *)
Definition json_dump (results : list (Z * item)) : artifact :=
  map (fun '(index, it) => (py_str index, it)) results.

(** [write_results_json(results, fname)]: opening for writing creates the
    file or replaces its content. *)
Definition write_results_json (results : list (Z * item)) (fname : string) : M unit :=
  fun st =>
    (Ok tt,
     mkState (batches st)
       (dict_set String.eqb (basename fname) (json_dump results) (results_dir st))
       (requests st) (console st ++ [EvWrite fname])).

(** [read_json_results(json_file_path)] *)
Definition read_json_results (json_file_path : string) : M artifact :=
  fun st =>
    match dict_get String.eqb (basename json_file_path) (results_dir st) with
    | Some contents => (Ok contents, st)
    | None => (Raise OSError, st)
    end.

(** The batch id a result file name carries:
    [json_file.split("/")[-1].split("_")[-1].split(".")[0]]. *)
Definition batch_id_of (json_file : string) : string :=
  py_first (str_split "." (py_last (str_split "_" (py_last (str_split "/" json_file))))).

(** ** [match_batch_results] *)

Fixpoint mark_found (result_files : list string) : M unit :=
  match result_files with
  | [] => ret tt
  | json_file :: rest =>
      (let batch_id := batch_id_of json_file in
       n <- lift (py_int batch_id) ;;
       plan0 <- get_batches ;;
       b <- lift (dict_getitem Z.eqb n plan0) ;;
       set_batches (dict_set Z.eqb n (mkBatch (indices b) true) plan0) ;;
       mark_found rest)%M
  end.

Definition match_batch_results (file_uuid results_path : string) : M plan :=
  (result_files <- get_files_in_dir results_path ".json" ;;
   let result_files := filter (fun x => str_contains file_uuid x) result_files in
   match result_files with
   | [] => emit EvNoPrevious
   | _ => mark_found result_files
   end ;;
   get_batches)%M.

(** * gpt_common.py *)


Definition quoted (s : string) : string :=
  String dquote (s ++ String dquote EmptyString).

Fixpoint spaces (n : nat) : string :=
  match n with
  | O => EmptyString
  | S k => String " " (spaces k)
  end.

Definition nl : string := String newline EmptyString.

(** The five class entries of the literals below, each continuation line
    indented by [indent] blanks as in the source text. *)
Definition zero_entries (indent : nat) : string :=
  quoted "MINOR" ++ ": 0," ++ nl ++
  spaces indent ++ quoted "MODERATE" ++ ": 0," ++ nl ++
  spaces indent ++ quoted "SERIOUS" ++ ": 0," ++ nl ++
  spaces indent ++ quoted "SEVERE" ++ ": 0," ++ nl ++
  spaces indent ++ quoted "CATASTROPHIC" ++ ": 0".

(** The result [query_gpt] makes up for an empty or blank remark. *)
Definition no_remark_result : string :=
  "{" ++ zero_entries 17 ++ nl ++ spaces 17 ++ "}NO REMARK FOR THIS LSR!".

(** The classes [classify_lsr_remarks] substitutes for a response that
    carries none. *)
Definition zero_classes : string := zero_entries 31.

Definition wait_timeout (seconds : Z) : M unit := emit (EvWait seconds).

Definition sleep (seconds : Q) : M unit := emit (EvSleep seconds).

Definition when (b : bool) (m : M unit) : M unit := if b then m else ret tt.

Definition py_slice_from {A : Type} (l : list A) (start : Z) : list A :=
  skipn (slice_bound l start) l.

Definition len {A : Type} (l : list A) : Z := Z.of_nat (List.length l).

(** What [classify_lsr_remarks] makes of one response: the text after the
    last closing brace (its last paragraph) is the extra output, the text
    between the last opening brace and the next closing brace is the classes,
    replaced by zeros when it is the same text as the extra output. *)
Definition response_extra (response : string) : string :=
  py_last (str_split (nl ++ nl) (py_last (str_split "}" response))).

Definition response_classes (response : string) : string :=
  let response_classes := py_first (str_split "}" (py_last (str_split "{" response))) in
  if String.eqb response_classes (response_extra response)
  then zero_classes
  else response_classes.

Definition response_json (response : string) : string :=
  "{" ++ response_classes response ++ "}".

Definition classify_response (remark response : string) : result item :=
  (probs_dict <-? json_loads (response_json response);
   score <-? ffsi_score probs_dict false;
   Ok (mkItem remark probs_dict score (response_extra response)))%res.

Section Service.

(** The external classification service: the response, or the exception, of
    its [n]-th request, given the system task and the text sent. *)
Variable service : nat -> string -> string -> result string.

(** [query_gpt(query, role, system_task, temperature, top_p)]; the sampling
    parameters only travel to the service. *)
Definition query_gpt (query system_task : string) : M string :=
  if (negb (String.eqb query "") && negb (String.eqb query " "))%bool
  then
    fun st =>
      (service (requests st) system_task query,
       mkState (batches st) (results_dir st) (S (requests st))
         (console st ++ [EvRequest query]))
  else ret no_remark_result.

(** The body of the [for index, remark in enumerate(lsr_remarks_list)] loop
    of [classify_lsr_remarks], from [index] on. *)
Fixpoint classify_loop (impact_defs : string) (wait_time limit total_lsrs index : Z)
    (remarks : list string) (processed_lsrs : list (Z * item)) : M (list (Z * item)) :=
  match remarks with
  | [] => ret processed_lsrs
  | remark :: rest =>
      (result <- query_gpt remark impact_defs ;;
       it <- lift (classify_response remark result) ;;
       let processed_lsrs := dict_set Z.eqb index it processed_lsrs in
       if (negb (limit =? 0) && (index =? limit - 1))%bool
       then ret processed_lsrs
       else
         (when (index <? total_lsrs - 1) (wait_timeout wait_time) ;;
          classify_loop impact_defs wait_time limit total_lsrs (index + 1) rest
            processed_lsrs))%M
  end.

Definition classify_lsr_remarks (lsr_remarks_list : list string) (impact_defs : string)
    (wait_time starting_idx limit : Z) (verbose : bool) : M (list (Z * item)) :=
  (when (verbose && negb (limit =? 0)) (sleep (5 # 2)) ;;
   let total_lsrs := len lsr_remarks_list in
   when (negb (starting_idx =? 0) && verbose) (sleep (5 # 2)) ;;
   let lsr_remarks_list :=
     if starting_idx =? 0 then lsr_remarks_list
     else py_slice_from lsr_remarks_list starting_idx in
   let total_lsrs :=
     if starting_idx =? 0 then total_lsrs else len lsr_remarks_list in
   classify_loop impact_defs wait_time limit total_lsrs 0 lsr_remarks_list [])%M.

(** * gpt_classify.py *)

Definition WAIT_TIME : Z := 20.
Definition BATCH_SIZE : Z := 10.
Definition MAX_BATCHES : Z := 0.
Definition RESULTS_OUTPUT : string := "./results/".

(** The classes of [except (RateLimitError, ServiceUnavailableError,
    APIError, OSError)]. *)
Definition transient (e : exn) : bool :=
  match e with
  | RateLimitError | ServiceUnavailableError | APIError | OSError => true
  | _ => false
  end.

(** The name of a batch result file. *)
Definition batch_filename (lsr_uuid : string) (batch_id : Z) : string :=
  lsr_uuid ++ "_" ++ py_str batch_id ++ ".json".

(** The path of the consolidated CSV file that [main] writes at its end. *)
Definition classified_csv (lsr_uuid : string) : string :=
  "./results/" ++ lsr_uuid ++ "_classified.csv".

Definition mark_processed (batch_id : Z) : M unit :=
  (plan0 <- get_batches ;;
   b <- lift (dict_getitem Z.eqb batch_id plan0) ;;
   set_batches (dict_set Z.eqb batch_id (mkBatch (indices b) true) plan0))%M.

(** The [else] branch of the loop body: classify the batch, retrying once
    after a transient failure, write its file and mark it. *)
Definition process_batch (lsr_uuid impact_defs : string) (lsr_reports : list string)
    (wait_time batch_id : Z) (b : batch) : M (list (Z * item)) :=
  (let '(start_idx, end_idx) := indices b in
   let current_lsrs := py_slice lsr_reports start_idx (end_idx + 1) in
   processed_lsrs <-
     try_except
       (classify_lsr_remarks current_lsrs impact_defs wait_time 0 0 true)
       transient
       (fun _ =>
          wait_timeout 10 ;;
          classify_lsr_remarks current_lsrs impact_defs wait_time 0 0 true) ;;
   let batch_path := os_path_join RESULTS_OUTPUT (batch_filename lsr_uuid batch_id) in
   write_results_json processed_lsrs batch_path ;;
   mark_processed batch_id ;;
   ret processed_lsrs)%M.

(** The loop [for batch_id in batches], over the keys still to visit.
    [processed_lsrs] is the loop's variable of that name: [None] while it is
    unbound, [Some None] after a skipped batch. *)
Fixpoint batch_loop (lsr_uuid impact_defs : string) (lsr_reports : list string)
    (max_batches wait_time : Z) (ids : list Z)
    (processed_lsrs : option (option (list (Z * item))))
  : M (option (option (list (Z * item)))) :=
  match ids with
  | [] => ret processed_lsrs
  | batch_id :: rest =>
      (emit (EvBatch batch_id) ;;
       plan0 <- get_batches ;;
       b <- lift (dict_getitem Z.eqb batch_id plan0) ;;
       processed_lsrs <-
         (if processed b
          then emit (EvSkip batch_id) ;; ret (Some None)
          else
            r <- process_batch lsr_uuid impact_defs lsr_reports wait_time batch_id b ;;
            ret (Some (Some r))) ;;
       if (negb (max_batches =? 0) && (batch_id =? max_batches))%bool
       then ret processed_lsrs
       else batch_loop lsr_uuid impact_defs lsr_reports max_batches wait_time rest
              processed_lsrs)%M
  end.

(** The batch loop of [main] with the count that follows it:
    [total_processed], which reads the loop's last [processed_lsrs]. *)
Definition run_batches (lsr_uuid impact_defs : string) (lsr_reports : list string)
    (max_batches wait_time : Z) : M Z :=
  (plan0 <- get_batches ;;
   processed_lsrs <-
     batch_loop lsr_uuid impact_defs lsr_reports max_batches wait_time (keys plan0) None ;;
   match processed_lsrs with
   | None => lift (Raise UnboundLocalError)
   | Some None => ret 0
   | Some (Some r) => ret (len r)
   end)%M.

(** ** Consolidation *)

(** A row of the output table: the report and the seven new columns, [None]
    until a batch result fills them. *)
Record row : Type := mkRow {
  row_remark : string;
  MINOR : option Q;
  MODERATE : option Q;
  SERIOUS : option Q;
  SEVERE : option Q;
  CATASTROPHIC : option Q;
  FFSI : option Q;
  EXTRA : option string
}.

(** [lsr_reports.copy()] with the new columns set to [None]. *)
Definition blank_row (remark : string) : row :=
  mkRow remark None None None None None None None.

Definition set_MINOR (v : Q) (r : row) : row :=
  mkRow (row_remark r) (Some v) (MODERATE r) (SERIOUS r) (SEVERE r) (CATASTROPHIC r)
    (FFSI r) (EXTRA r).
Definition set_MODERATE (v : Q) (r : row) : row :=
  mkRow (row_remark r) (MINOR r) (Some v) (SERIOUS r) (SEVERE r) (CATASTROPHIC r)
    (FFSI r) (EXTRA r).
Definition set_SERIOUS (v : Q) (r : row) : row :=
  mkRow (row_remark r) (MINOR r) (MODERATE r) (Some v) (SEVERE r) (CATASTROPHIC r)
    (FFSI r) (EXTRA r).
Definition set_SEVERE (v : Q) (r : row) : row :=
  mkRow (row_remark r) (MINOR r) (MODERATE r) (SERIOUS r) (Some v) (CATASTROPHIC r)
    (FFSI r) (EXTRA r).
Definition set_CATASTROPHIC (v : Q) (r : row) : row :=
  mkRow (row_remark r) (MINOR r) (MODERATE r) (SERIOUS r) (SEVERE r) (Some v)
    (FFSI r) (EXTRA r).
Definition set_FFSI (v : Q) (r : row) : row :=
  mkRow (row_remark r) (MINOR r) (MODERATE r) (SERIOUS r) (SEVERE r) (CATASTROPHIC r)
    (Some v) (EXTRA r).
Definition set_EXTRA (v : string) (r : row) : row :=
  mkRow (row_remark r) (MINOR r) (MODERATE r) (SERIOUS r) (SEVERE r) (CATASTROPHIC r)
    (FFSI r) (Some v).

Fixpoint update_nth {A : Type} (n : nat) (f : A -> A) (l : list A) : list A :=
  match l, n with
  | [], _ => []
  | x :: l', O => f x :: l'
  | x :: l', S k => x :: update_nth k f l'
  end.

(** [output_lsrs.loc[idx][column] = value], the row taken as a view of the
    table: a label outside the index is a [KeyError]. *)
Definition loc_set (idx : Z) (f : row -> row) (output_lsrs : list row)
  : result (list row) :=
  if ((0 <=? idx) && (idx <? len output_lsrs))%bool
  then Ok (update_nth (Z.to_nat idx) f output_lsrs)
  else Raise KeyError.

(** [p / 100] *)
Definition percent (p : pyval) : result Q :=
  (x <-? as_number p; Ok (fdiv x (inject_Z 100)))%res.

(** The body of [for batch_index in batch_results]. *)
Definition merge_item (start_index : Z) (batch_index : string) (it : item)
    (output_lsrs : list row) : result (list row) :=
  (i <-? py_int batch_index;
   let idx := start_index + i in
   p_min <-? pyval_getitem (item_probs it) "MINOR";
   p_mod <-? pyval_getitem (item_probs it) "MODERATE";
   p_ser <-? pyval_getitem (item_probs it) "SERIOUS";
   p_sev <-? pyval_getitem (item_probs it) "SEVERE";
   p_cat <-? pyval_getitem (item_probs it) "CATASTROPHIC";
   let score := item_score it in
   let extra := item_extra it in
   v <-? percent p_min;
   output_lsrs <-? loc_set idx (set_MINOR v) output_lsrs;
   v <-? percent p_mod;
   output_lsrs <-? loc_set idx (set_MODERATE v) output_lsrs;
   v <-? percent p_ser;
   output_lsrs <-? loc_set idx (set_SERIOUS v) output_lsrs;
   v <-? percent p_sev;
   output_lsrs <-? loc_set idx (set_SEVERE v) output_lsrs;
   v <-? percent p_cat;
   output_lsrs <-? loc_set idx (set_CATASTROPHIC v) output_lsrs;
   output_lsrs <-? loc_set idx (set_FFSI score) output_lsrs;
   loc_set idx (set_EXTRA extra) output_lsrs)%res.

Fixpoint merge_batch (start_index : Z) (batch_results : artifact)
    (output_lsrs : list row) : result (list row) :=
  match batch_results with
  | [] => Ok output_lsrs
  | (batch_index, it) :: rest =>
      (output_lsrs <-? merge_item start_index batch_index it output_lsrs;
       merge_batch start_index rest output_lsrs)%res
  end.

(** The loop [for json_file in result_files] of the consolidation. *)
Fixpoint merge_files (batch_size : Z) (result_files : list string)
    (output_lsrs : list row) : M (list row) :=
  match result_files with
  | [] => ret output_lsrs
  | json_file :: rest =>
      (batch_results <- read_json_results json_file ;;
       let batch_id := batch_id_of json_file in
       n <- lift (py_int batch_id) ;;
       let start_index := n * batch_size in
       output_lsrs <- lift (merge_batch start_index batch_results output_lsrs) ;;
       merge_files batch_size rest output_lsrs)%M
  end.

(** The consolidation phase of [main]: the table written as the classified
    CSV file, or [None] when no batch result file carries the identifier. *)
Definition consolidate (lsr_uuid : string) (lsr_reports : list string) (batch_size : Z)
  : M (option (list row)) :=
  (result_files <- get_files_in_dir RESULTS_OUTPUT ".json" ;;
   let result_files := filter (fun x => str_contains lsr_uuid x) result_files in
   match result_files with
   | [] => emit EvNoResults ;; ret None
   | _ =>
       let output_lsrs := map blank_row lsr_reports in
       output_lsrs <- merge_files batch_size result_files output_lsrs ;;
       ret (Some output_lsrs)
   end)%M.

(** [main], from the plan on: [lsr_reports] is the remark column of the
    report file, [lsr_uuid] the identifier hashed from its name and
    [impact_defs] the definition text. *)
Definition main (lsr_uuid impact_defs : string) (lsr_reports : list string)
  : M (option (list row)) :=
  (p <- lift (define_batches (len lsr_reports) BATCH_SIZE) ;;
   set_batches p ;;
   match_batch_results lsr_uuid RESULTS_OUTPUT ;;
   run_batches lsr_uuid impact_defs lsr_reports MAX_BATCHES WAIT_TIME ;;
   consolidate lsr_uuid lsr_reports BATCH_SIZE)%M.

End Service.

(** A state with nothing done yet. *)
Definition initial (dir : list (string * artifact)) : state := mkState [] dir 0 [].

Definition probs_text (a b c d e : string) : string :=
  "{" ++ quoted "MINOR" ++ ": " ++ a ++ ", " ++ quoted "MODERATE" ++ ": " ++ b ++ ", "
      ++ quoted "SERIOUS" ++ ": " ++ c ++ ", " ++ quoted "SEVERE" ++ ": " ++ d ++ ", "
      ++ quoted "CATASTROPHIC" ++ ": " ++ e ++ "}".


(** * Vocabulary of the properties *)

(** ** Batch plans *)

(** The number of reports and the report positions of a batch, its index
    pair read as an inclusive range. *)
Definition batch_length (b : batch) : Z := snd (indices b) - fst (indices b) + 1.

Definition batch_range (b : batch) : list Z :=
  map (fun i => fst (indices b) + Z.of_nat i) (seq 0 (Z.to_nat (batch_length b))).

(** The positions a plan covers, batch after batch, and their number. *)
Definition covered (p : plan) : list Z := flat_map (fun e => batch_range (snd e)) p.

Definition total_length (p : plan) : Z :=
  fold_right (fun e acc => batch_length (snd e) + acc) 0 p.

(** The entry of the [i]-th full batch and of the trailing partial batch. *)
Definition full_batch (batch_size i : Z) : Z * batch :=
  (i, mkBatch (batch_size * i, batch_size * (i + 1) - 1) false).

Definition partial_batch (num_reports batch_size : Z) : Z * batch :=
  (num_reports / batch_size,
   mkBatch (batch_size * (num_reports / batch_size), num_reports - 1) false).

(** ** Scores *)

(** The severity classes with their weights, and the score as the design
    document words it: the sum over the classes of
    [probability / 100 * weight]. *)
Definition class_weights : list (string * Z) :=
  [("MINOR", 1); ("MODERATE", 2); ("SERIOUS", 3); ("SEVERE", 4); ("CATASTROPHIC", 5)].

Definition weighted_sum (probability : string -> Q) : Q :=
  fold_right
    (fun cw acc => (probability (fst cw) / inject_Z 100 * inject_Z (snd cw) + acc)%Q)
    0%Q class_weights.

(** A probability mapping that gives [p] to one class and zero to the others. *)
Definition only (class : string) (p : Q) : pyval :=
  PyDict (map (fun cw => (fst cw, PyNum (if String.eqb (fst cw) class then p else 0%Q)))
            class_weights).

(** ** Strings *)

(** Whether a character occurs in a string, and whether all the characters
    of a string satisfy a test. *)
Fixpoint has_char (c : ascii) (s : string) : bool :=
  match s with
  | EmptyString => false
  | String x s' => (Ascii.eqb x c || has_char c s')%bool
  end.

Fixpoint all_chars (P : ascii -> bool) (s : string) : bool :=
  match s with
  | EmptyString => true
  | String x s' => (P x && all_chars P s')%bool
  end.

Definition char (c : ascii) : string := String c EmptyString.

Definition not_space (c : ascii) : bool := negb (is_space c).

Definition sign_or_digit (c : ascii) : bool := (is_digit c || Ascii.eqb c "-")%bool.

(** ** Runs *)

(** The relation between the state before and the state after a piece of
    the pipeline, whatever its outcome. *)
Definition preserves {A : Type} (R : state -> state -> Prop) (m : M A) : Prop :=
  forall st, R st (snd (m st)).

(** The events a classification attempt may add to the console. *)
Definition service_event (e : event) : bool :=
  match e with
  | EvRequest _ | EvWait _ | EvSleep _ => true
  | _ => false
  end.

(** An attempt touches neither the plan nor the results directory and adds
    only service events. *)
Definition attempt_frame (st st' : state) : Prop :=
  batches st' = batches st /\
  results_dir st' = results_dir st /\
  exists evs, console st' = (console st ++ evs)%list /\ forallb service_event evs = true.

(** A plan keeps its batches and their index ranges, and a batch that is
    marked processed stays so. *)
Definition plan_le (p p' : plan) : Prop :=
  keys p' = keys p /\
  forall id b, dict_get Z.eqb id p = Some b ->
    exists b', dict_get Z.eqb id p' = Some b' /\
               indices b' = indices b /\
               (processed b = true -> processed b' = true).

Definition plan_grows (st st' : state) : Prop := plan_le (batches st) (batches st').

(** ** The batch loop *)

(** The reports of a batch and one classification attempt on them, as the
    loop body calls it. *)
Definition batch_remarks (lsr_reports : list string) (b : batch) : list string :=
  py_slice lsr_reports (fst (indices b)) (snd (indices b) + 1).

Definition attempt (service : nat -> string -> string -> result string)
    (impact_defs : string) (wait_time : Z) (lsr_reports : list string) (b : batch)
  : M (list (Z * item)) :=
  classify_lsr_remarks service (batch_remarks lsr_reports b) impact_defs wait_time 0 0 true.

(** The path of the result file of a batch. *)
Definition batch_path (lsr_uuid : string) (batch_id : Z) : string :=
  os_path_join RESULTS_OUTPUT (batch_filename lsr_uuid batch_id).

(** The state once the records [r] of batch [batch_id] are written and the
    batch is marked. *)
Definition finish (lsr_uuid : string) (batch_id : Z) (b : batch) (r : list (Z * item))
    (st : state) : state :=
  mkState (dict_set Z.eqb batch_id (mkBatch (indices b) true) (batches st))
    (dict_set String.eqb (basename (batch_path lsr_uuid batch_id)) (json_dump r)
       (results_dir st))
    (requests st)
    (console st ++ [EvWrite (batch_path lsr_uuid batch_id)]).

(** The events of a console, each with the batch id the loop had announced
    last when it was emitted. *)
Fixpoint attribute (current : option Z) (evs : list event) : list (Z * event) :=
  match evs with
  | [] => []
  | EvBatch id :: rest => attribute (Some id) rest
  | e :: rest =>
      match current with
      | Some id => (id, e) :: attribute current rest
      | None => attribute current rest
      end
  end.

(** The paths written and the batch ids skipped, in order. *)
Fixpoint written (evs : list event) : list string :=
  match evs with
  | [] => []
  | EvWrite path :: rest => path :: written rest
  | _ :: rest => written rest
  end.

Fixpoint skipped (evs : list event) : list Z :=
  match evs with
  | [] => []
  | EvSkip id :: rest => id :: skipped rest
  | _ :: rest => skipped rest
  end.

(** The batch ids of a plan whose [processed] flag is false, and those whose
    flag is true, in the order of the plan. *)
Definition flag (p : plan) (id : Z) : bool :=
  match dict_get Z.eqb id p with
  | Some b => processed b
  | None => false
  end.

Definition pending (p : plan) : list Z := filter (fun id => negb (flag p id)) (keys p).

Definition completed (p : plan) : list Z := filter (flag p) (keys p).

(** The number of pauses between each request to the service and the next. *)
Fixpoint gaps (started : bool) (count : nat) (evs : list event) : list nat :=
  match evs with
  | [] => []
  | EvRequest _ :: rest => ((if started then [count] else []) ++ gaps true 0 rest)%list
  | EvWait _ :: rest => gaps started (S count) rest
  | _ :: rest => gaps started count rest
  end.

Definition pauses_between (evs : list event) : list nat := gaps false 0 evs.

(** ** The checkpoint scan *)

(** The result files [match_batch_results] finds for an identifier. *)
Definition result_files_of (file_uuid results_path : string) (st : state) : list string :=
  filter (fun x => str_contains file_uuid x)
    (map (os_path_join results_path)
       (filter (fun file => str_endswith file ".json") (keys (results_dir st)))).

(** Whether a batch id is among the ids recovered. *)
Definition among (ids : list Z) (id : Z) : bool := existsb (Z.eqb id) ids.

(** ** Consolidation *)

(** [enumerate(l)] *)
Definition enumerate {A : Type} (l : list A) : list (Z * A) := combine (py_range (len l)) l.

(** The five probabilities of a record as the consolidation reads them,
    each divided by 100. *)
Definition fields (it : item) : result (Q * Q * Q * Q * Q) :=
  (p_min <-? pyval_getitem (item_probs it) "MINOR";
   p_mod <-? pyval_getitem (item_probs it) "MODERATE";
   p_ser <-? pyval_getitem (item_probs it) "SERIOUS";
   p_sev <-? pyval_getitem (item_probs it) "SEVERE";
   p_cat <-? pyval_getitem (item_probs it) "CATASTROPHIC";
   v1 <-? percent p_min;
   v2 <-? percent p_mod;
   v3 <-? percent p_ser;
   v4 <-? percent p_sev;
   v5 <-? percent p_cat;
   Ok (v1, v2, v3, v4, v5))%res.

(** A row with the seven new columns filled from a record. *)
Definition fill (it : item) (v : Q * Q * Q * Q * Q) (r : row) : row :=
  let '(v1, v2, v3, v4, v5) := v in
  mkRow (row_remark r) (Some v1) (Some v2) (Some v3) (Some v4) (Some v5)
    (Some (item_score it)) (Some (item_extra it)).

Definition fill_item (it : item) (r : row) : row :=
  match fields it with
  | Ok v => fill it v r
  | Raise _ => r
  end.

(** A row none of whose new columns is a placeholder. *)
Definition complete (r : row) : bool :=
  match MINOR r, MODERATE r, SERIOUS r, SEVERE r, CATASTROPHIC r, FFSI r, EXTRA r with
  | Some _, Some _, Some _, Some _, Some _, Some _, Some _ => true
  | _, _, _, _, _, _, _ => false
  end.

(** The result files of a complete run: for every batch of the plan, the
    file named after the batch that holds its records under their local
    indices. *)
Definition artifacts (lsr_uuid : string) (p : plan) (records : Z -> list item)
  : list (string * artifact) :=
  map (fun e => (batch_filename lsr_uuid (fst e), json_dump (enumerate (records (fst e))))) p.

(** The table in which row [j] is filled from record [j % batch_size] of
    batch [j // batch_size]. *)
Definition expected_row (batch_size : Z) (records : Z -> list item) (j : Z)
    (remark : string) : row :=
  match nth_error (records (j / batch_size)) (Z.to_nat (j mod batch_size)) with
  | Some it => fill_item it (blank_row remark)
  | None => blank_row remark
  end.

Definition expected_table (batch_size : Z) (records : Z -> list item)
    (lsr_reports : list string) : list row :=
  map (fun e => expected_row batch_size records (fst e) (snd e)) (enumerate lsr_reports).

(** The row writes of a batch result, and a list of writes applied. *)
Definition writes_of (batch_size : Z) (e : Z * list item) : list (Z * item) :=
  map (fun x => (fst e * batch_size + fst x, snd x)) (enumerate (snd e)).

Definition apply_writes (ws : list (Z * item)) (t : list row) : list row :=
  fold_left (fun t w => update_nth (Z.to_nat (fst w)) (fill_item (snd w)) t) ws t.

(** The entry of the results directory that holds the records of a batch. *)
Definition entry_of (lsr_uuid : string) (e : Z * list item) : string * artifact :=
  (batch_filename lsr_uuid (fst e), json_dump (enumerate (snd e))).

(** The batch results of a list of batches merged one after the other, and
    what a list of writes makes of the row at position [j]. *)
Fixpoint merge_all (batch_size : Z) (es : list (Z * list item)) (t : list row)
  : result (list row) :=
  match es with
  | [] => Ok t
  | e :: es' =>
      (t' <-? merge_batch (fst e * batch_size) (json_dump (enumerate (snd e))) t;
       merge_all batch_size es' t')%res
  end.

Definition row_after (ws : list (Z * item)) (j : nat) (r : row) : row :=
  fold_left (fun r w => if Nat.eqb (Z.to_nat (fst w)) j then fill_item (snd w) r else r)
    ws r.

(** ** Sample runs *)

(** A service that answers every request with the same well-formed
    classification, one that answers with prose over two paragraphs, and one
    whose every request fails with the rate limit. *)
Definition sample_response : string :=
  "Classification:" ++ nl ++
  "{" ++ quoted "MINOR" ++ ": 10, " ++ quoted "MODERATE" ++ ": 20, "
      ++ quoted "SERIOUS" ++ ": 30, " ++ quoted "SEVERE" ++ ": 40, "
      ++ quoted "CATASTROPHIC" ++ ": 0}" ++ nl ++ nl ++ "Mostly road closures.".

Definition steady_service (n : nat) (task query : string) : result string :=
  Ok sample_response.

Definition prose_response : string :=
  "I cannot classify this report." ++ nl ++ nl ++ "Please provide more detail.".

Definition prose_service (n : nat) (task query : string) : result string :=
  Ok prose_response.

Definition limited_service (n : nat) (task query : string) : result string :=
  Raise RateLimitError.

(** [n] reports, numbered. *)
Definition sample_reports (n : Z) : list string :=
  map (fun i => "report " ++ py_str i) (py_range n).

(** The plan for 25 reports in batches of 10, and the state in which the
    files of its batches 0 and 1 are on disk and have been scanned. *)
Definition sample_plan : plan :=
  [(0, mkBatch (0, 9) false); (1, mkBatch (10, 19) false); (2, mkBatch (20, 24) false)].

Definition on_disk_state : state :=
  mkState sample_plan [("UUID_0.json", []); ("UUID_1.json", [])] 0 [].

Definition resumed_state : state :=
  snd (match_batch_results "UUID" RESULTS_OUTPUT on_disk_state).

(** The same plan with a file on disk that a longer run left behind. *)
Definition stale_state : state :=
  mkState sample_plan [("UUID_0.json", []); ("UUID_7.json", [])] 0 [].

(** The record the steady service yields for a report, the records of the
    batches of 25 reports in batches of 10, and a results directory that
    lists the three files of that run last batch first. *)
Definition sample_item (remark : string) : item :=
  match classify_response remark sample_response with
  | Ok it => it
  | Raise _ => mkItem remark PyNone 0%Q ""
  end.

Definition sample_records (batch_id : Z) : list item :=
  map sample_item (py_slice (sample_reports 25) (10 * batch_id) (10 * batch_id + 10)).

(** The plan of the planner for a non-zero batch size, written out. *)
Definition planned (num_reports batch_size : Z) : plan :=
  (map (full_batch batch_size) (py_range (num_reports / batch_size))
   ++ (if num_reports mod batch_size =? 0 then []
       else [partial_batch num_reports batch_size]))%list.

(** The all-zero probability record. *)
Definition zero_probs : pyval :=
  PyDict [("MINOR", PyNum 0%Q); ("MODERATE", PyNum 0%Q); ("SERIOUS", PyNum 0%Q);
          ("SEVERE", PyNum 0%Q); ("CATASTROPHIC", PyNum 0%Q)].

(** The events of one report of a batch, and of a batch: a request unless
    the remark is empty or blank, and a pause after every report but the
    last. *)
Definition request_events (remark : string) : list event :=
  if (negb (String.eqb remark "") && negb (String.eqb remark " "))%bool
  then [EvRequest remark] else [].

Fixpoint batch_trace (wait_time : Z) (remarks : list string) : list event :=
  match remarks with
  | [] => []
  | remark :: rest =>
      (request_events remark
       ++ match rest with
          | [] => []
          | _ => EvWait wait_time :: batch_trace wait_time rest
          end)%list
  end.

Definition reversed_state : state :=
  mkState [] (rev (artifacts "UUID" (planned 25 10) sample_records)) 0 [].

(** ** The rest of the pipeline *)

(** A record that [classify_lsr_remarks] can have made of a remark. *)
Definition classified (remark : string) (it : item) : Prop :=
  exists response, classify_response remark response = Ok it.
(** The results directory once the records of some batches are written, one
    batch after the other, under the names of their batches; and the records
    a list of such batches holds for a batch id. *)
Definition stored (lsr_uuid : string) (recs : list (Z * list item))
    (dir : list (string * artifact)) : list (string * artifact) :=
  fold_left
    (fun d e =>
       dict_set String.eqb (basename (batch_path lsr_uuid (fst e)))
         (json_dump (enumerate (snd e))) d)
    recs dir.

Definition records_of (recs : list (Z * list item)) (id : Z) : list item :=
  match dict_get Z.eqb id recs with
  | Some its => its
  | None => []
  end.


(** * Properties *)

(** ** Strings *)

Lemma append_nil_r (s : string) : s ++ "" = s.
Proof. induction s as [|c s IH]; simpl; [reflexivity|now rewrite IH]. Qed.

Lemma append_assoc (a b c : string) : (a ++ b) ++ c = a ++ (b ++ c).
Proof. induction a as [|x a IH]; simpl; [reflexivity|now rewrite IH]. Qed.

Lemma append_char (cur : string) (c : ascii) (s : string) :
  (cur ++ String c "") ++ s = cur ++ String c s.
Proof. now rewrite append_assoc. Qed.

Lemma prefix_char (c x : ascii) (s : string) :
  prefix (char c) (String x s) = Ascii.eqb x c.
Proof.
  unfold char. simpl. destruct (ascii_dec c x) as [->|Hne].
  - rewrite Ascii.eqb_refl. now destruct s.
  - symmetry. apply Ascii.eqb_neq. congruence.
Qed.

Lemma has_char_app (c : ascii) (a b : string) :
  has_char c (a ++ b) = (has_char c a || has_char c b)%bool.
Proof.
  induction a as [|x a IH]; simpl; [reflexivity|]. now rewrite IH, orb_assoc.
Qed.

Lemma all_chars_app (P : ascii -> bool) (a b : string) :
  all_chars P (a ++ b) = (all_chars P a && all_chars P b)%bool.
Proof.
  induction a as [|x a IH]; simpl; [reflexivity|]. now rewrite IH, andb_assoc.
Qed.

Lemma all_chars_lacks (P : ascii -> bool) (c : ascii) (s : string) :
  all_chars P s = true -> P c = false -> has_char c s = false.
Proof.
  intros Hs Hc. induction s as [|x s IH]; simpl in *; [reflexivity|].
  apply andb_true_iff in Hs as [Hx Hs]. rewrite (IH Hs), orb_false_r.
  apply Ascii.eqb_neq. intros ->. congruence.
Qed.

(** A separator that does not occur leaves the text in one piece. *)
Lemma split_go_absent (sep : string) (s : string) :
  forall cur, str_contains sep s = false -> split_go sep O cur s = [cur ++ s].
Proof.
  induction s as [|x s IH]; intros cur Hs.
  - simpl. now rewrite append_nil_r.
  - cbn [str_contains] in Hs. apply orb_false_iff in Hs as [Hp Hs].
    cbn [split_go]. rewrite Hp, (IH _ Hs). now rewrite append_char.
Qed.

Lemma contains_char (c : ascii) (s : string) : str_contains (char c) s = has_char c s.
Proof.
  induction s as [|x s IH]; [reflexivity|].
  cbn [str_contains has_char]. now rewrite prefix_char, IH.
Qed.

Lemma split_go_char_absent (c : ascii) (s cur : string) :
  has_char c s = false -> split_go (char c) O cur s = [cur ++ s].
Proof. intros Hs. apply split_go_absent. now rewrite contains_char. Qed.

Lemma split_go_nonempty (sep : string) (s : string) :
  forall skip cur, split_go sep skip cur s <> [].
Proof.
  induction s as [|x s IH]; intros skip cur; cbn [split_go]; [discriminate|].
  destruct skip; [|apply IH].
  destruct (prefix sep (String x s)); [discriminate|apply IH].
Qed.

Lemma last_cons_nonempty (x : string) (l : list string) :
  l <> [] -> py_last (x :: l) = py_last l.
Proof. intros Hl. destruct l; [contradiction|reflexivity]. Qed.

(** The first piece: the text before the first occurrence of the character. *)
Lemma split_first_char (c : ascii) (a b : string) :
  forall cur, has_char c a = false ->
  py_first (split_go (char c) O cur (a ++ String c b)) = cur ++ a.
Proof.
  induction a as [|x a IH]; intros cur Ha.
  - cbn [append split_go]. rewrite prefix_char, Ascii.eqb_refl. simpl.
    now rewrite append_nil_r.
  - cbn [has_char] in Ha. apply orb_false_iff in Ha as [Hx Ha].
    cbn [append split_go]. rewrite prefix_char, Hx, (IH _ Ha).
    now rewrite append_char.
Qed.

(** The last piece: the text after the last occurrence of the character. *)
Lemma split_last_char (c : ascii) (a b : string) :
  forall cur, has_char c b = false ->
  py_last (split_go (char c) O cur (a ++ String c b)) = b.
Proof.
  induction a as [|x a IH]; intros cur Hb.
  - cbn [append split_go]. rewrite prefix_char, Ascii.eqb_refl.
    cbn [String.length char Nat.sub]. now rewrite split_go_char_absent.
  - cbn [append split_go]. rewrite prefix_char.
    destruct (Ascii.eqb x c); [|now apply IH].
    cbn [String.length char Nat.sub].
    rewrite last_cons_nonempty by apply split_go_nonempty. now apply IH.
Qed.

(** The last piece keeps any tail that is free of the character. *)
Lemma split_last_suffix (c : ascii) (s t : string) :
  has_char c t = false ->
  forall cur, exists y, py_last (split_go (char c) O cur (s ++ t)) = y ++ t.
Proof.
  intros Ht. induction s as [|x s IH]; intros cur.
  - exists cur. cbn [append]. now rewrite split_go_char_absent.
  - cbn [append split_go]. rewrite prefix_char.
    destruct (Ascii.eqb x c); [|apply IH].
    cbn [String.length char Nat.sub].
    rewrite last_cons_nonempty by apply split_go_nonempty. apply IH.
Qed.

Lemma prefix_refl_app (a b : string) : prefix a (a ++ b) = true.
Proof.
  induction a as [|x a IH]; simpl; [now destruct b|].
  destruct (ascii_dec x x); [exact IH|contradiction].
Qed.

Lemma contains_infix (needle a b : string) :
  str_contains needle (a ++ needle ++ b) = true.
Proof.
  induction a as [|x a IH].
  - cbn [append].
    assert (H : forall hay, prefix needle hay = true -> str_contains needle hay = true).
    { intros [|y hay] Hp; cbn [str_contains]; now rewrite Hp. }
    apply H, prefix_refl_app.
  - cbn [append str_contains]. rewrite IH. apply orb_true_r.
Qed.

Lemma endswith_suffix (a suffix : string) : str_endswith (a ++ suffix) suffix = true.
Proof.
  induction a as [|x a IH].
  - cbn [append]. destruct suffix; simpl; [reflexivity|].
    now rewrite Ascii.eqb_refl, String.eqb_refl.
  - cbn [append str_endswith]. rewrite IH. apply orb_true_r.
Qed.

(** ** Integers and their decimal strings *)

Lemma rev_onto_involutive (s : string) :
  forall acc acc',
    string_rev_onto (string_rev_onto s acc) acc' = string_rev_onto acc (s ++ acc').
Proof.
  induction s as [|c s IH]; intros acc acc'; simpl; [reflexivity|].
  now rewrite IH.
Qed.

Lemma string_rev_involutive (s : string) : string_rev (string_rev s) = s.
Proof.
  unfold string_rev. rewrite rev_onto_involutive. simpl. apply append_nil_r.
Qed.

Lemma all_chars_rev_onto (P : ascii -> bool) (s : string) :
  forall acc,
    all_chars P (string_rev_onto s acc) = (all_chars P s && all_chars P acc)%bool.
Proof.
  induction s as [|c s IH]; intros acc; simpl; [reflexivity|].
  rewrite IH. simpl. now rewrite andb_assoc, (andb_comm (all_chars P s)).
Qed.

Lemma lstrip_no_space (s : string) : all_chars not_space s = true -> lstrip s = s.
Proof.
  destruct s as [|c s]; simpl; [reflexivity|]. unfold not_space.
  intros H. apply andb_true_iff in H as [Hc _].
  now destruct (is_space c).
Qed.

Lemma str_strip_no_space (s : string) : all_chars not_space s = true -> str_strip s = s.
Proof.
  intros Hs. unfold str_strip. rewrite (lstrip_no_space s Hs).
  rewrite lstrip_no_space; [apply string_rev_involutive|].
  unfold string_rev. rewrite all_chars_rev_onto, Hs. reflexivity.
Qed.

Lemma all_chars_impl (P Q : ascii -> bool) (s : string) :
  (forall c, P c = true -> Q c = true) -> all_chars P s = true -> all_chars Q s = true.
Proof.
  intros HPQ. induction s as [|c s IH]; simpl; [reflexivity|].
  intros H. apply andb_true_iff in H as [Hc Hs]. now rewrite (HPQ c Hc), IH.
Qed.

Lemma uint_digits (d : Decimal.uint) :
  all_chars is_digit (NilEmpty.string_of_uint d) = true.
Proof. induction d; simpl; auto. Qed.

Lemma py_str_chars (n : Z) : all_chars sign_or_digit (py_str n) = true.
Proof.
  assert (H : forall d, all_chars sign_or_digit (NilEmpty.string_of_uint d) = true).
  { intros d. apply (all_chars_impl is_digit); [|apply uint_digits].
    intros c Hc. unfold sign_or_digit. now rewrite Hc. }
  unfold py_str. destruct n; simpl; auto.
Qed.

Lemma sign_or_digit_not_space (c : ascii) : sign_or_digit c = true -> not_space c = true.
Proof.
  unfold sign_or_digit, not_space, is_space, is_digit.
  destruct (Ascii.eqb_spec c "-") as [->|_]; [reflexivity|].
  rewrite orb_false_r. intros H. apply andb_true_iff in H as [H1 H2].
  apply Nat.leb_le in H1, H2.
  assert (E2 : (nat_of_ascii c <=? 13)%nat = false) by (apply Nat.leb_gt; lia).
  assert (E4 : (nat_of_ascii c <=? 32)%nat = false) by (apply Nat.leb_gt; lia).
  now rewrite E2, E4, !andb_false_r.
Qed.

Lemma digits_value_acc (d : Decimal.uint) :
  forall acc,
    digits_value (Z.pos acc) true (NilEmpty.string_of_uint d)
    = Some (Z.pos (Pos.of_uint_acc d acc)).
Proof.
  induction d; intros acc; cbn [NilEmpty.string_of_uint Pos.of_uint_acc digits_value];
    [reflexivity|..];
    match goal with
    | |- context [is_digit ?c] => change (is_digit c) with true; cbv iota
    end;
    rewrite <- IHd; f_equal;
    match goal with
    | |- context [Z.of_nat ?t] =>
        let v := eval vm_compute in (Z.of_nat t) in change (Z.of_nat t) with v
    end;
    lia.
Qed.

Lemma digits_value_uint (d : Decimal.uint) :
  forall b, d <> Decimal.Nil \/ b = true ->
    digits_value 0 b (NilEmpty.string_of_uint d) = Some (Z.of_N (Pos.of_uint d)).
Proof.
  induction d; intros b Hb; cbn [NilEmpty.string_of_uint Pos.of_uint digits_value];
    [destruct Hb as [Hb| ->]; [contradiction|reflexivity]
    |apply IHd; now right
    |..];
    match goal with
    | |- context [is_digit ?c] => change (is_digit c) with true; cbv iota
    end;
    apply digits_value_acc.
Qed.

(** Reading back the decimal string of an integer gives the integer. *)
Lemma py_int_str (n : Z) : py_int (py_str n) = Ok n.
Proof.
  unfold py_int. rewrite str_strip_no_space.
  2:{ apply (all_chars_impl sign_or_digit); [apply sign_or_digit_not_space|].
      apply py_str_chars. }
  unfold py_str. destruct n as [|p|p]; [reflexivity|..]; cbn [Z.to_int NilEmpty.string_of_int].
  - pose proof (uint_digits (Pos.to_uint p)) as Hd.
    pose proof (DecimalPos.Unsigned.to_uint_nonnil p) as Hnil.
    destruct (NilEmpty.string_of_uint (Pos.to_uint p)) as [|c r] eqn:E.
    { destruct (Pos.to_uint p); try discriminate. contradiction. }
    cbn [all_chars] in Hd. apply andb_true_iff in Hd as [Hc _].
    assert (Hm : Ascii.eqb c "-" = false).
    { apply Ascii.eqb_neq. intros ->. discriminate. }
    assert (Hp : Ascii.eqb c "+" = false).
    { apply Ascii.eqb_neq. intros ->. discriminate. }
    rewrite Hm, Hp, <- E, digits_value_uint by now left.
    now rewrite DecimalPos.Unsigned.of_to.
  - rewrite Ascii.eqb_refl, digits_value_uint by (left; apply DecimalPos.Unsigned.to_uint_nonnil).
    now rewrite DecimalPos.Unsigned.of_to.
Qed.

Lemma py_str_lacks (c : ascii) (n : Z) : sign_or_digit c = false -> has_char c (py_str n) = false.
Proof. intros Hc. apply (all_chars_lacks sign_or_digit); [apply py_str_chars|exact Hc]. Qed.

(** The batch id read off a result file name is the one it was written with. *)
Lemma batch_id_of_filename (x : string) (n : Z) :
  batch_id_of (x ++ "_" ++ py_str n ++ ".json") = py_str n.
Proof.
  unfold batch_id_of, str_split.
  assert (H1 : has_char "/" ("_" ++ py_str n ++ ".json") = false).
  { cbn [append has_char]. rewrite has_char_app, py_str_lacks by reflexivity. reflexivity. }
  destruct (split_last_suffix "/" x _ H1 "") as [y Hy]. unfold char in Hy. rewrite Hy.
  cbn [append].
  assert (H2 : has_char "_" (py_str n ++ ".json") = false).
  { rewrite has_char_app, py_str_lacks by reflexivity. reflexivity. }
  pose proof (split_last_char "_" y _ "" H2) as Hl. unfold char in Hl. rewrite Hl.
  assert (H3 : has_char "." (py_str n) = false) by (apply py_str_lacks; reflexivity).
  pose proof (split_first_char "." (py_str n) "json" "" H3) as Hf. unfold char in Hf.
  apply Hf.
Qed.

(** ** Dictionaries *)

Lemma dict_set_fresh {V : Type} (k : Z) (v : V) (d : list (Z * V)) :
  ~ In k (keys d) -> dict_set Z.eqb k v d = (d ++ [(k, v)])%list.
Proof.
  induction d as [|[k' v'] d IH]; simpl; intros Hk; [reflexivity|].
  destruct (Z.eqb_spec k k') as [->|_]; [tauto|].
  rewrite IH by tauto. reflexivity.
Qed.

Lemma keys_app {K V : Type} (d1 d2 : list (K * V)) :
  keys (d1 ++ d2)%list = (keys d1 ++ keys d2)%list.
Proof. apply map_app. Qed.

Lemma fold_dict_set_fresh {V : Type} (f : Z -> V) (m : nat) :
  forall (a : nat) (acc : list (Z * V)),
    (forall k, In k (keys acc) -> k < Z.of_nat a) ->
    fold_left (fun bs batch => dict_set Z.eqb batch (f batch) bs)
      (map Z.of_nat (seq a m)) acc
    = (acc ++ map (fun i => (i, f i)) (map Z.of_nat (seq a m)))%list.
Proof.
  induction m as [|m IH]; intros a acc Hacc; simpl.
  - now rewrite app_nil_r.
  - rewrite dict_set_fresh.
    + rewrite IH.
      * now rewrite <- app_assoc.
      * intros k. rewrite keys_app, in_app_iff. simpl.
        intros [Hk|[<-|[]]]; [apply Hacc in Hk|]; lia.
    + intros Hin. apply Hacc in Hin. lia.
Qed.

(** ** The batch planner *)

(** The plan [define_batches] returns for a non-zero batch size, written out. *)
Lemma define_batches_nonzero (n bs : Z) :
  bs <> 0 ->
  define_batches n bs
  = Ok (map (full_batch bs) (py_range (n / bs))
        ++ (if n mod bs >? 0 then [partial_batch n bs] else []))%list.
Proof.
  intros Hbs. unfold define_batches, py_floordiv, py_mod.
  destruct (Z.eqb_spec bs 0) as [|_]; [contradiction|]. unfold rbind.
  unfold py_range. rewrite (fold_dict_set_fresh _ _ 0 []) by (simpl; tauto).
  rewrite app_nil_l.
  change (map (fun i => (i, _)) ?l) with (map (full_batch bs) l).
  destruct (n mod bs >? 0) eqn:Hr; [|now rewrite app_nil_r].
  rewrite dict_set_fresh.
  - unfold partial_batch. do 6 f_equal.
    pose proof (Z.div_mod n bs Hbs). lia.
  - unfold keys. rewrite !map_map. simpl. rewrite in_map_iff.
    intros [i [Hi Hin]]. apply in_seq in Hin. lia.
Qed.

Lemma covered_app (p1 p2 : plan) :
  covered (p1 ++ p2)%list = (covered p1 ++ covered p2)%list.
Proof. apply flat_map_app. Qed.

Lemma total_length_app (p1 p2 : plan) :
  total_length (p1 ++ p2)%list = total_length p1 + total_length p2.
Proof. induction p1 as [|e p1 IH]; simpl; [reflexivity|]. rewrite IH. lia. Qed.

Lemma range_from (a : Z) (m : nat) :
  0 <= a ->
  map (fun i => a + Z.of_nat i) (seq 0 m) = map Z.of_nat (seq (Z.to_nat a) m).
Proof.
  intros Ha. rewrite <- (Nat.add_0_r (Z.to_nat a)) at 1.
  generalize 0%nat as s. induction m as [|m IH]; intros s; simpl; [reflexivity|].
  rewrite IH. f_equal; [lia|]. now rewrite Nat.add_succ_r.
Qed.

Lemma full_batch_length (bs i : Z) : batch_length (snd (full_batch bs i)) = bs.
Proof. unfold batch_length, full_batch. simpl. lia. Qed.

Lemma partial_batch_length (n bs : Z) :
  bs <> 0 -> batch_length (snd (partial_batch n bs)) = n mod bs.
Proof.
  intros Hbs. unfold batch_length, partial_batch. simpl.
  pose proof (Z.div_mod n bs Hbs). lia.
Qed.

Lemma covered_full (bs : Z) (k : nat) :
  0 < bs ->
  covered (map (full_batch bs) (map Z.of_nat (seq 0 k)))
  = map Z.of_nat (seq 0 (k * Z.to_nat bs)).
Proof.
  intros Hbs. induction k as [|k IH]; [reflexivity|].
  rewrite seq_S, !map_app, covered_app, IH.
  cbn [map covered flat_map Nat.add Nat.mul]. rewrite app_nil_r.
  rewrite (Nat.add_comm (Z.to_nat bs)), seq_app, map_app. f_equal.
  unfold batch_range. rewrite full_batch_length.
  cbn [full_batch snd indices fst Nat.add].
  rewrite range_from by lia. do 2 f_equal. lia.
Qed.

Lemma total_length_full (bs : Z) (l : list Z) :
  total_length (map (full_batch bs) l) = bs * len l.
Proof.
  unfold len. induction l as [|i l IH]; [simpl; lia|].
  cbn [map total_length fold_right]. fold (total_length (map (full_batch bs) l)).
  rewrite IH, full_batch_length. cbn [List.length]. lia.
Qed.

Lemma keys_full (bs : Z) (l : list Z) : keys (map (full_batch bs) l) = l.
Proof. unfold keys. rewrite map_map. simpl. apply map_id. Qed.

Lemma py_range_S (k : Z) : 0 <= k -> py_range (k + 1) = (py_range k ++ [k])%list.
Proof.
  intros Hk. unfold py_range. rewrite Z2Nat.inj_add by lia.
  change (Z.to_nat 1) with 1%nat. rewrite Nat.add_1_r, seq_S, map_app. simpl.
  now rewrite Z2Nat.id.
Qed.

Lemma len_py_range (k : Z) : 0 <= k -> len (py_range k) = k.
Proof. intros Hk. unfold len, py_range. rewrite length_map, length_seq. lia. Qed.

Section Planned.
Variables (n bs : Z).
Hypothesis n_nonneg : 0 <= n.
Hypothesis bs_pos : 0 < bs.

Lemma define_batches_planned : define_batches n bs = Ok (planned n bs).
Proof.
  rewrite define_batches_nonzero by lia. unfold planned.
  pose proof (Z.mod_pos_bound n bs bs_pos).
  destruct (Z.eqb_spec (n mod bs) 0) as [Hr|Hr], (Z.gtb_spec (n mod bs) 0);
    try reflexivity; lia.
Qed.

Lemma planned_keys :
  keys (planned n bs) = py_range (n / bs + (if n mod bs =? 0 then 0 else 1)).
Proof.
  assert (Hq : 0 <= n / bs) by (apply Z.div_pos; lia).
  unfold planned. rewrite keys_app, keys_full.
  destruct (n mod bs =? 0).
  - now rewrite app_nil_r, Z.add_0_r.
  - now rewrite py_range_S.
Qed.

Lemma planned_covered : covered (planned n bs) = py_range n.
Proof.
  assert (Hq : 0 <= n / bs) by (apply Z.div_pos; lia).
  pose proof (Z.div_mod n bs ltac:(lia)) as Hdm.
  pose proof (Z.mod_pos_bound n bs bs_pos) as Hmod.
  unfold planned. rewrite covered_app. unfold py_range at 1.
  rewrite covered_full by lia.
  destruct (Z.eqb_spec (n mod bs) 0) as [Hr|Hr].
  - cbn [covered flat_map]. rewrite app_nil_r. unfold py_range. do 2 f_equal. nia.
  - cbn [covered flat_map]. rewrite app_nil_r.
    unfold batch_range. rewrite partial_batch_length by lia.
    cbn [partial_batch snd indices fst]. rewrite range_from by nia.
    replace (Z.to_nat (bs * (n / bs)))
      with (0 + Z.to_nat (n / bs) * Z.to_nat bs)%nat by nia.
    rewrite <- map_app, <- seq_app. unfold py_range. do 2 f_equal. nia.
Qed.

Lemma planned_total : total_length (planned n bs) = n.
Proof.
  assert (Hq : 0 <= n / bs) by (apply Z.div_pos; lia).
  pose proof (Z.div_mod n bs ltac:(lia)) as Hdm.
  unfold planned. rewrite total_length_app, total_length_full, len_py_range by lia.
  destruct (Z.eqb_spec (n mod bs) 0) as [Hr|Hr].
  - cbn. lia.
  - cbn [total_length fold_right]. rewrite partial_batch_length by lia. lia.
Qed.

(** The batches of the plan: where each starts, how long it is, and that it
    lies within the reports. *)
Lemma planned_entry (id : Z) (b : batch) :
  In (id, b) (planned n bs) ->
  0 <= id /\ fst (indices b) = bs * id /\ processed b = false /\
  0 <= batch_length b /\ bs * id + batch_length b <= n /\
  batch_length b = (if id <? n / bs then bs else n mod bs).
Proof.
  assert (Hq : 0 <= n / bs) by (apply Z.div_pos; lia).
  pose proof (Z.div_mod n bs ltac:(lia)) as Hdm.
  pose proof (Z.mod_pos_bound n bs bs_pos) as Hmod.
  unfold planned. intros Hin. apply in_app_iff in Hin as [Hin|Hin].
  - apply in_map_iff in Hin as (i & Heq & Hi). unfold full_batch in Heq.
    injection Heq as <- <-. unfold py_range in Hi.
    apply in_map_iff in Hi as (k & <- & Hk). apply in_seq in Hk.
    unfold batch_length. cbn [indices fst snd processed].
    destruct (Z.ltb_spec (Z.of_nat k) (n / bs)); [|lia].
    repeat split; nia.
  - destruct (Z.eqb_spec (n mod bs) 0) as [Hr|Hr]; [destruct Hin|].
    destruct Hin as [Heq|[]]. unfold partial_batch in Heq. injection Heq as <- <-.
    unfold batch_length. cbn [indices fst snd processed].
    destruct (Z.ltb_spec (n / bs) (n / bs)); [lia|].
    repeat split; nia.
Qed.

(** Every report position lies in the batch of id [j // bs], at the local
    index [j % bs]. *)
Lemma planned_position (j : Z) :
  0 <= j < n ->
  exists b, In (j / bs, b) (planned n bs) /\ 0 <= j mod bs < batch_length b.
Proof.
  intros Hj.
  assert (Hq : 0 <= n / bs) by (apply Z.div_pos; lia).
  pose proof (Z.div_mod n bs ltac:(lia)) as Hdm.
  pose proof (Z.mod_pos_bound n bs bs_pos) as Hmod.
  pose proof (Z.div_mod j bs ltac:(lia)) as Hjdm.
  pose proof (Z.mod_pos_bound j bs bs_pos) as Hjmod.
  assert (Hjq : 0 <= j / bs <= n / bs).
  { split; [apply Z.div_pos; lia|apply Z.div_le_mono; lia]. }
  destruct (Z_lt_ge_dec (j / bs) (n / bs)) as [Hlt|Hge].
  - exists (snd (full_batch bs (j / bs))). split.
    + unfold planned. apply in_app_iff. left. apply in_map_iff.
      exists (j / bs). split; [reflexivity|]. unfold py_range.
      apply in_map_iff. exists (Z.to_nat (j / bs)). split; [lia|].
      apply in_seq. lia.
    + rewrite full_batch_length. lia.
  - assert (Heq : j / bs = n / bs) by lia.
    assert (Hr : n mod bs <> 0) by nia.
    exists (snd (partial_batch n bs)). split.
    + unfold planned. apply in_app_iff. right.
      destruct (Z.eqb_spec (n mod bs) 0); [contradiction|].
      left. unfold partial_batch. cbn [snd]. now rewrite Heq.
    + rewrite partial_batch_length by lia. nia.
Qed.

End Planned.

(** C3. For every report count [n >= 0] and batch size [bs > 0],
    [define_batches] returns without error the [n // bs] full batches of
    [bs] reports each, followed by one partial batch of [n % bs] reports
    exactly when that remainder is not zero; the batch ids are 0, 1, 2, ... in
    order; the inclusive index ranges, read batch after batch, are exactly
    the positions 0, ..., n-1 (no gap, no overlap); and the batch lengths sum
    to [n]. *)
Theorem define_batches_partition (n bs : Z) :
  0 <= n -> 0 < bs ->
  exists p,
    define_batches n bs = Ok p /\
    p = (map (full_batch bs) (py_range (n / bs))
         ++ (if n mod bs =? 0 then [] else [partial_batch n bs]))%list /\
    (forall i, batch_length (snd (full_batch bs i)) = bs) /\
    batch_length (snd (partial_batch n bs)) = n mod bs /\
    keys p = py_range (n / bs + (if n mod bs =? 0 then 0 else 1)) /\
    covered p = py_range n /\
    total_length p = n /\
    (forall id b, In (id, b) p -> processed b = false).
Proof.
  intros Hn Hbs. exists (planned n bs).
  split; [now apply define_batches_planned|]. split; [reflexivity|].
  split; [apply full_batch_length|].
  split; [apply partial_batch_length; lia|].
  split; [now apply planned_keys|].
  split; [now apply planned_covered|].
  split; [now apply planned_total|].
  intros id b Hin. now apply (planned_entry n bs Hn Hbs id b).
Qed.

(** C9 (as the code has it). [define_batches] has no error condition: it
    returns a plan for every report count and batch size.  For no reports
    that plan is empty when the batch size is not zero; with the batch size
    0 it holds the single batch of id 0 with the index pair (0, -1). *)
Theorem define_batches_no_reports :
  (forall bs, define_batches 0 bs
              = Ok (if bs =? 0 then [(0, mkBatch (0, -1) false)] else [])) /\
  (forall n bs, exists p, define_batches n bs = Ok p).
Proof.
  split.
  - intros bs. destruct (Z.eqb_spec bs 0) as [->|Hbs]; [reflexivity|].
    rewrite define_batches_nonzero by assumption.
    rewrite Z.div_0_l, Z.mod_0_l by assumption. reflexivity.
  - intros n bs. destruct (Z.eq_dec bs 0) as [->|Hbs].
    + eexists. reflexivity.
    + eexists. apply define_batches_nonzero. assumption.
Qed.

(** C9, counterexample: with the batch size 0 the plan for no reports is not
    empty. *)
Lemma define_batches_sentinel_not_empty :
  define_batches 0 0 = Ok [(0, mkBatch (0, -1) false)] /\
  define_batches 0 0 <> Ok [].
Proof. split; [reflexivity|discriminate]. Qed.

Lemma define_batches_partition_witness :
  0 <= 25 /\ 0 < 10 /\
  exists p,
    define_batches 25 10 = Ok p /\
    p = (map (full_batch 10) (py_range (25 / 10))
         ++ (if 25 mod 10 =? 0 then [] else [partial_batch 25 10]))%list /\
    (forall i, batch_length (snd (full_batch 10 i)) = 10) /\
    batch_length (snd (partial_batch 25 10)) = 25 mod 10 /\
    keys p = py_range (25 / 10 + (if 25 mod 10 =? 0 then 0 else 1)) /\
    covered p = py_range 25 /\
    total_length p = 25 /\
    (forall id b, In (id, b) p -> processed b = false).
Proof.
  split; [lia|]. split; [lia|]. apply (define_batches_partition 25 10); lia.
Defined.

(** ** The score function *)

Lemma weighted_num (q : Q) (w : Z) :
  weighted (PyNum q) w = Ok (fmul (fdiv q (inject_Z 100)) (inject_Z w)).
Proof. reflexivity. Qed.

(** C7. For every mapping that gives a number to each of the five classes,
    [ffsi_score] returns the sum over the classes of
    [probability / 100 * weight] with the weights 1 to 5, and its normalized
    variant returns that score divided by 5.  A mapping with MINOR at 100 and
    the rest at 0 scores 1, one with CATASTROPHIC at 100 scores 5, and
    normalized they score 1/5 and 1; the same four values come out of the
    expression on binary64 numbers. *)
Theorem ffsi_score_weighted_sum (d : list (string * pyval)) (probability : string -> Q) :
  (forall class, In class (map fst class_weights) ->
                 dict_get String.eqb class d = Some (PyNum (probability class))) ->
  (exists score normalized,
      ffsi_score (PyDict d) false = Ok score /\
      (score == weighted_sum probability)%Q /\
      ffsi_score (PyDict d) true = Ok normalized /\
      (normalized == score / inject_Z 5)%Q) /\
  ffsi_score (only "MINOR" (inject_Z 100)) false = Ok 1%Q /\
  ffsi_score (only "CATASTROPHIC" (inject_Z 100)) false = Ok (inject_Z 5) /\
  ffsi_score (only "MINOR" (inject_Z 100)) true = Ok (1 # 5)%Q /\
  ffsi_score (only "CATASTROPHIC" (inject_Z 100)) true = Ok 1%Q /\
  ffsi_score_binary64 100 0 0 0 0 false = 1%float /\
  ffsi_score_binary64 0 0 0 0 100 false = 5%float /\
  ffsi_score_binary64 100 0 0 0 0 true = (1 / 5)%float /\
  ffsi_score_binary64 0 0 0 0 100 true = (5 / 5)%float.
Proof.
  intros Hd. split; [|repeat split; vm_compute; reflexivity].
  unfold ffsi_score, dict_getitem.
  rewrite !Hd by (simpl; tauto). unfold rbind. rewrite !weighted_num.
  do 2 eexists. split; [reflexivity|]. split; [|split; [reflexivity|]].
  - unfold weighted_sum, fadd, fmul, fdiv. cbn [fold_right class_weights fst snd].
    rewrite !Qred_correct.
    generalize (probability "MINOR"), (probability "MODERATE"),
      (probability "SERIOUS"), (probability "SEVERE"), (probability "CATASTROPHIC").
    intros. ring.
  - unfold fdiv at 1. rewrite Qred_correct. reflexivity.
Qed.

Lemma ffsi_score_weighted_sum_witness :
  (forall class, In class (map fst class_weights) ->
     dict_get String.eqb class
       [("MINOR", PyNum 10%Q); ("MODERATE", PyNum 20%Q); ("SERIOUS", PyNum 30%Q);
        ("SEVERE", PyNum 40%Q); ("CATASTROPHIC", PyNum 0%Q)]
     = Some (PyNum (if String.eqb class "MINOR" then 10
                    else if String.eqb class "MODERATE" then 20
                    else if String.eqb class "SERIOUS" then 30
                    else if String.eqb class "SEVERE" then 40 else 0)%Q)) /\
  exists score normalized,
    ffsi_score
      (PyDict [("MINOR", PyNum 10%Q); ("MODERATE", PyNum 20%Q); ("SERIOUS", PyNum 30%Q);
               ("SEVERE", PyNum 40%Q); ("CATASTROPHIC", PyNum 0%Q)]) false = Ok score /\
    (score == 3)%Q /\
    ffsi_score
      (PyDict [("MINOR", PyNum 10%Q); ("MODERATE", PyNum 20%Q); ("SERIOUS", PyNum 30%Q);
               ("SEVERE", PyNum 40%Q); ("CATASTROPHIC", PyNum 0%Q)]) true = Ok normalized /\
    (normalized == 3 # 5)%Q.
Proof.
  assert (H : forall class, In class (map fst class_weights) ->
     dict_get String.eqb class
       [("MINOR", PyNum 10%Q); ("MODERATE", PyNum 20%Q); ("SERIOUS", PyNum 30%Q);
        ("SEVERE", PyNum 40%Q); ("CATASTROPHIC", PyNum 0%Q)]
     = Some (PyNum (if String.eqb class "MINOR" then 10
                    else if String.eqb class "MODERATE" then 20
                    else if String.eqb class "SERIOUS" then 30
                    else if String.eqb class "SEVERE" then 40 else 0)%Q)).
  { intros class Hin. simpl in Hin.
    destruct Hin as [<-|[<-|[<-|[<-|[<-|[]]]]]]; reflexivity. }
  split; [exact H|].
  destruct (ffsi_score_weighted_sum _ _ H) as [[score [normalized [Hs [Hv [Hn Hq]]]]] _].
  exists score, normalized. split; [exact Hs|]. split.
  - rewrite Hv. reflexivity.
  - split; [exact Hn|]. rewrite Hq, Hv. reflexivity.
Defined.

(** ** Relations that every step of a computation keeps *)

Section Preservation.
Variable R : state -> state -> Prop.
Hypothesis R_refl : forall st, R st st.
Hypothesis R_trans : forall a b c, R a b -> R b c -> R a c.

Lemma preserves_ret {A : Type} (a : A) : preserves R (ret a).
Proof. intros st. apply R_refl. Qed.

Lemma preserves_lift {A : Type} (r : result A) : preserves R (lift r).
Proof. intros st. apply R_refl. Qed.

Lemma preserves_bind {A B : Type} (m : M A) (k : A -> M B) :
  preserves R m -> (forall a, preserves R (k a)) -> preserves R (bind m k).
Proof.
  intros Hm Hk st. unfold bind. specialize (Hm st).
  destruct (m st) as [[a|e] st1]; simpl in *; [|exact Hm].
  eapply R_trans; [exact Hm|apply Hk].
Qed.

Lemma preserves_try_except {A : Type} (m : M A) (catches : exn -> bool)
    (handler : exn -> M A) :
  preserves R m -> (forall e, preserves R (handler e)) ->
  preserves R (try_except m catches handler).
Proof.
  intros Hm Hh st. unfold try_except. specialize (Hm st).
  destruct (m st) as [[a|e] st1]; simpl in *; [exact Hm|].
  destruct (catches e); [|exact Hm].
  eapply R_trans; [exact Hm|apply Hh].
Qed.

Lemma preserves_when (b : bool) (m : M unit) : preserves R m -> preserves R (when b m).
Proof. intros Hm. destruct b; [exact Hm|apply preserves_ret]. Qed.

Lemma preserves_get_batches : preserves R get_batches.
Proof. intros st. apply R_refl. Qed.

End Preservation.

Lemma attempt_frame_refl (st : state) : attempt_frame st st.
Proof.
  repeat split. exists []. now rewrite app_nil_r.
Qed.

Lemma attempt_frame_trans (a b c : state) :
  attempt_frame a b -> attempt_frame b c -> attempt_frame a c.
Proof.
  intros (Hb1 & Hr1 & e1 & Hc1 & He1) (Hb2 & Hr2 & e2 & Hc2 & He2).
  repeat split; [congruence..|].
  exists (e1 ++ e2)%list. rewrite Hc2, Hc1, <- app_assoc, forallb_app, He1, He2.
  now split.
Qed.

Lemma attempt_frame_emit (e : event) :
  service_event e = true -> preserves attempt_frame (emit e).
Proof.
  intros He st. repeat split. exists [e]. simpl. now rewrite He.
Qed.

Lemma plan_le_refl (p : plan) : plan_le p p.
Proof. split; [reflexivity|]. intros id b Hb. now exists b. Qed.

Lemma plan_le_trans (p q r : plan) : plan_le p q -> plan_le q r -> plan_le p r.
Proof.
  intros [Hk1 H1] [Hk2 H2]. split; [congruence|].
  intros id b Hb. destruct (H1 id b Hb) as (b1 & Hb1 & Hi1 & Hp1).
  destruct (H2 id b1 Hb1) as (b2 & Hb2 & Hi2 & Hp2).
  exists b2. repeat split; [assumption|congruence|auto].
Qed.

Lemma plan_grows_refl (st : state) : plan_grows st st.
Proof. apply plan_le_refl. Qed.

Lemma plan_grows_trans (a b c : state) : plan_grows a b -> plan_grows b c -> plan_grows a c.
Proof. apply plan_le_trans. Qed.

Lemma keys_dict_set_present {V : Type} (k : Z) (v : V) (d : list (Z * V)) :
  In k (keys d) -> keys (dict_set Z.eqb k v d) = keys d.
Proof.
  induction d as [|[k' v'] d IH]; simpl; [tauto|].
  intros Hin. destruct (Z.eqb_spec k k') as [->|Hne]; [reflexivity|].
  simpl. f_equal. apply IH. destruct Hin; [congruence|assumption].
Qed.

Lemma dict_get_in_keys {V : Type} (k : Z) (d : list (Z * V)) (v : V) :
  dict_get Z.eqb k d = Some v -> In k (keys d).
Proof.
  induction d as [|[k' v'] d IH]; simpl; [discriminate|].
  destruct (Z.eqb_spec k k') as [->|Hne]; [now left|]. intros H. right. now apply IH.
Qed.

Lemma in_keys_dict_get {V : Type} (k : Z) (d : list (Z * V)) :
  In k (keys d) -> exists v, dict_get Z.eqb k d = Some v.
Proof.
  induction d as [|[k' v'] d IH]; simpl; [tauto|].
  intros Hin. destruct (Z.eqb_spec k k') as [->|Hne]; [now eexists|].
  apply IH. destruct Hin; [congruence|assumption].
Qed.

Lemma dict_get_set_same {V : Type} (k : Z) (v : V) (d : list (Z * V)) :
  dict_get Z.eqb k (dict_set Z.eqb k v d) = Some v.
Proof.
  induction d as [|[k' v'] d IH]; simpl.
  - now rewrite Z.eqb_refl.
  - destruct (Z.eqb_spec k k') as [->|Hne]; simpl.
    + now rewrite Z.eqb_refl.
    + destruct (Z.eqb_spec k k'); [contradiction|exact IH].
Qed.

Lemma dict_get_set_other {V : Type} (k k0 : Z) (v : V) (d : list (Z * V)) :
  k0 <> k -> dict_get Z.eqb k0 (dict_set Z.eqb k v d) = dict_get Z.eqb k0 d.
Proof.
  intros Hne. induction d as [|[k' v'] d IH]; simpl.
  - destruct (Z.eqb_spec k0 k); [contradiction|reflexivity].
  - destruct (Z.eqb_spec k k') as [->|Hne']; simpl.
    + destruct (Z.eqb_spec k0 k'); [contradiction|reflexivity].
    + destruct (Z.eqb_spec k0 k'); [reflexivity|exact IH].
Qed.

(** Marking a batch of the plan as processed only raises flags. *)
Lemma plan_le_mark (p : plan) (id : Z) (b : batch) :
  dict_get Z.eqb id p = Some b ->
  plan_le p (dict_set Z.eqb id (mkBatch (indices b) true) p).
Proof.
  intros Hb. split.
  - apply keys_dict_set_present. eapply dict_get_in_keys, Hb.
  - intros id0 b0 Hb0. destruct (Z.eq_dec id0 id) as [->|Hne].
    + rewrite dict_get_set_same. eexists. split; [reflexivity|].
      simpl. split; [congruence|reflexivity].
    + rewrite dict_get_set_other by assumption. now exists b0.
Qed.

(** ** What the parts of the pipeline keep *)

Section Kept.
Variable service : nat -> string -> string -> result string.
Variable R : state -> state -> Prop.
Hypothesis R_refl : forall st, R st st.
Hypothesis R_trans : forall a b c, R a b -> R b c -> R a c.
Hypothesis R_query : forall query task, preserves R (query_gpt service query task).
Hypothesis R_emit : forall e, service_event e = true -> preserves R (emit e).

Lemma classify_loop_preserves (impact_defs : string) (wait_time limit total : Z)
    (remarks : list string) :
  forall index acc,
    preserves R (classify_loop service impact_defs wait_time limit total index remarks acc).
Proof.
  induction remarks as [|remark rest IH]; intros index acc; cbn [classify_loop].
  - now apply preserves_ret.
  - apply preserves_bind; auto. intros response.
    apply preserves_bind; auto using preserves_lift. intros it.
    destruct (negb (limit =? 0) && (index =? limit - 1))%bool.
    + now apply preserves_ret.
    + apply preserves_bind; auto.
      apply preserves_when; auto. now apply R_emit.
Qed.

Lemma classify_preserves (remarks : list string) (impact_defs : string)
    (wait_time starting_idx limit : Z) (verbose : bool) :
  preserves R
    (classify_lsr_remarks service remarks impact_defs wait_time starting_idx limit verbose).
Proof.
  unfold classify_lsr_remarks.
  apply preserves_bind; auto.
  { apply preserves_when; auto. now apply R_emit. }
  intros _. apply preserves_bind; auto.
  { apply preserves_when; auto. now apply R_emit. }
  intros _. apply classify_loop_preserves.
Qed.

End Kept.

Lemma attempt_frame_query (service : nat -> string -> string -> result string)
    (query task : string) :
  preserves attempt_frame (query_gpt service query task).
Proof.
  intros st. unfold query_gpt.
  destruct (negb (String.eqb query "") && negb (String.eqb query " "))%bool.
  - repeat split. now exists [EvRequest query].
  - apply attempt_frame_refl.
Qed.

(** A classification attempt leaves the plan and the results directory as
    they are, whatever its outcome. *)
Lemma classify_frame (service : nat -> string -> string -> result string)
    (remarks : list string) (impact_defs : string)
    (wait_time starting_idx limit : Z) (verbose : bool) :
  preserves attempt_frame
    (classify_lsr_remarks service remarks impact_defs wait_time starting_idx limit verbose).
Proof.
  apply classify_preserves.
  - apply attempt_frame_refl.
  - apply attempt_frame_trans.
  - apply attempt_frame_query.
  - apply attempt_frame_emit.
Qed.

Lemma attempt_frame_grows (st st' : state) : attempt_frame st st' -> plan_grows st st'.
Proof. intros [Hb _]. unfold plan_grows. rewrite Hb. apply plan_le_refl. Qed.

Lemma grows_ret {A : Type} (a : A) : preserves plan_grows (ret a).
Proof. apply preserves_ret, plan_grows_refl. Qed.

Lemma grows_lift {A : Type} (r : result A) : preserves plan_grows (lift r).
Proof. apply preserves_lift, plan_grows_refl. Qed.

Lemma grows_bind {A B : Type} (m : M A) (k : A -> M B) :
  preserves plan_grows m -> (forall a, preserves plan_grows (k a)) ->
  preserves plan_grows (bind m k).
Proof. apply preserves_bind, plan_grows_trans. Qed.

Lemma grows_try_except {A : Type} (m : M A) (catches : exn -> bool)
    (handler : exn -> M A) :
  preserves plan_grows m -> (forall e, preserves plan_grows (handler e)) ->
  preserves plan_grows (try_except m catches handler).
Proof. apply preserves_try_except, plan_grows_trans. Qed.

Lemma grows_get_batches : preserves plan_grows get_batches.
Proof. apply preserves_get_batches, plan_grows_refl. Qed.

Lemma plan_grows_emit (e : event) : preserves plan_grows (emit e).
Proof. intros st. apply plan_le_refl. Qed.

Lemma plan_grows_write (results : list (Z * item)) (fname : string) :
  preserves plan_grows (write_results_json results fname).
Proof. intros st. apply plan_le_refl. Qed.

Lemma plan_grows_files (dir_path extension : string) :
  preserves plan_grows (get_files_in_dir dir_path extension).
Proof. intros st. apply plan_le_refl. Qed.

Lemma plan_grows_mark_processed (batch_id : Z) : preserves plan_grows (mark_processed batch_id).
Proof.
  intros st. unfold mark_processed, bind, get_batches, lift, dict_getitem.
  destruct (dict_get Z.eqb batch_id (batches st)) as [b|] eqn:Hb; simpl.
  - now apply plan_le_mark.
  - apply plan_le_refl.
Qed.

Lemma plan_grows_mark_found (result_files : list string) :
  preserves plan_grows (mark_found result_files).
Proof.
  induction result_files as [|json_file rest IH]; cbn [mark_found].
  - apply grows_ret.
  - apply grows_bind; [apply grows_lift|].
    intros n st. unfold bind, get_batches, lift, dict_getitem.
    destruct (dict_get Z.eqb n (batches st)) as [b|] eqn:Hb; simpl;
      [|apply plan_le_refl].
    eapply plan_grows_trans; [|apply IH].
    now apply plan_le_mark.
Qed.

Lemma plan_grows_match (file_uuid results_path : string) :
  preserves plan_grows (match_batch_results file_uuid results_path).
Proof.
  unfold match_batch_results.
  apply grows_bind; [apply plan_grows_files|]. intros files.
  apply grows_bind.
  - destruct (filter _ files); [apply plan_grows_emit|apply plan_grows_mark_found].
  - intros _. apply grows_get_batches.
Qed.

Section DriverKeeps.
Variable service : nat -> string -> string -> result string.
Variables (lsr_uuid impact_defs : string) (lsr_reports : list string).
Variables (max_batches wait_time : Z).

Lemma plan_grows_classify (remarks : list string) :
  preserves plan_grows
    (classify_lsr_remarks service remarks impact_defs wait_time 0 0 true).
Proof. intros st. apply attempt_frame_grows, classify_frame. Qed.

Lemma plan_grows_process (batch_id : Z) (b : batch) :
  preserves plan_grows
    (process_batch service lsr_uuid impact_defs lsr_reports wait_time batch_id b).
Proof.
  unfold process_batch. destruct (indices b) as [start_idx end_idx].
  apply grows_bind.
  - apply grows_try_except; [apply plan_grows_classify|].
    intros _. apply grows_bind; [apply plan_grows_emit|].
    intros _. apply plan_grows_classify.
  - intros r. apply grows_bind; [apply plan_grows_write|].
    intros _. apply grows_bind; [apply plan_grows_mark_processed|].
    intros _. apply grows_ret.
Qed.

Lemma plan_grows_loop (ids : list Z) :
  forall last,
    preserves plan_grows
      (batch_loop service lsr_uuid impact_defs lsr_reports max_batches wait_time ids last).
Proof.
  induction ids as [|batch_id rest IH]; intros last; cbn [batch_loop].
  - apply grows_ret.
  - apply grows_bind; [apply plan_grows_emit|]. intros _.
    apply grows_bind; [apply grows_get_batches|]. intros plan0.
    apply grows_bind; [apply grows_lift|]. intros b.
    apply grows_bind.
    + destruct (processed b).
      * apply grows_bind; [apply plan_grows_emit|]. intros _. apply grows_ret.
      * apply grows_bind; [apply plan_grows_process|]. intros r. apply grows_ret.
    + intros last'.
      destruct (negb (max_batches =? 0) && (batch_id =? max_batches))%bool;
        [apply grows_ret|apply IH].
Qed.

Lemma plan_grows_run :
  preserves plan_grows
    (run_batches service lsr_uuid impact_defs lsr_reports max_batches wait_time).
Proof.
  unfold run_batches.
  apply grows_bind; [apply grows_get_batches|]. intros plan0.
  apply grows_bind; [apply plan_grows_loop|].
  intros [[r|]|]; [apply grows_ret|apply grows_ret|apply grows_lift].
Qed.

End DriverKeeps.

(** C10. A batch whose [processed] flag is true keeps that flag, with its
    index range, through the checkpoint scan and through the batch loop,
    whether they return or raise: both only ever turn a flag from false to
    true. *)
Theorem processed_flag_monotone (service : nat -> string -> string -> result string)
    (lsr_uuid impact_defs results_path : string) (lsr_reports : list string)
    (max_batches wait_time : Z) (st : state) (id : Z) (b : batch) :
  dict_get Z.eqb id (batches st) = Some b ->
  processed b = true ->
  (exists b',
      dict_get Z.eqb id (batches (snd (match_batch_results lsr_uuid results_path st)))
      = Some b' /\ indices b' = indices b /\ processed b' = true) /\
  (exists b',
      dict_get Z.eqb id
        (batches (snd (run_batches service lsr_uuid impact_defs lsr_reports
                         max_batches wait_time st)))
      = Some b' /\ indices b' = indices b /\ processed b' = true) /\
  keys (batches (snd (match_batch_results lsr_uuid results_path st))) = keys (batches st) /\
  keys (batches (snd (run_batches service lsr_uuid impact_defs lsr_reports
                        max_batches wait_time st))) = keys (batches st).
Proof.
  intros Hb Hp.
  destruct (plan_grows_match lsr_uuid results_path st) as [Hk1 H1].
  destruct (plan_grows_run service lsr_uuid impact_defs lsr_reports max_batches wait_time st)
    as [Hk2 H2].
  destruct (H1 id b Hb) as (b1 & Hb1 & Hi1 & Hp1).
  destruct (H2 id b Hb) as (b2 & Hb2 & Hi2 & Hp2).
  repeat split; [exists b1|exists b2|..]; auto.
Qed.

Lemma processed_flag_monotone_witness :
  dict_get Z.eqb 1 (batches resumed_state) = Some (mkBatch (10, 19) true) /\
  (exists b',
      dict_get Z.eqb 1
        (batches (snd (run_batches limited_service "UUID" "" (sample_reports 25)
                         MAX_BATCHES WAIT_TIME resumed_state)))
      = Some b' /\ indices b' = (10, 19) /\ processed b' = true).
Proof.
  split; [reflexivity|].
  apply (processed_flag_monotone limited_service "UUID" "" RESULTS_OUTPUT
           (sample_reports 25) MAX_BATCHES WAIT_TIME resumed_state 1
           (mkBatch (10, 19) true)); reflexivity.
Defined.

(** ** The checkpoint scan *)

Lemma dict_get_absent {V : Type} (k : Z) (d : list (Z * V)) :
  ~ In k (keys d) -> dict_get Z.eqb k d = None.
Proof.
  intros Hk. destruct (dict_get Z.eqb k d) eqn:E; [|reflexivity].
  apply dict_get_in_keys in E. contradiction.
Qed.

Lemma among_spec (ids : list Z) (id : Z) : among ids id = true <-> In id ids.
Proof.
  unfold among. rewrite existsb_exists. split.
  - intros [x [Hx Heq]]. apply Z.eqb_eq in Heq. now subst.
  - intros H. exists id. now rewrite Z.eqb_refl.
Qed.

Lemma batch_eta (b : batch) : mkBatch (indices b) (processed b) = b.
Proof. now destruct b. Qed.

(** The marking loop when every id read off the files is in the plan. *)
Lemma mark_found_present (files : list string) :
  forall (ids : list Z) (st : state),
    map (fun f => py_int (batch_id_of f)) files = map Ok ids ->
    forallb (among (keys (batches st))) ids = true ->
    exists st',
      mark_found files st = (Ok tt, st') /\
      results_dir st' = results_dir st /\
      keys (batches st') = keys (batches st) /\
      forall id b, dict_get Z.eqb id (batches st) = Some b ->
        dict_get Z.eqb id (batches st')
        = Some (mkBatch (indices b) (processed b || among ids id)).
Proof.
  induction files as [|f rest IH]; intros ids st Hids Hin.
  - destruct ids; [|discriminate]. exists st. repeat split.
    intros id b Hb. cbn. now rewrite orb_false_r, batch_eta.
  - destruct ids as [|n ids]; [discriminate|]. cbn [map] in Hids.
    injection Hids as Hn Hrest. cbn [forallb] in Hin.
    apply andb_true_iff in Hin as [Hn_in Hin]. apply among_spec in Hn_in.
    destruct (in_keys_dict_get n _ Hn_in) as [bn Hbn].
    set (st1 := mkState (dict_set Z.eqb n (mkBatch (indices bn) true) (batches st))
                  (results_dir st) (requests st) (console st)).
    assert (Hk1 : keys (batches st1) = keys (batches st))
      by (apply keys_dict_set_present; assumption).
    destruct (IH ids st1 Hrest) as (st' & Hrun & Hdir & Hkeys & Hget).
    { now rewrite Hk1. }
    exists st'. split; [|split; [exact Hdir|split; [congruence|]]].
    + cbn [mark_found]. unfold bind, lift, get_batches, set_batches, dict_getitem.
      rewrite Hn. cbn. rewrite Hbn. exact Hrun.
    + intros id b Hb. destruct (Z.eq_dec id n) as [->|Hne].
      * rewrite (Hget n (mkBatch (indices bn) true)).
        -- assert (b = bn) by congruence. subst b. cbn.
           now rewrite Z.eqb_refl, !orb_true_r.
        -- apply dict_get_set_same.
      * rewrite (Hget id b).
        -- cbn. destruct (Z.eqb_spec id n); [contradiction|reflexivity].
        -- cbn. now rewrite dict_get_set_other.
Qed.

(** The marking loop when an id read off the files is not in the plan. *)
Lemma mark_found_absent (files : list string) :
  forall (ids : list Z) (st : state),
    map (fun f => py_int (batch_id_of f)) files = map Ok ids ->
    forallb (among (keys (batches st))) ids = false ->
    exists st', mark_found files st = (Raise KeyError, st').
Proof.
  induction files as [|f rest IH]; intros ids st Hids Hin.
  - destruct ids; discriminate.
  - destruct ids as [|n ids]; [discriminate|]. cbn [map] in Hids.
    injection Hids as Hn Hrest. cbn [forallb] in Hin.
    cbn [mark_found]. unfold bind, lift, get_batches, set_batches, dict_getitem.
    rewrite Hn. cbn.
    destruct (among (keys (batches st)) n) eqn:Hn_in.
    + apply among_spec in Hn_in. destruct (in_keys_dict_get n _ Hn_in) as [bn Hbn].
      rewrite Hbn. apply (IH ids); [exact Hrest|].
      cbn [batches]. now rewrite keys_dict_set_present.
    + assert (Hnot : ~ In n (keys (batches st))).
      { intros H. apply among_spec in H. congruence. }
      rewrite (dict_get_absent _ _ Hnot). now eexists.
Qed.

(** C4 (as the code has it). When the batch ids read off the result files
    of the run are all in the plan, [match_batch_results] returns the plan
    with exactly those batches marked processed in addition, index ranges and
    directory untouched; when one of them is not in the plan, the call does
    not ignore it: it raises [KeyError]. *)
Theorem match_batch_results_recovered (file_uuid results_path : string) (st : state)
    (ids : list Z) :
  map (fun f => py_int (batch_id_of f)) (result_files_of file_uuid results_path st)
  = map Ok ids ->
  if forallb (among (keys (batches st))) ids
  then exists st',
      match_batch_results file_uuid results_path st = (Ok (batches st'), st') /\
      results_dir st' = results_dir st /\
      keys (batches st') = keys (batches st) /\
      forall id b, dict_get Z.eqb id (batches st) = Some b ->
        dict_get Z.eqb id (batches st')
        = Some (mkBatch (indices b) (processed b || among ids id))
  else exists st',
      match_batch_results file_uuid results_path st = (Raise KeyError, st').
Proof.
  intros Hids. unfold match_batch_results, bind, get_files_in_dir.
  fold (result_files_of file_uuid results_path st).
  destruct (forallb (among (keys (batches st))) ids) eqn:Hin.
  - destruct (mark_found_present _ ids st Hids Hin) as (st' & Hrun & Hdir & Hkeys & Hget).
    destruct (result_files_of file_uuid results_path st) as [|f files] eqn:Hfiles.
    + destruct ids; [|discriminate]. eexists. split; [reflexivity|].
      repeat split. intros id b Hb. cbn. now rewrite orb_false_r, batch_eta.
    + exists st'. rewrite Hrun. now repeat split.
  - destruct (mark_found_absent _ ids st Hids Hin) as (st' & Hrun).
    destruct (result_files_of file_uuid results_path st) as [|f files] eqn:Hfiles.
    + destruct ids; discriminate.
    + exists st'. now rewrite Hrun.
Qed.

Lemma match_batch_results_recovered_witness :
  map (fun f => py_int (batch_id_of f)) (result_files_of "UUID" RESULTS_OUTPUT on_disk_state)
  = map Ok [0; 1] /\
  exists st',
    match_batch_results "UUID" RESULTS_OUTPUT on_disk_state = (Ok (batches st'), st') /\
    results_dir st' = results_dir on_disk_state /\
    keys (batches st') = keys (batches on_disk_state) /\
    forall id b, dict_get Z.eqb id (batches on_disk_state) = Some b ->
      dict_get Z.eqb id (batches st')
      = Some (mkBatch (indices b) (processed b || among [0; 1] id)).
Proof.
  split; [reflexivity|].
  exact (match_batch_results_recovered "UUID" RESULTS_OUTPUT on_disk_state [0; 1] eq_refl).
Defined.

(** C4, counterexample: a result file whose batch id (7) is not in the plan
    is not ignored; the scan raises [KeyError]. *)
Lemma match_batch_results_stale_file :
  result_files_of "UUID" RESULTS_OUTPUT stale_state
  = ["./results/UUID_0.json"; "./results/UUID_7.json"] /\
  flag sample_plan 7 = false /\
  dict_get Z.eqb 7 sample_plan = None /\
  fst (match_batch_results "UUID" RESULTS_OUTPUT stale_state) = Raise KeyError.
Proof. repeat split. Qed.

(** ** The batch loop, one iteration at a time *)

Section Driver.
Variable service : nat -> string -> string -> result string.
Variables (lsr_uuid impact_defs : string) (lsr_reports : list string).
Variable wait_time : Z.

Local Abbreviation attempt_on b := (attempt service impact_defs wait_time lsr_reports b).
Local Abbreviation process id b :=
  (process_batch service lsr_uuid impact_defs lsr_reports wait_time id b).
Local Abbreviation loop max ids last :=
  (batch_loop service lsr_uuid impact_defs lsr_reports max wait_time ids last).

Lemma attempt_keeps (b : batch) (st : state) : attempt_frame st (snd (attempt_on b st)).
Proof. apply classify_frame. Qed.

(** The loop body on a batch that is not processed: one attempt; after a
    transient failure a pause of 10 and one more attempt; then the file and
    the mark, or the exception of the failed attempt. *)
Lemma process_batch_eq (batch_id : Z) (b : batch) (st : state) :
  dict_get Z.eqb batch_id (batches st) = Some b ->
  process batch_id b st =
  match attempt_on b st with
  | (Ok r, s1) => (Ok r, finish lsr_uuid batch_id b r s1)
  | (Raise e, s1) =>
      if transient e
      then match attempt_on b (snd (wait_timeout 10 s1)) with
           | (Ok r, s2) => (Ok r, finish lsr_uuid batch_id b r s2)
           | (Raise e2, s2) => (Raise e2, s2)
           end
      else (Raise e, s1)
  end.
Proof.
  intros Hb. unfold process_batch, attempt, batch_remarks.
  destruct (indices b) as [start_idx end_idx] eqn:Hind. cbn [fst snd].
  set (go := classify_lsr_remarks service _ impact_defs wait_time 0 0 true).
  assert (Hfin : forall r s, batches s = batches st ->
            (write_results_json r (os_path_join RESULTS_OUTPUT (batch_filename lsr_uuid batch_id)) ;;
             mark_processed batch_id ;; ret r)%M s
            = (Ok r, finish lsr_uuid batch_id b r s)).
  { intros r s Hs. unfold bind, write_results_json, mark_processed, bind, get_batches,
      lift, dict_getitem, set_batches, ret, finish, batch_path. cbn.
    rewrite Hs, Hb. reflexivity. }
  unfold bind at 1, try_except.
  pose proof (classify_frame service (py_slice lsr_reports start_idx (end_idx + 1))
                impact_defs wait_time 0 0 true st) as Hf1.
  fold go in Hf1. destruct (go st) as [[r|e] s1]; cbn [snd] in Hf1.
  - apply Hfin, Hf1.
  - destruct (transient e); [|reflexivity].
    unfold bind at 1. cbn [wait_timeout emit snd].
    set (s1' := mkState (batches s1) (results_dir s1) (requests s1)
                  (console s1 ++ [EvWait 10])).
    pose proof (classify_frame service (py_slice lsr_reports start_idx (end_idx + 1))
                  impact_defs wait_time 0 0 true s1') as Hf2.
    fold go in Hf2. destruct (go s1') as [[r|e2] s2]; cbn [snd] in Hf2; [|reflexivity].
    apply Hfin. destruct Hf1 as [Hf1 _], Hf2 as [Hf2 _]. cbn in Hf2. congruence.
Qed.

(** One iteration of the loop, written out. *)
Lemma batch_loop_step (max_batches batch_id : Z) (rest : list Z)
    (last : option (option (list (Z * item)))) (st : state) :
  loop max_batches (batch_id :: rest) last st =
  let st0 := snd (emit (EvBatch batch_id) st) in
  let continue last' st' :=
    if (negb (max_batches =? 0) && (batch_id =? max_batches))%bool
    then (Ok last', st') else loop max_batches rest last' st' in
  match dict_get Z.eqb batch_id (batches st) with
  | None => (Raise KeyError, st0)
  | Some b =>
      if processed b
      then continue (Some None) (snd (emit (EvSkip batch_id) st0))
      else match process batch_id b st0 with
           | (Ok r, st1) => continue (Some (Some r)) st1
           | (Raise e, st1) => (Raise e, st1)
           end
  end.
Proof.
  cbn [batch_loop]. unfold bind at 1. cbn [emit snd].
  unfold bind at 1, get_batches at 1. unfold bind at 1, lift at 1, dict_getitem.
  cbn [batches].
  destruct (dict_get Z.eqb batch_id (batches st)) as [b|]; [|reflexivity].
  unfold bind at 1. destruct (processed b).
  - unfold bind at 1. cbn [emit]. unfold ret at 1.
    destruct (negb (max_batches =? 0) && (batch_id =? max_batches))%bool; reflexivity.
  - unfold bind at 1.
    destruct (process batch_id b _) as [[r|e] st1]; [|reflexivity].
    unfold ret at 1.
    destruct (negb (max_batches =? 0) && (batch_id =? max_batches))%bool; reflexivity.
Qed.

End Driver.

(** ** The trace of the batch loop *)

Lemma attribute_service (id : Z) (body rest : list event) :
  forallb service_event body = true ->
  attribute (Some id) (body ++ rest)
  = (map (pair id) body ++ attribute (Some id) rest)%list.
Proof.
  induction body as [|e body IH]; intros Hb; [reflexivity|].
  cbn [forallb] in Hb. apply andb_true_iff in Hb as [He Hb].
  destruct e; try discriminate; cbn; now rewrite IH.
Qed.

Lemma written_service (body rest : list event) :
  forallb service_event body = true -> written (body ++ rest) = written rest.
Proof.
  induction body as [|e body IH]; intros Hb; [reflexivity|].
  cbn [forallb] in Hb. apply andb_true_iff in Hb as [He Hb].
  destruct e; try discriminate; cbn; now apply IH.
Qed.

Lemma skipped_service (body rest : list event) :
  forallb service_event body = true -> skipped (body ++ rest) = skipped rest.
Proof.
  induction body as [|e body IH]; intros Hb; [reflexivity|].
  cbn [forallb] in Hb. apply andb_true_iff in Hb as [He Hb].
  destruct e; try discriminate; cbn; now apply IH.
Qed.

Lemma flag_lookup (p : plan) (id : Z) (b : batch) :
  dict_get Z.eqb id p = Some b -> flag p id = processed b.
Proof. intros H. unfold flag. now rewrite H. Qed.

Section LoopTrace.
Variable service : nat -> string -> string -> result string.
Variables (lsr_uuid impact_defs : string) (lsr_reports : list string).
Variable wait_time : Z.

Local Abbreviation loop ids last :=
  (batch_loop service lsr_uuid impact_defs lsr_reports 0 wait_time ids last).

(** What one iteration on a batch of the plan amounts to: a skip; or an
    attempt (with its possible retry) that ends in an exception; or one
    that ends with the file written and the batch marked. *)
Lemma iteration (batch_id : Z) (rest : list Z) (last : option (option (list (Z * item))))
    (st : state) (b : batch) :
  dict_get Z.eqb batch_id (batches st) = Some b ->
  (processed b = true /\
   loop (batch_id :: rest) last st
   = loop rest (Some None)
       (mkState (batches st) (results_dir st) (requests st)
          (console st ++ [EvBatch batch_id; EvSkip batch_id])))
  \/
  (processed b = false /\
   exists s1 body,
     batches s1 = batches st /\ results_dir s1 = results_dir st /\
     console s1 = (console st ++ EvBatch batch_id :: body)%list /\
     forallb service_event body = true /\
     ((exists e, loop (batch_id :: rest) last st = (Raise e, s1)) \/
      (exists r, loop (batch_id :: rest) last st
                 = loop rest (Some (Some r)) (finish lsr_uuid batch_id b r s1)))).
Proof.
  intros Hb. rewrite batch_loop_step, Hb. cbn zeta. cbn [Z.eqb negb andb].
  destruct (processed b) eqn:Hp.
  - left. split; [reflexivity|]. cbn [emit snd batches results_dir requests console].
    now rewrite <- app_assoc.
  - right. split; [reflexivity|].
    set (st0 := snd (emit (EvBatch batch_id) st)).
    assert (Hb0 : dict_get Z.eqb batch_id (batches st0) = Some b) by exact Hb.
    rewrite (process_batch_eq _ _ _ _ _ _ _ _ Hb0).
    pose proof (attempt_keeps service impact_defs lsr_reports wait_time b st0) as Hf1.
    destruct (attempt service impact_defs wait_time lsr_reports b st0) as [[r|e] s1].
    + destruct Hf1 as (Hbat & Hdir & ev1 & Hcon & Hev). cbn [snd] in *.
      exists s1, ev1. repeat split; try assumption.
      * rewrite Hcon. cbn. now rewrite <- app_assoc.
      * right. now exists r.
    + cbn [snd] in Hf1. destruct (transient e).
      * set (s1' := snd (wait_timeout 10 s1)).
        pose proof (attempt_keeps service impact_defs lsr_reports wait_time b s1') as Hf2.
        assert (Hw : attempt_frame s1 s1') by (apply attempt_frame_emit; reflexivity).
        pose proof (attempt_frame_trans _ _ _ Hf1
                      (attempt_frame_trans _ _ _ Hw Hf2)) as Hf.
        destruct (attempt service impact_defs wait_time lsr_reports b s1') as [[r|e2] s2];
          cbn [snd] in Hf; destruct Hf as (Hbat & Hdir & evs & Hcon & Hev);
          exists s2, evs; repeat split; try assumption;
          try (rewrite Hcon; cbn; now rewrite <- app_assoc).
        -- right. now exists r.
        -- left. now exists e2.
      * destruct Hf1 as (Hbat & Hdir & ev1 & Hcon & Hev).
        exists s1, ev1. repeat split; try assumption.
        -- rewrite Hcon. cbn. now rewrite <- app_assoc.
        -- left. now exists e.
Qed.

(** Every request of the loop is made under a batch whose flag was false
    when the loop started. *)
Lemma loop_requests (ids : list Z) :
  forall last st,
  exists evs,
    console (snd (loop ids last st)) = (console st ++ evs)%list /\
    forall current id remark,
      In (id, EvRequest remark) (attribute current evs) -> flag (batches st) id = false.
Proof.
  induction ids as [|batch_id rest IH]; intros last st.
  - exists []. split; [cbn; now rewrite app_nil_r|]. intros current id remark [].
  - destruct (dict_get Z.eqb batch_id (batches st)) as [b|] eqn:Hb.
    + destruct (iteration batch_id rest last st b Hb)
        as [[Hp Hrun]|(Hp & s1 & body & Hbat & Hdir & Hcon & Hev & [[e Hrun]|[r Hrun]])];
        rewrite Hrun.
      * destruct (IH (Some None)
                    (mkState (batches st) (results_dir st) (requests st)
                       (console st ++ [EvBatch batch_id; EvSkip batch_id])))
          as (evs & Hevs & Hreq).
        exists (EvBatch batch_id :: EvSkip batch_id :: evs)%list. split.
        -- rewrite Hevs. cbn. now rewrite <- app_assoc.
        -- intros current id remark Hin. cbn in Hin.
           destruct Hin as [Hin|Hin]; [discriminate|]. now apply (Hreq _ _ _ Hin).
      * exists (EvBatch batch_id :: body). split; [exact Hcon|].
        intros current id remark Hin. cbn [attribute] in Hin.
        rewrite <- (app_nil_r body), attribute_service in Hin by assumption.
        cbn in Hin. rewrite app_nil_r in Hin.
        apply in_map_iff in Hin as (e' & Heq & _). injection Heq as <- _.
        now rewrite (flag_lookup _ _ _ Hb).
      * destruct (IH (Some (Some r)) (finish lsr_uuid batch_id b r s1))
          as (evs & Hevs & Hreq).
        exists (EvBatch batch_id :: body ++ EvWrite (batch_path lsr_uuid batch_id) :: evs)%list.
        split.
        -- rewrite Hevs. cbn [finish console]. rewrite Hcon.
           now rewrite <- !app_assoc.
        -- intros current id remark Hin. cbn [attribute] in Hin.
           rewrite attribute_service in Hin by assumption.
           apply in_app_iff in Hin as [Hin|Hin].
           ++ apply in_map_iff in Hin as (e' & Heq & _). injection Heq as <- _.
              now rewrite (flag_lookup _ _ _ Hb).
           ++ cbn in Hin. destruct Hin as [Hin|Hin]; [discriminate|].
              apply Hreq in Hin. cbn [finish batches] in Hin. rewrite Hbat in Hin.
              unfold flag in *. destruct (Z.eq_dec id batch_id) as [->|Hne].
              ** rewrite dict_get_set_same in Hin. discriminate.
              ** now rewrite dict_get_set_other in Hin.
    + rewrite batch_loop_step, Hb. exists [EvBatch batch_id]. split; [reflexivity|].
      intros current id remark [].
Qed.

(** A loop that returns has written the file of every batch whose flag was
    false, skipped every batch whose flag was true, and left every batch it
    visited marked. *)
Lemma loop_completes (ids : list Z) :
  forall last st last' st',
    NoDup ids ->
    loop ids last st = (Ok last', st') ->
    exists evs,
      console st' = (console st ++ evs)%list /\
      written evs
      = map (batch_path lsr_uuid) (filter (fun id => negb (flag (batches st) id)) ids) /\
      skipped evs = filter (flag (batches st)) ids /\
      forall id b, dict_get Z.eqb id (batches st) = Some b ->
        dict_get Z.eqb id (batches st')
        = Some (if among ids id then mkBatch (indices b) true else b).
Proof.
  induction ids as [|batch_id rest IH]; intros last st last' st' Hnd Hrun.
  - cbn in Hrun. injection Hrun as _ <-. exists []. rewrite app_nil_r. now repeat split.
  - apply NoDup_cons_iff in Hnd as [Hfresh Hnd].
    assert (Hnot : among rest batch_id = false).
    { destruct (among rest batch_id) eqn:E; [|reflexivity].
      apply among_spec in E. contradiction. }
    destruct (dict_get Z.eqb batch_id (batches st)) as [b|] eqn:Hb.
    2:{ rewrite batch_loop_step, Hb in Hrun. discriminate. }
    destruct (iteration batch_id rest last st b Hb)
      as [[Hp Hstep]|(Hp & s1 & body & Hbat & Hdir & Hcon & Hev & [[e Hstep]|[r Hstep]])];
      rewrite Hstep in Hrun; [| discriminate |].
    + destruct (IH _ _ _ _ Hnd Hrun) as (evs & Hevs & Hw & Hs & Hget).
      cbn [batches console] in *.
      exists (EvBatch batch_id :: EvSkip batch_id :: evs)%list.
      cbn [filter]. rewrite (flag_lookup _ _ _ Hb), Hp. cbn [negb written skipped].
      split; [rewrite Hevs, <- app_assoc; reflexivity|].
      split; [exact Hw|]. split; [now rewrite Hs|].
      intros id b0 Hb0. rewrite (Hget id b0 Hb0). cbn [among existsb].
      destruct (Z.eqb_spec id batch_id) as [->|Hne]; [|reflexivity].
      fold (among rest batch_id). rewrite Hnot. cbn.
      assert (b0 = b) by congruence. subst b0. now rewrite <- Hp, batch_eta.
    + destruct (IH _ _ _ _ Hnd Hrun) as (evs & Hevs & Hw & Hs & Hget).
      cbn [finish batches console] in *. rewrite Hbat in *.
      assert (Hflag : forall id, In id rest ->
                flag (dict_set Z.eqb batch_id (mkBatch (indices b) true) (batches st)) id
                = flag (batches st) id).
      { intros id Hin. unfold flag. rewrite dict_get_set_other; [reflexivity|].
        intros ->. contradiction. }
      exists (EvBatch batch_id :: body ++ EvWrite (batch_path lsr_uuid batch_id) :: evs)%list.
      cbn [filter]. rewrite (flag_lookup _ _ _ Hb), Hp. cbn [negb written skipped map].
      rewrite written_service, skipped_service by assumption. cbn [written skipped].
      split; [rewrite Hevs, Hcon, <- !app_assoc; reflexivity|].
      split; [|split].
      * rewrite Hw. f_equal. f_equal. apply filter_ext_in.
        intros id Hin. now rewrite Hflag.
      * rewrite Hs. apply filter_ext_in. intros id Hin. now rewrite Hflag.
      * intros id b0 Hb0. cbn [among existsb].
        destruct (Z.eqb_spec id batch_id) as [->|Hne].
        -- assert (b0 = b) by congruence. subst b0.
           rewrite (Hget batch_id (mkBatch (indices b) true));
             [|apply dict_get_set_same].
           cbn. now destruct (among rest batch_id).
        -- rewrite (Hget id b0); [reflexivity|]. now rewrite dict_get_set_other.
Qed.

(** Whatever the outcome, the files written are those of the first batches
    whose flag was false, in the order of the loop. *)
Lemma loop_written (ids : list Z) :
  forall last st,
    NoDup ids ->
    exists evs k,
      console (snd (loop ids last st)) = (console st ++ evs)%list /\
      written evs
      = map (batch_path lsr_uuid)
          (firstn k (filter (fun id => negb (flag (batches st) id)) ids)).
Proof.
  induction ids as [|batch_id rest IH]; intros last st Hnd.
  - exists [], 0%nat. cbn. now rewrite app_nil_r.
  - apply NoDup_cons_iff in Hnd as [Hfresh Hnd].
    destruct (dict_get Z.eqb batch_id (batches st)) as [b|] eqn:Hb.
    2:{ rewrite batch_loop_step, Hb. now exists [EvBatch batch_id], 0%nat. }
    destruct (iteration batch_id rest last st b Hb)
      as [[Hp Hstep]|(Hp & s1 & body & Hbat & Hdir & Hcon & Hev & [[e Hstep]|[r Hstep]])];
      rewrite Hstep; cbn [filter]; rewrite (flag_lookup _ _ _ Hb), Hp; cbn [negb].
    + destruct (IH (Some None)
                  (mkState (batches st) (results_dir st) (requests st)
                     (console st ++ [EvBatch batch_id; EvSkip batch_id])) Hnd)
        as (evs & k & Hevs & Hw).
      exists (EvBatch batch_id :: EvSkip batch_id :: evs)%list, k. split.
      * rewrite Hevs. cbn. now rewrite <- app_assoc.
      * exact Hw.
    + exists (EvBatch batch_id :: body), 0%nat. split; [exact Hcon|].
      cbn [written firstn map]. rewrite <- (app_nil_r body).
      now rewrite written_service.
    + destruct (IH (Some (Some r)) (finish lsr_uuid batch_id b r s1) Hnd)
        as (evs & k & Hevs & Hw).
      exists (EvBatch batch_id :: body ++ EvWrite (batch_path lsr_uuid batch_id) :: evs)%list,
        (S k).
      split.
      * rewrite Hevs. cbn [finish console]. rewrite Hcon. now rewrite <- !app_assoc.
      * cbn [written firstn map]. rewrite written_service by assumption.
        cbn [written]. rewrite Hw. do 3 f_equal. apply filter_ext_in.
        intros id Hin. cbn [finish batches]. rewrite Hbat. unfold flag.
        rewrite dict_get_set_other; [reflexivity|]. intros ->. contradiction.
Qed.

End LoopTrace.

(** C1. In every run of the batch loop over a plan, whatever its outcome,
    no request to the classification service is made under a batch whose
    [processed] flag was true, and the result files written are those of the
    first batches whose flag was false, in the order of the plan; a run that
    is not cut short by an exception writes the file of exactly the batches
    whose flag was false, skips exactly the others, and leaves every batch
    marked processed. *)
Theorem resume_processes_pending (service : nat -> string -> string -> result string)
    (lsr_uuid impact_defs : string) (lsr_reports : list string) (wait_time : Z)
    (st : state) :
  NoDup (keys (batches st)) ->
  exists evs,
    console (snd (batch_loop service lsr_uuid impact_defs lsr_reports MAX_BATCHES
                    wait_time (keys (batches st)) None st))
    = (console st ++ evs)%list /\
    (forall id remark,
        In (id, EvRequest remark) (attribute None evs) -> flag (batches st) id = false) /\
    (exists k,
        written evs = map (batch_path lsr_uuid) (firstn k (pending (batches st)))) /\
    (forall last st',
        batch_loop service lsr_uuid impact_defs lsr_reports MAX_BATCHES wait_time
          (keys (batches st)) None st = (Ok last, st') ->
        written evs = map (batch_path lsr_uuid) (pending (batches st)) /\
        skipped evs = completed (batches st) /\
        forall id b, dict_get Z.eqb id (batches st) = Some b ->
          dict_get Z.eqb id (batches st') = Some (mkBatch (indices b) true)).
Proof.
  intros Hnd. unfold MAX_BATCHES.
  destruct (loop_requests service lsr_uuid impact_defs lsr_reports wait_time
              (keys (batches st)) None st) as (evs & Hevs & Hreq).
  exists evs. split; [exact Hevs|]. split; [intros id remark; apply Hreq|].
  split.
  { destruct (loop_written service lsr_uuid impact_defs lsr_reports wait_time
                (keys (batches st)) None st Hnd) as (evs' & k & Hevs' & Hw).
    rewrite Hevs in Hevs'. apply app_inv_head in Hevs'. subst evs'. now exists k. }
  intros last st' Hrun.
  destruct (loop_completes service lsr_uuid impact_defs lsr_reports wait_time
              _ _ _ _ _ Hnd Hrun) as (evs' & Hevs' & Hw & Hs & Hget).
  rewrite Hrun in Hevs. cbn [snd] in Hevs. rewrite Hevs' in Hevs.
  apply app_inv_head in Hevs. subst evs'.
  split; [exact Hw|]. split; [exact Hs|].
  intros id b Hb. rewrite (Hget id b Hb).
  assert (Hin : among (keys (batches st)) id = true).
  { apply among_spec. eapply dict_get_in_keys, Hb. }
  now rewrite Hin.
Qed.

Lemma resume_processes_pending_witness :
  NoDup (keys (batches resumed_state)) /\
  pending (batches resumed_state) = [2] /\
  completed (batches resumed_state) = [0; 1] /\
  exists evs,
    console (snd (batch_loop steady_service "UUID" "" (sample_reports 25) MAX_BATCHES
                    WAIT_TIME (keys (batches resumed_state)) None resumed_state))
    = (console resumed_state ++ evs)%list /\
    (forall id remark,
        In (id, EvRequest remark) (attribute None evs) ->
        flag (batches resumed_state) id = false) /\
    (exists k,
        written evs
        = map (batch_path "UUID") (firstn k (pending (batches resumed_state)))) /\
    (forall last st',
        batch_loop steady_service "UUID" "" (sample_reports 25) MAX_BATCHES WAIT_TIME
          (keys (batches resumed_state)) None resumed_state = (Ok last, st') ->
        written evs = map (batch_path "UUID") (pending (batches resumed_state)) /\
        skipped evs = completed (batches resumed_state) /\
        forall id b, dict_get Z.eqb id (batches resumed_state) = Some b ->
          dict_get Z.eqb id (batches st') = Some (mkBatch (indices b) true)).
Proof.
  assert (Hnd : NoDup (keys (batches resumed_state))).
  { change (NoDup [0; 1; 2]). repeat constructor; simpl; intuition discriminate. }
  split; [exact Hnd|]. split; [reflexivity|]. split; [reflexivity|].
  exact (resume_processes_pending steady_service "UUID" "" (sample_reports 25) WAIT_TIME
           resumed_state Hnd).
Defined.

(** The scenario of the design document, run: with the files of batches 0
    and 1 of 3 on disk, the loop skips both and sends only the five reports
    of batch 2, then writes its file. *)
Example resume_three_batches :
  console (snd (batch_loop steady_service "UUID" "" (sample_reports 25) MAX_BATCHES
                  WAIT_TIME (keys (batches resumed_state)) None resumed_state))
  = [EvBatch 0; EvSkip 0; EvBatch 1; EvSkip 1; EvBatch 2;
     EvRequest "report 20"; EvWait 20; EvRequest "report 21"; EvWait 20;
     EvRequest "report 22"; EvWait 20; EvRequest "report 23"; EvWait 20;
     EvRequest "report 24"; EvWrite "./results/UUID_2.json"].
Proof. vm_compute. reflexivity. Qed.

(** C2. When the attempt on a batch that is not processed raises one of the
    four failures the driver names (rate limit, service unavailable, API
    error, OS error), the driver pauses for 10 seconds and makes one more
    attempt on the whole batch.  If that attempt raises as well, the loop
    ends there with that exception: the plan and the results directory are
    as they were, so the batch is still not processed and has no file, and
    the console shows the first attempt, the pause and the second attempt
    and nothing after.  If it succeeds, the file is written and the batch is
    marked. *)
Theorem transient_failure_retried_once
    (service : nat -> string -> string -> result string)
    (lsr_uuid impact_defs : string) (lsr_reports : list string)
    (max_batches wait_time batch_id : Z) (rest : list Z)
    (last : option (option (list (Z * item)))) (st : state) (b : batch)
    (e1 : exn) (s1 : state) :
  dict_get Z.eqb batch_id (batches st) = Some b ->
  processed b = false ->
  attempt service impact_defs wait_time lsr_reports b (snd (emit (EvBatch batch_id) st))
  = (Raise e1, s1) ->
  transient e1 = true ->
  match attempt service impact_defs wait_time lsr_reports b (snd (wait_timeout 10 s1)) with
  | (Raise e2, s2) =>
      batch_loop service lsr_uuid impact_defs lsr_reports max_batches wait_time
        (batch_id :: rest) last st = (Raise e2, s2) /\
      batches s2 = batches st /\
      flag (batches s2) batch_id = false /\
      results_dir s2 = results_dir st /\
      exists first second,
        console s2
        = (console st ++ EvBatch batch_id :: first ++ EvWait 10 :: second)%list /\
        forallb service_event first = true /\
        forallb service_event second = true
  | (Ok r, s2) =>
      process_batch service lsr_uuid impact_defs lsr_reports wait_time batch_id b
        (snd (emit (EvBatch batch_id) st))
      = (Ok r, finish lsr_uuid batch_id b r s2) /\
      flag (batches (finish lsr_uuid batch_id b r s2)) batch_id = true /\
      written (console (finish lsr_uuid batch_id b r s2))
      = (written (console s2) ++ [batch_path lsr_uuid batch_id])%list
  end.
Proof.
  intros Hb Hp H1 Ht.
  set (st0 := snd (emit (EvBatch batch_id) st)) in *.
  assert (Hb0 : dict_get Z.eqb batch_id (batches st0) = Some b) by exact Hb.
  pose proof (process_batch_eq service lsr_uuid impact_defs lsr_reports wait_time
                batch_id b st0 Hb0) as Hproc.
  rewrite H1, Ht in Hproc.
  pose proof (attempt_keeps service impact_defs lsr_reports wait_time b st0) as Hf1.
  rewrite H1 in Hf1. cbn [snd] in Hf1.
  pose proof (attempt_keeps service impact_defs lsr_reports wait_time b
                (snd (wait_timeout 10 s1))) as Hf2.
  destruct (attempt service impact_defs wait_time lsr_reports b (snd (wait_timeout 10 s1)))
    as [[r|e2] s2]; cbn [snd] in Hf2.
  - split; [exact Hproc|]. split.
    + unfold flag. cbn [finish batches]. now rewrite dict_get_set_same.
    + cbn [finish console]. clear. induction (console s2) as [|e l IH]; [reflexivity|].
      destruct e; cbn; now rewrite ?IH.
  - destruct Hf1 as (Hbat1 & Hdir1 & first & Hcon1 & Hev1).
    destruct Hf2 as (Hbat2 & Hdir2 & second & Hcon2 & Hev2).
    cbn in Hbat1, Hdir1, Hcon1, Hbat2, Hdir2, Hcon2.
    split; [|split; [congruence|split; [|split; [congruence|]]]].
    + rewrite batch_loop_step, Hb, Hp. cbn zeta. fold st0. now rewrite Hproc.
    + rewrite Hbat2, Hbat1. now rewrite (flag_lookup _ _ _ Hb).
    + exists first, second. split; [|now split].
      rewrite Hcon2, Hcon1. now rewrite <- !app_assoc.
Qed.

Lemma transient_failure_retried_once_witness :
  let st0 := snd (emit (EvBatch 2) resumed_state) in
  let b := mkBatch (20, 24) false in
  let s1 := snd (attempt limited_service "" WAIT_TIME (sample_reports 25) b st0) in
  let s2 := snd (attempt limited_service "" WAIT_TIME (sample_reports 25) b
                   (snd (wait_timeout 10 s1))) in
  dict_get Z.eqb 2 (batches resumed_state) = Some b /\
  attempt limited_service "" WAIT_TIME (sample_reports 25) b st0
  = (Raise RateLimitError, s1) /\
  batch_loop limited_service "UUID" "" (sample_reports 25) MAX_BATCHES WAIT_TIME
    [2] (Some None) resumed_state = (Raise RateLimitError, s2) /\
  flag (batches s2) 2 = false /\
  results_dir s2 = results_dir resumed_state /\
  console s2
  = [EvBatch 2; EvRequest "report 20"; EvWait 10; EvRequest "report 20"].
Proof.
  cbv zeta.
  set (b := mkBatch (20, 24) false).
  set (st0 := snd (emit (EvBatch 2) resumed_state)).
  set (s1 := snd (attempt limited_service "" WAIT_TIME (sample_reports 25) b st0)).
  set (s2 := snd (attempt limited_service "" WAIT_TIME (sample_reports 25) b
                    (snd (wait_timeout 10 s1)))).
  assert (H1 : attempt limited_service "" WAIT_TIME (sample_reports 25) b st0
               = (Raise RateLimitError, s1)) by reflexivity.
  assert (H2 : attempt limited_service "" WAIT_TIME (sample_reports 25) b
                 (snd (wait_timeout 10 s1)) = (Raise RateLimitError, s2)) by reflexivity.
  pose proof (transient_failure_retried_once limited_service "UUID" ""
                (sample_reports 25) MAX_BATCHES WAIT_TIME 2 [] (Some None) resumed_state
                b RateLimitError s1 eq_refl eq_refl H1 eq_refl) as H.
  rewrite H2 in H. destruct H as (Hrun & _ & Hflag & Hdir & _).
  split; [reflexivity|]. split; [exact H1|]. split; [exact Hrun|].
  split; [exact Hflag|]. split; [exact Hdir|]. reflexivity.
Defined.

(** ** Consolidation *)

Lemma update_nth_length {A : Type} (n : nat) (f : A -> A) (l : list A) :
  List.length (update_nth n f l) = List.length l.
Proof.
  revert n. induction l as [|x l IH]; intros [|n]; simpl; auto.
Qed.

Lemma update_nth_twice {A : Type} (n : nat) (f g : A -> A) (l : list A) :
  update_nth n f (update_nth n g l) = update_nth n (fun x => f (g x)) l.
Proof.
  revert n. induction l as [|x l IH]; intros [|n]; simpl; auto. now rewrite IH.
Qed.

Lemma update_nth_ext {A : Type} (n : nat) (f g : A -> A) (l : list A) :
  (forall x, f x = g x) -> update_nth n f l = update_nth n g l.
Proof.
  intros Hfg. revert n. induction l as [|x l IH]; intros [|n]; simpl; auto.
  - now rewrite Hfg.
  - now rewrite IH.
Qed.

Lemma nth_error_update_nth {A : Type} (n j : nat) (f : A -> A) (l : list A) :
  nth_error (update_nth n f l) j
  = if Nat.eqb n j then option_map f (nth_error l j) else nth_error l j.
Proof.
  revert n j. induction l as [|x l IH]; intros [|n] [|j]; simpl; auto.
  now destruct (Nat.eqb n j).
Qed.

Lemma len_update_nth {A : Type} (n : nat) (f : A -> A) (l : list A) :
  len (update_nth n f l) = len l.
Proof. unfold len. now rewrite update_nth_length. Qed.

Lemma loc_set_in_range (idx : Z) (f : row -> row) (t : list row) :
  0 <= idx < len t -> loc_set idx f t = Ok (update_nth (Z.to_nat idx) f t).
Proof.
  intros [H0 H1]. unfold loc_set.
  destruct (Z.leb_spec 0 idx); [|lia]. destruct (Z.ltb_spec idx (len t)); [|lia].
  reflexivity.
Qed.

(** One record merged: its row, and only its row, is filled. *)
Lemma merge_item_fills (start_index : Z) (batch_index : string) (i : Z) (it : item)
    (v : Q * Q * Q * Q * Q) (t : list row) :
  py_int batch_index = Ok i ->
  fields it = Ok v ->
  0 <= start_index + i < len t ->
  merge_item start_index batch_index it t
  = Ok (update_nth (Z.to_nat (start_index + i)) (fill_item it) t).
Proof.
  intros Hi Hv Hidx. unfold merge_item. rewrite Hi. cbn [rbind].
  assert (Hfill : forall r, fill_item it r = fill it v r)
    by (intros r; unfold fill_item; now rewrite Hv).
  unfold fields in Hv.
  destruct (pyval_getitem (item_probs it) "MINOR") as [p1|]; [|discriminate].
  destruct (pyval_getitem (item_probs it) "MODERATE") as [p2|]; [|discriminate].
  destruct (pyval_getitem (item_probs it) "SERIOUS") as [p3|]; [|discriminate].
  destruct (pyval_getitem (item_probs it) "SEVERE") as [p4|]; [|discriminate].
  destruct (pyval_getitem (item_probs it) "CATASTROPHIC") as [p5|]; [|discriminate].
  cbn [rbind] in Hv |- *.
  destruct (percent p1) as [v1|]; [|discriminate].
  destruct (percent p2) as [v2|]; [|discriminate].
  destruct (percent p3) as [v3|]; [|discriminate].
  destruct (percent p4) as [v4|]; [|discriminate].
  destruct (percent p5) as [v5|]; [|discriminate].
  cbn [rbind] in Hv |- *. injection Hv as <-.
  repeat (rewrite loc_set_in_range by (rewrite ?len_update_nth; exact Hidx);
          cbn [rbind]).
  rewrite !update_nth_twice. f_equal. apply update_nth_ext.
  intros r. now rewrite Hfill.
Qed.

Lemma len_app {A : Type} (l1 l2 : list A) : len (l1 ++ l2)%list = len l1 + len l2.
Proof. unfold len. rewrite length_app. lia. Qed.

Lemma len_nonneg {A : Type} (l : list A) : 0 <= len l.
Proof. unfold len. lia. Qed.

Lemma apply_writes_app (ws1 ws2 : list (Z * item)) (t : list row) :
  apply_writes (ws1 ++ ws2) t = apply_writes ws2 (apply_writes ws1 t).
Proof. apply fold_left_app. Qed.

Lemma len_apply_writes (ws : list (Z * item)) :
  forall t, len (apply_writes ws t) = len t.
Proof.
  induction ws as [|w ws IH]; intros t; [reflexivity|].
  cbn [apply_writes fold_left]. fold (apply_writes ws). now rewrite IH, len_update_nth.
Qed.

(** The records numbered from [k] on, merged at [start_index]. *)
Lemma merge_batch_from (start_index : Z) (recs : list item) :
  forall (k : nat) (t : list row),
    (forall it, In it recs -> exists v, fields it = Ok v) ->
    0 <= start_index ->
    start_index + Z.of_nat k + len recs <= len t ->
    merge_batch start_index
      (json_dump (combine (map Z.of_nat (seq k (List.length recs))) recs)) t
    = Ok (apply_writes
            (map (fun x => (start_index + fst x, snd x))
               (combine (map Z.of_nat (seq k (List.length recs))) recs)) t).
Proof.
  induction recs as [|it recs IH]; intros k t Hf H0 Hlen; [reflexivity|].
  cbn [List.length seq map combine json_dump merge_batch apply_writes fold_left fst snd].
  destruct (Hf it (or_introl eq_refl)) as [v Hv].
  unfold len in Hlen. cbn [List.length] in Hlen.
  rewrite (merge_item_fills _ _ (Z.of_nat k) _ v t (py_int_str _) Hv)
    by (unfold len; lia).
  cbn [rbind]. fold (json_dump (combine (map Z.of_nat (seq (S k) (List.length recs))) recs)).
  rewrite IH.
  - reflexivity.
  - intros it' Hin. apply Hf. now right.
  - exact H0.
  - rewrite len_update_nth. unfold len. lia.
Qed.

Lemma enumerate_eq {A : Type} (l : list A) :
  enumerate l = combine (map Z.of_nat (seq 0 (List.length l))) l.
Proof. unfold enumerate, py_range, len. now rewrite Nat2Z.id. Qed.

Lemma merge_batch_writes (batch_size : Z) (e : Z * list item) (t : list row) :
  (forall it, In it (snd e) -> exists v, fields it = Ok v) ->
  0 <= fst e * batch_size ->
  fst e * batch_size + len (snd e) <= len t ->
  merge_batch (fst e * batch_size) (json_dump (enumerate (snd e))) t
  = Ok (apply_writes (writes_of batch_size e) t).
Proof.
  intros Hf H0 Hlen. unfold writes_of. rewrite enumerate_eq.
  apply merge_batch_from; [assumption..|]. lia.
Qed.

Lemma merge_all_writes (batch_size : Z) (es : list (Z * list item)) :
  forall t,
    (forall e, In e es ->
       (forall it, In it (snd e) -> exists v, fields it = Ok v) /\
       0 <= fst e * batch_size /\
       fst e * batch_size + len (snd e) <= len t) ->
    merge_all batch_size es t = Ok (apply_writes (flat_map (writes_of batch_size) es) t).
Proof.
  induction es as [|e es IH]; intros t Hes; [reflexivity|].
  cbn [merge_all flat_map].
  destruct (Hes e (or_introl eq_refl)) as (Hf & H0 & Hlen).
  rewrite merge_batch_writes by assumption. cbn [rbind].
  rewrite apply_writes_app. apply IH.
  intros e' Hin. rewrite len_apply_writes. apply Hes. now right.
Qed.

Lemma nth_error_apply_writes (ws : list (Z * item)) (j : nat) :
  forall t, nth_error (apply_writes ws t) j = option_map (row_after ws j) (nth_error t j).
Proof.
  induction ws as [|w ws IH]; intros t.
  - cbn. now destruct (nth_error t j).
  - cbn [apply_writes fold_left]. fold (apply_writes ws).
    rewrite IH, nth_error_update_nth.
    destruct (nth_error t j) as [r|]; [|now destruct (Nat.eqb (Z.to_nat (fst w)) j)].
    unfold row_after at 2. cbn [fold_left option_map]. fold (row_after ws j).
    now destruct (Nat.eqb (Z.to_nat (fst w)) j).
Qed.

Lemma row_after_absent (ws : list (Z * item)) (j : nat) :
  forall r, ~ In (Z.of_nat j) (map fst ws) ->
            (forall w, In w ws -> 0 <= fst w) ->
            row_after ws j r = r.
Proof.
  induction ws as [|w ws IH]; intros r Hj Hpos; [reflexivity|].
  unfold row_after. cbn [fold_left]. fold (row_after ws j).
  cbn [map In] in Hj.
  destruct (Nat.eqb_spec (Z.to_nat (fst w)) j) as [Heq|Hne].
  - exfalso. apply Hj. left. specialize (Hpos w (or_introl eq_refl)). lia.
  - apply IH; [tauto|]. intros w' Hw'. apply Hpos. now right.
Qed.

(** A row that one write of the list addresses, and no other, is filled
    from that write. *)
Lemma row_after_once (ws : list (Z * item)) (j : nat) (it : item) :
  forall r, NoDup (map fst ws) ->
            (forall w, In w ws -> 0 <= fst w) ->
            In (Z.of_nat j, it) ws ->
            row_after ws j r = fill_item it r.
Proof.
  induction ws as [|w ws IH]; intros r Hnd Hpos Hin; [destruct Hin|].
  unfold row_after. cbn [fold_left]. fold (row_after ws j).
  cbn [map] in Hnd. apply NoDup_cons_iff in Hnd as [Hfresh Hnd].
  assert (Hpos' : forall w', In w' ws -> 0 <= fst w')
    by (intros w' Hw'; apply Hpos; now right).
  destruct Hin as [->|Hin].
  - cbn [fst snd]. rewrite Nat2Z.id, Nat.eqb_refl.
    apply row_after_absent; assumption.
  - destruct (Nat.eqb_spec (Z.to_nat (fst w)) j) as [Heq|Hne].
    + exfalso. apply Hfresh. apply in_map_iff. exists (Z.of_nat j, it).
      split; [|exact Hin]. cbn. specialize (Hpos w (or_introl eq_refl)). lia.
    + now apply IH.
Qed.

(** ** Result files and their names *)

Lemma prefix_char_lacks (c : ascii) (s : string) :
  has_char c s = false -> prefix (char c) s = false.
Proof.
  destruct s as [|x s]; [reflexivity|]. rewrite prefix_char. cbn [has_char].
  intros H. now apply orb_false_iff in H as [-> _].
Qed.

Lemma batch_filename_lacks_slash (lsr_uuid : string) (batch_id : Z) :
  has_char "/" lsr_uuid = false -> has_char "/" (batch_filename lsr_uuid batch_id) = false.
Proof.
  intros Hu. unfold batch_filename.
  rewrite !has_char_app, Hu, py_str_lacks by reflexivity. reflexivity.
Qed.

Lemma batch_path_eq (lsr_uuid : string) (batch_id : Z) :
  has_char "/" lsr_uuid = false ->
  batch_path lsr_uuid batch_id = "./results/" ++ batch_filename lsr_uuid batch_id.
Proof.
  intros Hu. unfold batch_path, os_path_join.
  pose proof (prefix_char_lacks "/" _ (batch_filename_lacks_slash _ batch_id Hu)) as Hp.
  unfold char in Hp. rewrite Hp. reflexivity.
Qed.

Lemma basename_batch_path (lsr_uuid : string) (batch_id : Z) :
  has_char "/" lsr_uuid = false ->
  basename (batch_path lsr_uuid batch_id) = batch_filename lsr_uuid batch_id.
Proof.
  intros Hu. rewrite batch_path_eq by assumption. unfold basename, str_split.
  pose proof (split_last_char "/" "./results" (batch_filename lsr_uuid batch_id) ""
                (batch_filename_lacks_slash _ batch_id Hu)) as H.
  exact H.
Qed.

Lemma batch_id_of_path (lsr_uuid : string) (batch_id : Z) :
  has_char "/" lsr_uuid = false ->
  batch_id_of (batch_path lsr_uuid batch_id) = py_str batch_id.
Proof.
  intros Hu. rewrite batch_path_eq by assumption. unfold batch_filename.
  rewrite <- append_assoc. apply batch_id_of_filename.
Qed.

Lemma contains_uuid_path (lsr_uuid : string) (batch_id : Z) :
  has_char "/" lsr_uuid = false ->
  str_contains lsr_uuid (batch_path lsr_uuid batch_id) = true.
Proof.
  intros Hu. rewrite batch_path_eq by assumption. unfold batch_filename.
  apply contains_infix.
Qed.

Lemma endswith_json (lsr_uuid : string) (batch_id : Z) :
  str_endswith (batch_filename lsr_uuid batch_id) ".json" = true.
Proof.
  unfold batch_filename. rewrite <- !append_assoc. apply endswith_suffix.
Qed.

Lemma py_str_inj (a b : Z) : py_str a = py_str b -> a = b.
Proof.
  intros H. pose proof (py_int_str a) as Ha. rewrite H, py_int_str in Ha. congruence.
Qed.

Lemma batch_filename_inj (lsr_uuid : string) (a b : Z) :
  batch_filename lsr_uuid a = batch_filename lsr_uuid b -> a = b.
Proof.
  intros H. apply py_str_inj.
  rewrite <- (batch_id_of_filename lsr_uuid a), <- (batch_id_of_filename lsr_uuid b).
  unfold batch_filename in H. now rewrite H.
Qed.

Lemma dict_get_unique {V : Type} (k : string) (v : V) (d : list (string * V)) :
  NoDup (keys d) -> In (k, v) d -> dict_get String.eqb k d = Some v.
Proof.
  induction d as [|[k' v'] d IH]; intros Hnd Hin; [destruct Hin|].
  cbn [keys map fst] in Hnd. apply NoDup_cons_iff in Hnd as [Hfresh Hnd].
  cbn [dict_get]. destruct (String.eqb_spec k k') as [->|Hne].
  - destruct Hin as [Heq|Hin]; [congruence|].
    exfalso. apply Hfresh. apply in_map_iff. now exists (k', v).
  - destruct Hin as [Heq|Hin]; [congruence|]. now apply IH.
Qed.

Lemma filter_all {A : Type} (f : A -> bool) (l : list A) :
  (forall x, In x l -> f x = true) -> filter f l = l.
Proof.
  induction l as [|x l IH]; intros H; [reflexivity|].
  cbn [filter]. rewrite (H x (or_introl eq_refl)), IH; [reflexivity|].
  intros y Hy. apply H. now right.
Qed.

Section Reading.
Variables (lsr_uuid : string) (batch_size : Z).
Hypothesis uuid_plain : has_char "/" lsr_uuid = false.

(** Reading the files of the batches [es], in that order, merges their
    records in that order. *)
Lemma merge_files_reads (es : list (Z * list item)) (st : state) :
  (forall e, In e es ->
     dict_get String.eqb (batch_filename lsr_uuid (fst e)) (results_dir st)
     = Some (json_dump (enumerate (snd e)))) ->
  forall t,
    merge_files batch_size (map (fun e => batch_path lsr_uuid (fst e)) es) t st
    = (merge_all batch_size es t, st).
Proof.
  intros Hdir. induction es as [|e es IH]; intros t; [reflexivity|].
  cbn [map merge_files merge_all].
  unfold bind at 1, read_json_results.
  rewrite basename_batch_path, (Hdir e (or_introl eq_refl)) by assumption.
  unfold bind at 1, lift at 1.
  rewrite batch_id_of_path, py_int_str by assumption.
  unfold bind at 1, lift at 1.
  destruct (merge_batch (fst e * batch_size) (json_dump (enumerate (snd e))) t)
    as [t'|err]; [|reflexivity].
  cbn [rbind]. apply IH. intros e' Hin. apply Hdir. now right.
Qed.

(** The files the consolidation finds in a directory made of batch entries. *)
Lemma result_files_of_entries (es : list (Z * list item)) (st : state) :
  results_dir st = map (entry_of lsr_uuid) es ->
  result_files_of lsr_uuid RESULTS_OUTPUT st
  = map (fun e => batch_path lsr_uuid (fst e)) es.
Proof.
  intros Hdir. unfold result_files_of, keys. rewrite Hdir, map_map. cbn [entry_of fst].
  rewrite (filter_all (fun file => str_endswith file ".json")).
  - rewrite map_map. rewrite filter_all; [reflexivity|].
    intros x Hin. apply in_map_iff in Hin as (e & <- & _).
    now apply contains_uuid_path.
  - intros x Hin. apply in_map_iff in Hin as (e & <- & _). apply endswith_json.
Qed.

End Reading.

(** ** The consolidated table *)

Lemma nth_error_numbered {A : Type} (l : list A) :
  forall k j,
    nth_error (combine (map Z.of_nat (seq k (List.length l))) l) j
    = option_map (pair (Z.of_nat (k + j))) (nth_error l j).
Proof.
  induction l as [|x l IH]; intros k [|j]; cbn; try reflexivity.
  - now rewrite Nat.add_0_r.
  - rewrite IH. now rewrite Nat.add_succ_r.
Qed.

Lemma nth_error_enumerate {A : Type} (l : list A) (j : nat) :
  nth_error (enumerate l) j = option_map (pair (Z.of_nat j)) (nth_error l j).
Proof. rewrite enumerate_eq. apply nth_error_numbered. Qed.

Lemma in_enumerate {A : Type} (l : list A) (j : nat) (x : A) :
  nth_error l j = Some x -> In (Z.of_nat j, x) (enumerate l).
Proof.
  intros H. apply (nth_error_In _ j). now rewrite nth_error_enumerate, H.
Qed.

Lemma map_fst_numbered {A : Type} (l : list A) :
  forall k, map fst (combine (map Z.of_nat (seq k (List.length l))) l)
            = map Z.of_nat (seq k (List.length l)).
Proof.
  induction l as [|x l IH]; intros k; cbn; [reflexivity|]. now rewrite IH.
Qed.

Lemma map_fst_enumerate {A : Type} (l : list A) : map fst (enumerate l) = py_range (len l).
Proof.
  rewrite enumerate_eq, map_fst_numbered. unfold py_range, len. now rewrite Nat2Z.id.
Qed.

Lemma in_py_range (k x : Z) : In x (py_range k) <-> 0 <= x < k.
Proof.
  unfold py_range. rewrite in_map_iff. split.
  - intros (i & <- & Hi). apply in_seq in Hi. lia.
  - intros Hx. exists (Z.to_nat x). split; [lia|]. apply in_seq. lia.
Qed.

Lemma NoDup_py_range (k : Z) : NoDup (py_range k).
Proof.
  unfold py_range. generalize (seq_NoDup (Z.to_nat k) 0).
  generalize (seq 0 (Z.to_nat k)) as l.
  induction l as [|i l IH]; intros Hnd; cbn; [constructor|].
  apply NoDup_cons_iff in Hnd as [Hfresh Hnd]. constructor; [|now apply IH].
  rewrite in_map_iff. intros (i' & Heq & Hin). apply Nat2Z.inj in Heq. now subst.
Qed.

Lemma nth_error_ext_eq {A : Type} (l1 l2 : list A) :
  (forall j, nth_error l1 j = nth_error l2 j) -> l1 = l2.
Proof.
  revert l2. induction l1 as [|x l1 IH]; intros [|y l2] H.
  - reflexivity.
  - specialize (H 0%nat). discriminate.
  - specialize (H 0%nat). discriminate.
  - pose proof (H 0%nat) as H0. cbn in H0. injection H0 as ->.
    f_equal. apply IH. intros j. apply (H (S j)).
Qed.

Lemma fill_item_complete (it : item) (v : Q * Q * Q * Q * Q) (r : row) :
  fields it = Ok v -> complete (fill_item it r) = true.
Proof.
  intros Hv. unfold fill_item. rewrite Hv. now destruct v as [[[[v1 v2] v3] v4] v5].
Qed.

Section RoundTrip.
Variables (lsr_uuid : string) (batch_size : Z) (lsr_reports : list string).
Variable records : Z -> list item.
Hypothesis size_pos : 0 < batch_size.
Hypothesis uuid_plain : has_char "/" lsr_uuid = false.
Hypothesis sized :
  forall id b, In (id, b) (planned (len lsr_reports) batch_size) ->
               len (records id) = batch_length b.
Hypothesis readable :
  forall id b it, In (id, b) (planned (len lsr_reports) batch_size) ->
                  In it (records id) -> exists v, fields it = Ok v.

Local Abbreviation n := (len lsr_reports).
Local Abbreviation p := (planned (len lsr_reports) batch_size).
Local Abbreviation recorded := (map (fun e : Z * batch => (fst e, records (fst e))) p).

Lemma recorded_writes_keys :
  map fst (flat_map (writes_of batch_size) recorded) = py_range n.
Proof.
  rewrite <- (planned_covered n batch_size (len_nonneg _) size_pos).
  assert (H : forall q : plan,
             (forall e, In e q -> In e p) ->
             map fst (flat_map (writes_of batch_size)
                        (map (fun e : Z * batch => (fst e, records (fst e))) q))
             = covered q).
  { induction q as [|[id b] q IH]; intros Hq; [reflexivity|].
    cbn [map flat_map covered fst snd]. rewrite map_app, IH
      by (intros e He; apply Hq; now right).
    f_equal. unfold writes_of. cbn [fst snd]. rewrite map_map. cbn [fst].
    destruct (planned_entry n batch_size (len_nonneg _) size_pos id b
                (Hq _ (or_introl eq_refl))) as (_ & Hstart & _ & Hlen & _).
    rewrite <- (map_map fst (fun i => id * batch_size + i)), map_fst_enumerate.
    unfold batch_range, py_range. rewrite (sized id b (Hq _ (or_introl eq_refl))).
    rewrite map_map, Hstart. apply map_ext. intros i. lia. }
  apply H. auto.
Qed.

Lemma recorded_write (j : nat) (remark : string) :
  nth_error lsr_reports j = Some remark ->
  exists it v,
    nth_error (records (Z.of_nat j / batch_size)) (Z.to_nat (Z.of_nat j mod batch_size))
    = Some it /\
    fields it = Ok v /\
    In (Z.of_nat j, it) (flat_map (writes_of batch_size) recorded).
Proof.
  intros Hj.
  assert (Hlt : 0 <= Z.of_nat j < n).
  { apply nth_error_Some_lt in Hj || (assert (Hj' : nth_error lsr_reports j <> None)
      by congruence; apply nth_error_Some in Hj'). unfold len. lia. }
  destruct (planned_position n batch_size (len_nonneg _) size_pos _ Hlt)
    as (b & Hin & Hloc).
  pose proof (sized _ _ Hin) as Hsize.
  destruct (nth_error (records (Z.of_nat j / batch_size))
              (Z.to_nat (Z.of_nat j mod batch_size))) as [it|] eqn:Hit.
  2:{ apply nth_error_None in Hit. unfold len in Hsize. lia. }
  destruct (readable _ _ it Hin (nth_error_In _ _ Hit)) as [v Hv].
  exists it, v. split; [reflexivity|]. split; [exact Hv|].
  apply in_flat_map. exists (Z.of_nat j / batch_size, records (Z.of_nat j / batch_size)).
  split.
  - apply in_map_iff. now exists (Z.of_nat j / batch_size, b).
  - unfold writes_of. cbn [fst snd]. apply in_map_iff.
    exists (Z.of_nat j mod batch_size, it). split.
    + cbn [fst snd]. f_equal.
      pose proof (Z.div_mod (Z.of_nat j) batch_size ltac:(lia)). lia.
    + rewrite <- (Z2Nat.id (Z.of_nat j mod batch_size)) by lia.
      now apply in_enumerate.
Qed.

(** The writes of the batch results, applied in any order of the batches,
    fill the blank table into the expected one. *)
Lemma writes_fill_table (es : list (Z * list item)) :
  Permutation recorded es ->
  apply_writes (flat_map (writes_of batch_size) es) (map blank_row lsr_reports)
  = expected_table batch_size records lsr_reports.
Proof.
  intros Hperm.
  assert (Hw : Permutation (flat_map (writes_of batch_size) recorded)
                 (flat_map (writes_of batch_size) es))
    by now apply Permutation_flat_map.
  assert (Hnd : NoDup (map fst (flat_map (writes_of batch_size) es))).
  { eapply Permutation_NoDup; [apply Permutation_map, Hw|].
    rewrite recorded_writes_keys. apply NoDup_py_range. }
  assert (Hpos : forall w, In w (flat_map (writes_of batch_size) es) -> 0 <= fst w).
  { intros w Hin. apply (Permutation_in _ (Permutation_sym Hw)) in Hin.
    apply (in_map fst) in Hin. rewrite recorded_writes_keys in Hin.
    now apply in_py_range in Hin. }
  apply nth_error_ext_eq. intros j.
  rewrite nth_error_apply_writes. unfold expected_table.
  rewrite !nth_error_map, nth_error_enumerate.
  destruct (nth_error lsr_reports j) as [remark|] eqn:Hj; [|reflexivity].
  cbn [option_map fst snd].
  destruct (recorded_write j remark Hj) as (it & v & Hit & Hv & Hin).
  unfold expected_row. rewrite Hit. f_equal.
  apply row_after_once; [assumption..|].
  now apply (Permutation_in _ Hw).
Qed.

Lemma expected_table_complete :
  forallb complete (expected_table batch_size records lsr_reports) = true.
Proof.
  apply forallb_forall. intros r Hr. unfold expected_table in Hr.
  apply in_map_iff in Hr as ([j remark] & <- & Hin).
  apply In_nth_error in Hin as [k Hk]. rewrite nth_error_enumerate in Hk.
  destruct (nth_error lsr_reports k) as [remark'|] eqn:Hrep; [|discriminate].
  cbn in Hk. injection Hk as <- <-.
  destruct (recorded_write k remark' Hrep) as (it & v & Hit & Hv & _).
  cbn [fst snd]. unfold expected_row. rewrite Hit. now apply (fill_item_complete it v).
Qed.

End RoundTrip.

Lemma NoDup_map_injective {A B : Type} (f : A -> B) (l : list A) :
  (forall x y, f x = f y -> x = y) -> NoDup l -> NoDup (map f l).
Proof.
  intros Hinj. induction l as [|x l IH]; intros Hnd; cbn; [constructor|].
  apply NoDup_cons_iff in Hnd as [Hfresh Hnd]. constructor; [|now apply IH].
  rewrite in_map_iff. intros (y & Heq & Hin). apply Hinj in Heq. now subst.
Qed.

Lemma len_map {A B : Type} (f : A -> B) (l : list A) : len (map f l) = len l.
Proof. unfold len. now rewrite length_map. Qed.

Lemma map_snd_numbered {A : Type} (l : list A) :
  forall k, map snd (combine (map Z.of_nat (seq k (List.length l))) l) = l.
Proof.
  induction l as [|x l IH]; intros k; cbn; [reflexivity|]. now rewrite IH.
Qed.

Lemma map_snd_enumerate {A : Type} (l : list A) : map snd (enumerate l) = l.
Proof. rewrite enumerate_eq. apply map_snd_numbered. Qed.

Lemma fill_item_remark (it : item) (r : row) : row_remark (fill_item it r) = row_remark r.
Proof.
  unfold fill_item. destruct (fields it) as [[[[[v1 v2] v3] v4] v5]|e]; reflexivity.
Qed.

(** The expected table keeps the reports, in their order. *)
Lemma expected_table_remarks (batch_size : Z) (records : Z -> list item)
    (lsr_reports : list string) :
  map row_remark (expected_table batch_size records lsr_reports) = lsr_reports.
Proof.
  unfold expected_table. rewrite map_map.
  rewrite <- (map_snd_enumerate lsr_reports) at 2. apply map_ext.
  intros [j remark]. cbn [fst snd]. unfold expected_row.
  destruct (nth_error _ _); [apply fill_item_remark|reflexivity].
Qed.

(** In the expected table the record [i] of batch [id] sits in the row
    [id * batch_size + i], with the report of that row. *)
Lemma expected_table_position (batch_size : Z) (lsr_reports : list string)
    (records : Z -> list item) (id : Z) (b : batch) (i : nat) (it : item) :
  0 < batch_size ->
  In (id, b) (planned (len lsr_reports) batch_size) ->
  len (records id) = batch_length b ->
  nth_error (records id) i = Some it ->
  exists remark,
    nth_error lsr_reports (Z.to_nat (id * batch_size + Z.of_nat i)) = Some remark /\
    nth_error (expected_table batch_size records lsr_reports)
      (Z.to_nat (id * batch_size + Z.of_nat i))
    = Some (fill_item it (blank_row remark)).
Proof.
  intros Hbs Hin Hsize Hit.
  destruct (planned_entry _ _ (len_nonneg lsr_reports) Hbs id b Hin)
    as (Hid & _ & _ & _ & Hend & Hlen).
  assert (Hi : Z.of_nat i < batch_length b).
  { assert (H : nth_error (records id) i <> None) by congruence.
    apply nth_error_Some in H. unfold len in Hsize. lia. }
  assert (Hle : batch_length b <= batch_size).
  { pose proof (Z.mod_pos_bound (len lsr_reports) batch_size Hbs).
    destruct (id <? len lsr_reports / batch_size); lia. }
  set (j := id * batch_size + Z.of_nat i).
  assert (Hj : 0 <= j < len lsr_reports) by (unfold j; nia).
  destruct (nth_error lsr_reports (Z.to_nat j)) as [remark|] eqn:Hrem.
  2:{ apply nth_error_None in Hrem. unfold len in Hj. lia. }
  exists remark. split; [reflexivity|].
  unfold expected_table. rewrite nth_error_map, nth_error_enumerate, Hrem.
  cbn [option_map fst snd]. unfold expected_row. rewrite Z2Nat.id by lia.
  assert (Hq : j / batch_size = id).
  { symmetry. apply (Z.div_unique j batch_size id (Z.of_nat i)); unfold j; lia. }
  assert (Hr : j mod batch_size = Z.of_nat i).
  { symmetry. apply (Z.mod_unique j batch_size id (Z.of_nat i)); unfold j; lia. }
  now rewrite Hq, Hr, Nat2Z.id, Hit.
Qed.

(** The consolidation when the run has result files. *)
Lemma consolidate_files (lsr_uuid : string) (lsr_reports : list string) (batch_size : Z)
    (st : state) (f : string) (files : list string) (table : list row) :
  result_files_of lsr_uuid RESULTS_OUTPUT st = f :: files ->
  merge_files batch_size (f :: files) (map blank_row lsr_reports) st = (Ok table, st) ->
  consolidate lsr_uuid lsr_reports batch_size st = (Ok (Some table), st).
Proof.
  intros Hfiles Hmerge. unfold consolidate, bind at 1, get_files_in_dir.
  fold (result_files_of lsr_uuid RESULTS_OUTPUT st). rewrite Hfiles.
  unfold bind. now rewrite Hmerge.
Qed.

(** C5. Let the results directory hold, in any order, the result file of
    every batch of the plan for the reports, each with one readable record
    per report of its batch under the local indices 0, 1, 2, ...  Then the
    consolidation returns the table in which the row at position
    [batch_id * batch_size + local_index] is filled from that record, that
    is, row [j] from record [j % batch_size] of batch [j // batch_size]: one
    row per report in the order of the reports, none of them a placeholder,
    and the same table whatever the order of the directory. *)
Theorem consolidation_round_trip (lsr_uuid : string) (batch_size : Z)
    (lsr_reports : list string) (records : Z -> list item) (st : state) :
  0 < batch_size ->
  has_char "/" lsr_uuid = false ->
  lsr_reports <> [] ->
  (forall id b, In (id, b) (planned (len lsr_reports) batch_size) ->
                len (records id) = batch_length b) ->
  (forall id b it, In (id, b) (planned (len lsr_reports) batch_size) ->
                   In it (records id) -> exists v, fields it = Ok v) ->
  Permutation (results_dir st)
    (artifacts lsr_uuid (planned (len lsr_reports) batch_size) records) ->
  define_batches (len lsr_reports) batch_size
  = Ok (planned (len lsr_reports) batch_size) /\
  consolidate lsr_uuid lsr_reports batch_size st
  = (Ok (Some (expected_table batch_size records lsr_reports)), st) /\
  (forall id b i it,
      In (id, b) (planned (len lsr_reports) batch_size) ->
      nth_error (records id) i = Some it ->
      exists remark,
        nth_error lsr_reports (Z.to_nat (id * batch_size + Z.of_nat i)) = Some remark /\
        nth_error (expected_table batch_size records lsr_reports)
          (Z.to_nat (id * batch_size + Z.of_nat i))
        = Some (fill_item it (blank_row remark))) /\
  map row_remark (expected_table batch_size records lsr_reports) = lsr_reports /\
  forallb complete (expected_table batch_size records lsr_reports) = true.
Proof.
  intros Hbs Hu Hne Hsized Hread Hperm.
  assert (Hpos : forall id b i it,
      In (id, b) (planned (len lsr_reports) batch_size) ->
      nth_error (records id) i = Some it ->
      exists remark,
        nth_error lsr_reports (Z.to_nat (id * batch_size + Z.of_nat i)) = Some remark /\
        nth_error (expected_table batch_size records lsr_reports)
          (Z.to_nat (id * batch_size + Z.of_nat i))
        = Some (fill_item it (blank_row remark))).
  { intros id b i it Hin Hit.
    now apply (expected_table_position batch_size lsr_reports records id b i it Hbs Hin
                 (Hsized id b Hin)). }
  set (n := len lsr_reports) in *. set (p := planned n batch_size) in *.
  set (recorded := map (fun e : Z * batch => (fst e, records (fst e))) p).
  assert (Hn : 0 <= n) by apply len_nonneg.
  split; [now apply define_batches_planned|].
  split; [|split; [exact Hpos|split]].
  2:{ apply expected_table_remarks. }
  2:{ now apply expected_table_complete. }
  assert (Hart : artifacts lsr_uuid p records = map (entry_of lsr_uuid) recorded).
  { unfold artifacts, recorded. now rewrite map_map. }
  rewrite Hart in Hperm.
  apply Permutation_map_inv in Hperm as (es & Hdir & Hes).
  assert (Hkeys : NoDup (map fst es)).
  { eapply Permutation_NoDup; [apply Permutation_map, Hes|].
    unfold recorded. rewrite map_map. cbn [fst].
    change (NoDup (keys p)). unfold p. rewrite planned_keys by assumption.
    apply NoDup_py_range. }
  assert (Hlookup : forall e, In e es ->
            dict_get String.eqb (batch_filename lsr_uuid (fst e)) (results_dir st)
            = Some (json_dump (enumerate (snd e)))).
  { intros e He. apply dict_get_unique.
    - unfold keys. rewrite Hdir, map_map. cbn [entry_of fst].
      rewrite <- (map_map fst (batch_filename lsr_uuid)).
      apply NoDup_map_injective; [apply batch_filename_inj|exact Hkeys].
    - rewrite Hdir. apply in_map_iff. now exists e. }
  assert (Hvalid : forall e, In e es ->
            (forall it, In it (snd e) -> exists v, fields it = Ok v) /\
            0 <= fst e * batch_size /\
            fst e * batch_size + len (snd e) <= len (map blank_row lsr_reports)).
  { intros e He. apply (Permutation_in _ (Permutation_sym Hes)) in He.
    unfold recorded in He. apply in_map_iff in He as ([id b] & <- & Hin).
    cbn [fst snd].
    destruct (planned_entry n batch_size Hn Hbs id b Hin) as (Hid & _ & _ & _ & Hend & _).
    rewrite len_map, (Hsized id b Hin). repeat split.
    - intros it Hit. now apply (Hread id b).
    - nia.
    - fold n. lia. }
  assert (Hsome : es <> []).
  { intros ->. apply Permutation_sym, Permutation_nil in Hes.
    unfold recorded in Hes. apply map_eq_nil in Hes.
    assert (Hcov : covered p = []) by now rewrite Hes.
    unfold p in Hcov. rewrite planned_covered in Hcov by assumption.
    destruct lsr_reports as [|r l]; [contradiction|].
    assert (Hin : In 0 (py_range n)) by (apply in_py_range; unfold n, len; cbn; lia).
    now rewrite Hcov in Hin. }
  pose proof (result_files_of_entries lsr_uuid Hu es st Hdir) as Hfiles.
  pose proof (merge_files_reads lsr_uuid batch_size Hu es st Hlookup
                (map blank_row lsr_reports)) as Hmerge.
  rewrite (merge_all_writes batch_size es _ Hvalid) in Hmerge.
  rewrite (writes_fill_table batch_size lsr_reports records Hbs Hsized Hread es Hes)
    in Hmerge.
  destruct (map (fun e => batch_path lsr_uuid (fst e)) es) as [|f files] eqn:Hmap.
  { apply map_eq_nil in Hmap. contradiction. }
  exact (consolidate_files _ _ _ _ _ _ _ Hfiles Hmerge).
Qed.

Lemma consolidation_round_trip_witness :
  Permutation (results_dir reversed_state)
    (artifacts "UUID" (planned (len (sample_reports 25)) 10) sample_records) /\
  keys (results_dir reversed_state) = ["UUID_2.json"; "UUID_1.json"; "UUID_0.json"] /\
  consolidate "UUID" (sample_reports 25) 10 reversed_state
  = (Ok (Some (expected_table 10 sample_records (sample_reports 25))), reversed_state) /\
  map row_remark (expected_table 10 sample_records (sample_reports 25))
  = sample_reports 25 /\
  forallb complete (expected_table 10 sample_records (sample_reports 25)) = true.
Proof.
  assert (Hperm : Permutation (results_dir reversed_state)
                    (artifacts "UUID" (planned (len (sample_reports 25)) 10)
                       sample_records)).
  { apply Permutation_sym, Permutation_rev. }
  assert (Hne : sample_reports 25 <> []) by discriminate.
  assert (Hsized : forall id b,
             In (id, b) (planned (len (sample_reports 25)) 10) ->
             len (sample_records id) = batch_length b).
  { intros id b Hin. vm_compute in Hin.
    destruct Hin as [H|[H|[H|[]]]]; injection H as <- <-; reflexivity. }
  assert (Hread : forall id b it,
             In (id, b) (planned (len (sample_reports 25)) 10) ->
             In it (sample_records id) -> exists v, fields it = Ok v).
  { intros id b it _ Hin. unfold sample_records in Hin.
    apply in_map_iff in Hin as (remark & <- & _). eexists. vm_compute. reflexivity. }
  destruct (consolidation_round_trip "UUID" 10 (sample_reports 25) sample_records
              reversed_state ltac:(lia) eq_refl Hne Hsized Hread Hperm)
    as (_ & Hrun & _ & Hrem & Hall).
  split; [exact Hperm|]. split; [reflexivity|]. split; [exact Hrun|].
  split; [exact Hrem|exact Hall].
Defined.

(** The round trip of the design document, run from an empty results
    directory: 25 reports in batches of 10 leave the three files of the
    batches of sizes 10, 10 and 5, and the table has its 25 rows in the order
    of the reports, each with its score and none a placeholder. *)
Example round_trip_25_by_10 :
  results_dir (snd (main steady_service "UUID" "" (sample_reports 25) (initial [])))
  = artifacts "UUID" (planned 25 10) sample_records /\
  map (fun e => len (snd e))
    (results_dir (snd (main steady_service "UUID" "" (sample_reports 25) (initial []))))
  = [10; 10; 5] /\
  fst (main steady_service "UUID" "" (sample_reports 25) (initial []))
  = Ok (Some (expected_table 10 sample_records (sample_reports 25))) /\
  option_map (map row_remark)
    (Some (expected_table 10 sample_records (sample_reports 25)))
  = Some (sample_reports 25) /\
  forallb complete (expected_table 10 sample_records (sample_reports 25)) = true.
Proof. repeat split; vm_compute; reflexivity. Qed.

(** ** Responses without a classification *)

(** A response with no brace and no blank line is replaced by the all-zero
    record, with the score 0 and the response as the extra text. *)
Lemma plain_response_recovered (remark response : string) :
  has_char "{" response = false ->
  has_char "}" response = false ->
  str_contains (nl ++ nl) response = false ->
  classify_response remark response = Ok (mkItem remark zero_probs 0%Q response).
Proof.
  intros Hopen Hclose Hpar.
  assert (Hextra : response_extra response = response).
  { unfold response_extra, str_split.
    pose proof (split_go_char_absent "}" response "" Hclose) as H1. unfold char in H1.
    rewrite H1. cbn [py_last last append]. now rewrite split_go_absent. }
  assert (Hclasses : response_classes response = zero_classes).
  { unfold response_classes. rewrite Hextra. unfold str_split.
    pose proof (split_go_char_absent "{" response "" Hopen) as H1. unfold char in H1.
    rewrite H1. cbn [py_last last append].
    pose proof (split_go_char_absent "}" response "" Hclose) as H2. unfold char in H2.
    rewrite H2. cbn [py_first hd append]. now rewrite String.eqb_refl. }
  unfold classify_response, response_json. rewrite Hclasses, Hextra.
  vm_compute. reflexivity.
Qed.

(** C6, at a response the code does not recover from: prose in two
    paragraphs has no brace, yet it is not replaced by the all-zero record;
    the text is handed to the JSON decoder as it is, the decoder raises, the
    driver's handler does not name that exception, and the run ends with it
    before any file is written. *)
Theorem prose_response_not_recovered :
  has_char "{" prose_response = false /\
  has_char "}" prose_response = false /\
  response_extra prose_response = "Please provide more detail." /\
  response_json prose_response = "{" ++ prose_response ++ "}" /\
  classify_response "Water over the road." prose_response = Raise JSONDecodeError /\
  transient JSONDecodeError = false /\
  fst (main prose_service "UUID" "" ["Water over the road."] (initial []))
  = Raise JSONDecodeError /\
  results_dir (snd (main prose_service "UUID" "" ["Water over the road."] (initial [])))
  = [] /\
  classify_response "Water over the road." "I cannot classify this report."
  = Ok (mkItem "Water over the road." zero_probs 0%Q "I cannot classify this report.").
Proof. repeat split; vm_compute; reflexivity. Qed.

(** ** Pauses *)

Lemma classify_loop_trace (service : nat -> string -> string -> result string)
    (impact_defs : string) (wait_time total : Z) (remarks : list string) :
  forall index acc st r st',
    total = index + len remarks ->
    classify_loop service impact_defs wait_time 0 total index remarks acc st = (Ok r, st') ->
    console st' = (console st ++ batch_trace wait_time remarks)%list.
Proof.
  induction remarks as [|remark rest IH]; intros index acc st r st' Htotal Hrun.
  - cbn in Hrun. injection Hrun as _ <-. cbn. now rewrite app_nil_r.
  - cbn [classify_loop] in Hrun. unfold bind at 1 in Hrun.
    assert (Hq : forall x s, query_gpt service remark impact_defs st = (x, s) ->
               console s = (console st ++ request_events remark)%list).
    { intros x s Hx. unfold query_gpt, request_events in *.
      destruct (negb (String.eqb remark "") && negb (String.eqb remark " "))%bool.
      - injection Hx as _ <-. reflexivity.
      - unfold ret in Hx. injection Hx as _ <-. cbn. now rewrite app_nil_r. }
    destruct (query_gpt service remark impact_defs st) as [[response|e] s1] eqn:Hs1;
      [|discriminate].
    specialize (Hq _ _ eq_refl).
    unfold bind at 1, lift at 1 in Hrun.
    destruct (classify_response remark response) as [it|e]; [|discriminate].
    cbn [Z.eqb negb andb] in Hrun. unfold bind at 1 in Hrun.
    unfold len in Htotal. cbn [List.length] in Htotal.
    cbn [batch_trace]. destruct rest as [|next rest']; cbn [List.length] in Htotal.
    + destruct (Z.ltb_spec index (total - 1)); [lia|].
      cbn [when ret classify_loop] in Hrun. unfold ret in Hrun.
      injection Hrun as _ <-. now rewrite Hq, app_nil_r.
    + destruct (Z.ltb_spec index (total - 1)); [|lia].
      cbn [when wait_timeout emit] in Hrun.
      apply IH in Hrun; [|unfold len; cbn [List.length]; lia].
      rewrite Hrun. cbn [console]. rewrite Hq. now rewrite <- !app_assoc.
Qed.

(** Within one batch, an attempt that returns has paused after every report
    except the last one of the batch. *)
Lemma attempt_trace (service : nat -> string -> string -> result string)
    (impact_defs : string) (wait_time : Z) (remarks : list string)
    (st : state) (r : list (Z * item)) (st' : state) :
  classify_lsr_remarks service remarks impact_defs wait_time 0 0 true st = (Ok r, st') ->
  console st' = (console st ++ batch_trace wait_time remarks)%list.
Proof.
  unfold classify_lsr_remarks. cbn [Z.eqb negb andb when].
  unfold bind at 1, ret at 1. unfold bind at 1, ret at 1.
  apply classify_loop_trace. lia.
Qed.

(** C8, at a run over two batches: eleven reports make a batch of ten and
    a batch of one; nine pauses separate the ten requests of the first
    batch, and no pause separates its last request from the request of the
    second batch, only the write of the first file. *)
Theorem no_pause_between_batches :
  keys (batches (snd (main steady_service "UUID" "" (sample_reports 11) (initial []))))
  = [0; 1] /\
  pauses_between
    (console (snd (main steady_service "UUID" "" (sample_reports 11) (initial []))))
  = [1; 1; 1; 1; 1; 1; 1; 1; 1; 0]%nat /\
  skipn 19
    (console (snd (main steady_service "UUID" "" (sample_reports 11) (initial []))))
  = [EvWait 20; EvRequest "report 9"; EvWrite "./results/UUID_0.json"; EvBatch 1;
     EvRequest "report 10"; EvWrite "./results/UUID_1.json"].
Proof. repeat split; vm_compute; reflexivity. Qed.

(** ** Further properties of the pipeline *)

(** The batch id the scanner and the consolidation read off the path of a
    result file is the id the driver wrote the file for, whatever the run
    identifier. *)
Theorem batch_id_round_trip (lsr_uuid : string) (batch_id : Z) :
  py_int (batch_id_of (batch_path lsr_uuid batch_id)) = Ok batch_id.
Proof.
  unfold batch_path, os_path_join.
  destruct (prefix "/" (batch_filename lsr_uuid batch_id)).
  - unfold batch_filename. now rewrite batch_id_of_filename, py_int_str.
  - change (String.eqb RESULTS_OUTPUT "" || str_endswith RESULTS_OUTPUT "/")%bool
      with true. cbv iota. unfold batch_filename.
    now rewrite <- append_assoc, batch_id_of_filename, py_int_str.
Qed.

(** An empty or blank remark is not sent to the service: [query_gpt] makes
    up a response, which is classified as the all-zero record with the score
    0 and the note that the remark is missing. *)
Theorem blank_remark_not_sent (service : nat -> string -> string -> result string)
    (impact_defs : string) (st : state) :
  query_gpt service "" impact_defs st = (Ok no_remark_result, st) /\
  query_gpt service " " impact_defs st = (Ok no_remark_result, st) /\
  forall remark,
    classify_response remark no_remark_result
    = Ok (mkItem remark zero_probs 0%Q "NO REMARK FOR THIS LSR!").
Proof.
  split; [reflexivity|]. split; [reflexivity|]. intros remark. vm_compute. reflexivity.
Qed.

(** Within one batch an attempt that returns has sent one request per
    non-blank report and paused for the configured time after every report
    except the last of the batch. *)
Theorem pauses_within_batch (service : nat -> string -> string -> result string)
    (impact_defs : string) (wait_time : Z) (remarks : list string)
    (st : state) (r : list (Z * item)) (st' : state) :
  classify_lsr_remarks service remarks impact_defs wait_time 0 0 true st = (Ok r, st') ->
  console st' = (console st ++ batch_trace wait_time remarks)%list.
Proof. apply attempt_trace. Qed.

Lemma pauses_within_batch_witness :
  classify_lsr_remarks steady_service ["a"; " "; "b"] "" 20 0 0 true (initial [])
  = (Ok [(0, sample_item "a");
         (1, mkItem " " zero_probs 0%Q "NO REMARK FOR THIS LSR!");
         (2, sample_item "b")],
     mkState [] [] 2 [EvRequest "a"; EvWait 20; EvWait 20; EvRequest "b"]) /\
  console (mkState [] [] 2 [EvRequest "a"; EvWait 20; EvWait 20; EvRequest "b"])
  = (console (initial []) ++ batch_trace 20 ["a"; " "; "b"])%list.
Proof.
  assert (H : classify_lsr_remarks steady_service ["a"; " "; "b"] "" 20 0 0 true
                (initial [])
              = (Ok [(0, sample_item "a");
                     (1, mkItem " " zero_probs 0%Q "NO REMARK FOR THIS LSR!");
                     (2, sample_item "b")],
                 mkState [] [] 2 [EvRequest "a"; EvWait 20; EvWait 20; EvRequest "b"]))
    by (vm_compute; reflexivity).
  split; [exact H|]. exact (pauses_within_batch _ _ _ _ _ _ _ H).
Defined.

(** A response with no brace and no blank line is replaced by the all-zero
    record, with the score 0 and the whole response as the extra text. *)
Theorem plain_response_zero_record (remark response : string) :
  has_char "{" response = false ->
  has_char "}" response = false ->
  str_contains (nl ++ nl) response = false ->
  classify_response remark response = Ok (mkItem remark zero_probs 0%Q response) /\
  ffsi_score zero_probs false = Ok 0%Q.
Proof.
  intros Hopen Hclose Hpar. split; [now apply plain_response_recovered|reflexivity].
Qed.

Lemma plain_response_zero_record_witness :
  has_char "{" "I cannot classify this report." = false /\
  has_char "}" "I cannot classify this report." = false /\
  str_contains (nl ++ nl) "I cannot classify this report." = false /\
  classify_response "Water over the road." "I cannot classify this report."
  = Ok (mkItem "Water over the road." zero_probs 0%Q "I cannot classify this report.").
Proof.
  split; [reflexivity|]. split; [reflexivity|]. split; [reflexivity|].
  exact (proj1 (plain_response_zero_record "Water over the road."
                  "I cannot classify this report." eq_refl eq_refl eq_refl)).
Defined.

(** With no report at all, the loop body never runs and the count after the
    loop reads its unbound variable: [main] raises [UnboundLocalError]. *)
Theorem main_without_reports (service : nat -> string -> string -> result string)
    (lsr_uuid impact_defs : string) :
  fst (main service lsr_uuid impact_defs [] (initial [])) = Raise UnboundLocalError.
Proof. reflexivity. Qed.

Lemma dict_set_same_value {V : Type} (k : Z) (v : V) (d : list (Z * V)) :
  dict_get Z.eqb k d = Some v -> dict_set Z.eqb k v d = d.
Proof.
  induction d as [|[k' v'] d IH]; cbn; [discriminate|].
  destruct (Z.eqb_spec k k') as [->|Hne].
  - intros H. injection H as ->. reflexivity.
  - intros H. now rewrite IH.
Qed.

(** After a marking loop that returned, every file it went through has its
    batch marked, and the directory is as it was. *)
Lemma mark_found_marked (files : list string) :
  forall st st1,
    mark_found files st = (Ok tt, st1) ->
    results_dir st1 = results_dir st /\
    forall f, In f files ->
      exists n b, py_int (batch_id_of f) = Ok n /\
                  dict_get Z.eqb n (batches st1) = Some b /\ processed b = true.
Proof.
  induction files as [|f rest IH]; intros st st1 Hrun.
  - cbn in Hrun. injection Hrun as <-. split; [reflexivity|]. intros f [].
  - cbn [mark_found] in Hrun.
    unfold bind, lift, get_batches, set_batches, dict_getitem in Hrun.
    destruct (py_int (batch_id_of f)) as [n|] eqn:Hn; [|discriminate].
    cbn [batches] in Hrun.
    destruct (dict_get Z.eqb n (batches st)) as [b|] eqn:Hb; [|discriminate].
    pose proof (plan_grows_mark_found rest
                  (mkState (dict_set Z.eqb n (mkBatch (indices b) true) (batches st))
                     (results_dir st) (requests st) (console st))) as Hgrow.
    destruct (IH _ _ Hrun) as [Hdir Hrest]. rewrite Hrun in Hgrow.
    split; [exact Hdir|]. intros f' [<-|Hin]; [|now apply Hrest].
    destruct Hgrow as [_ Hgrow].
    destruct (Hgrow n (mkBatch (indices b) true)) as (b' & Hb' & _ & Hp').
    { cbn. apply dict_get_set_same. }
    exists n, b'. split; [exact Hn|]. split; [exact Hb'|]. now apply Hp'.
Qed.

(** A marking loop over files whose batches are all marked changes nothing. *)
Lemma mark_found_again (files : list string) (st : state) :
  (forall f, In f files ->
     exists n b, py_int (batch_id_of f) = Ok n /\
                 dict_get Z.eqb n (batches st) = Some b /\ processed b = true) ->
  mark_found files st = (Ok tt, st).
Proof.
  induction files as [|f rest IH]; intros Hall; [reflexivity|].
  destruct (Hall f (or_introl eq_refl)) as (n & b & Hn & Hb & Hp).
  cbn [mark_found]. unfold bind, lift, get_batches, set_batches, dict_getitem.
  rewrite Hn. cbn [batches]. rewrite Hb.
  rewrite <- Hp, batch_eta, (dict_set_same_value _ _ _ Hb).
  replace (mkState (batches st) (results_dir st) (requests st) (console st)) with st
    by now destruct st.
  apply IH. intros f' Hin. apply Hall. now right.
Qed.

(** Scanning the same results directory a second time returns the plan the
    first scan returned. *)
Theorem scan_twice_same_plan (file_uuid results_path : string) (st st1 : state)
    (p1 : plan) :
  match_batch_results file_uuid results_path st = (Ok p1, st1) ->
  exists st2,
    match_batch_results file_uuid results_path st1 = (Ok p1, st2) /\
    batches st2 = p1 /\ results_dir st2 = results_dir st.
Proof.
  unfold match_batch_results, bind at 1, get_files_in_dir at 1.
  fold (result_files_of file_uuid results_path st).
  intros Hrun.
  assert (Hshape : results_dir st1 = results_dir st /\ batches st1 = p1 /\
            (result_files_of file_uuid results_path st <> [] ->
             mark_found (result_files_of file_uuid results_path st) st1 = (Ok tt, st1))).
  { destruct (result_files_of file_uuid results_path st) as [|f files] eqn:Hfiles.
    - cbn in Hrun. injection Hrun as <- <-.
      split; [reflexivity|]. split; [reflexivity|]. intros H. contradiction.
    - unfold bind at 1 in Hrun.
      destruct (mark_found (f :: files) st) as [[[]|e] s] eqn:Hmark; [|discriminate].
      cbn in Hrun. injection Hrun as <- <-.
      destruct (mark_found_marked _ _ _ Hmark) as [Hdir Hall].
      split; [exact Hdir|]. split; [reflexivity|].
      intros _. now apply mark_found_again. }
  destruct Hshape as (Hdir & Hp & Hagain).
  assert (Hfiles : result_files_of file_uuid results_path st1
                   = result_files_of file_uuid results_path st).
  { unfold result_files_of. now rewrite Hdir. }
  unfold bind at 1, get_files_in_dir at 1.
  fold (result_files_of file_uuid results_path st1). rewrite Hfiles.
  destruct (result_files_of file_uuid results_path st) as [|f files] eqn:Hlist.
  - eexists. split; [cbn; rewrite Hp; reflexivity|]. cbn. now split.
  - exists st1. unfold bind at 1. rewrite Hagain by discriminate.
    unfold get_batches. rewrite Hp. split; [reflexivity|]. now split.
Qed.

Lemma scan_twice_same_plan_witness :
  match_batch_results "UUID" RESULTS_OUTPUT on_disk_state
  = (Ok (batches resumed_state), resumed_state) /\
  exists st2,
    match_batch_results "UUID" RESULTS_OUTPUT resumed_state
    = (Ok (batches resumed_state), st2) /\
    batches st2 = batches resumed_state /\
    results_dir st2 = results_dir on_disk_state.
Proof.
  assert (H : match_batch_results "UUID" RESULTS_OUTPUT on_disk_state
              = (Ok (batches resumed_state), resumed_state)) by reflexivity.
  split; [exact H|]. exact (scan_twice_same_plan _ _ _ _ _ H).
Defined.

(** ** Records the driver stores *)

Lemma scan_members_dict (fuel : nat) :
  forall acc s v rest,
    scan_members fuel acc s = Some (v, rest) -> exists d, v = PyDict d.
Proof.
  induction fuel as [|fuel IH]; intros acc s v rest H; [discriminate|].
  cbn [scan_members] in H.
  destruct s as [|c s']; [discriminate|].
  destruct (Ascii.eqb c dquote); [|discriminate].
  destruct (scan_string _ _ _) as [[key r1]|]; [|discriminate].
  destruct (skip_ws r1) as [|colon r2]; [discriminate|].
  destruct (Ascii.eqb colon ":"); [|discriminate].
  destruct (scan_once fuel (skip_ws r2)) as [[value r3]|]; [|discriminate].
  cbv zeta in H.
  destruct (skip_ws r3) as [|c' r4]; [discriminate|].
  destruct (Ascii.eqb c' "}").
  - injection H as <- _. now eexists.
  - destruct (Ascii.eqb c' ","); [|discriminate]. now apply IH in H.
Qed.

(** A text that starts with an opening brace decodes to a dictionary, if it
    decodes at all. *)
Lemma json_loads_object (s : string) (v : pyval) :
  json_loads (String "{" s) = Ok v -> exists d, v = PyDict d.
Proof.
  unfold json_loads. change (skip_ws (String "{" s)) with (String "{" s).
  intros H.
  destruct (2 * String.length (String "{" s) + 2)%nat as [|fuel]; [discriminate|].
  cbn [scan_once] in H.
  change (Ascii.eqb "{" dquote) with false in H.
  change (Ascii.eqb "{" "{") with true in H.
  cbv iota zeta in H.
  destruct (skip_ws s) as [|c' rest]; [discriminate|].
  destruct (Ascii.eqb c' "}").
  - destruct (skip_ws rest); [|discriminate]. injection H as <-. now eexists.
  - destruct (scan_members fuel [] (String c' rest)) as [[v' r]|] eqn:Hm; [|discriminate].
    destruct (skip_ws r); [|discriminate]. injection H as <-.
    now apply scan_members_dict in Hm.
Qed.

Lemma weighted_number (p : pyval) (w : Z) (t : Q) :
  weighted p w = Ok t -> exists v, percent p = Ok v.
Proof.
  unfold weighted, percent. destruct (as_number p); [|discriminate]. now eexists.
Qed.

(** Every record the classifier stores has the five probabilities the
    consolidation reads. *)
Lemma classified_record_readable (remark response : string) (it : item) :
  classify_response remark response = Ok it -> exists v, fields it = Ok v.
Proof.
  unfold classify_response, response_json. cbn [append].
  destruct (json_loads _) as [probs|] eqn:Hj; [|discriminate].
  apply json_loads_object in Hj as [d ->]. cbn [rbind].
  destruct (ffsi_score (PyDict d) false) as [score|] eqn:Hs; [|discriminate].
  intros H. injection H as <-. unfold fields. cbn [item_probs pyval_getitem].
  unfold ffsi_score in Hs.
  destruct (dict_getitem String.eqb "MINOR" d) as [p1|]; [|discriminate].
  cbn [rbind] in Hs. destruct (weighted p1 1) as [t1|] eqn:H1; [|discriminate].
  cbn [rbind] in Hs.
  destruct (dict_getitem String.eqb "MODERATE" d) as [p2|]; [|discriminate].
  cbn [rbind] in Hs. destruct (weighted p2 2) as [t2|] eqn:H2; [|discriminate].
  cbn [rbind] in Hs.
  destruct (dict_getitem String.eqb "SERIOUS" d) as [p3|]; [|discriminate].
  cbn [rbind] in Hs. destruct (weighted p3 3) as [t3|] eqn:H3; [|discriminate].
  cbn [rbind] in Hs.
  destruct (dict_getitem String.eqb "SEVERE" d) as [p4|]; [|discriminate].
  cbn [rbind] in Hs. destruct (weighted p4 4) as [t4|] eqn:H4; [|discriminate].
  cbn [rbind] in Hs.
  destruct (dict_getitem String.eqb "CATASTROPHIC" d) as [p5|]; [|discriminate].
  cbn [rbind] in Hs. destruct (weighted p5 5) as [t5|] eqn:H5; [|discriminate].
  apply weighted_number in H1 as [v1 E1], H2 as [v2 E2], H3 as [v3 E3],
    H4 as [v4 E4], H5 as [v5 E5].
  cbn [rbind]. rewrite E1, E2, E3, E4, E5. cbn [rbind]. now eexists.
Qed.

(** * Further properties of the code *)

(** ** The score function, beyond the formula *)



(** The score of five numbers, over the rationals: the value of the source
    expression. *)
Lemma ffsi_score_numbers (d : list (string * pyval)) (q1 q2 q3 q4 q5 : Q)
    (normalize : bool) :
  dict_get String.eqb "MINOR" d = Some (PyNum q1) ->
  dict_get String.eqb "MODERATE" d = Some (PyNum q2) ->
  dict_get String.eqb "SERIOUS" d = Some (PyNum q3) ->
  dict_get String.eqb "SEVERE" d = Some (PyNum q4) ->
  dict_get String.eqb "CATASTROPHIC" d = Some (PyNum q5) ->
  exists score,
    ffsi_score (PyDict d) normalize = Ok score /\
    (score == (q1 * (1 # 100) * 1 + q2 * (1 # 100) * 2 + q3 * (1 # 100) * 3
               + q4 * (1 # 100) * 4 + q5 * (1 # 100) * 5)
              * (if normalize then 1 # 5 else 1))%Q.
Proof.
  intros E1 E2 E3 E4 E5. unfold ffsi_score, dict_getitem.
  rewrite E1, E2, E3, E4, E5. cbn [rbind weighted as_number].
  eexists. split; [reflexivity|].
  unfold fadd, fmul, fdiv. destruct normalize; rewrite !Qred_correct; unfold Qdiv;
    change (/ inject_Z 100)%Q with (1 # 100)%Q; change (/ inject_Z 5)%Q with (1 # 5)%Q;
    change (inject_Z 1) with 1%Q; change (inject_Z 2) with 2%Q;
    change (inject_Z 3) with 3%Q; change (inject_Z 4) with 4%Q;
    change (inject_Z 5) with 5%Q; ring.
Qed.

(** For probabilities that are not negative the score lies between one and
    five hundredths of their sum: between 1 and 5 when they sum to 100, as
    the source's description has it, and then the normalized score lies
    between 1/5 and 1. *)
Theorem ffsi_score_range (d : list (string * pyval)) (q1 q2 q3 q4 q5 : Q) :
  dict_get String.eqb "MINOR" d = Some (PyNum q1) ->
  dict_get String.eqb "MODERATE" d = Some (PyNum q2) ->
  dict_get String.eqb "SERIOUS" d = Some (PyNum q3) ->
  dict_get String.eqb "SEVERE" d = Some (PyNum q4) ->
  dict_get String.eqb "CATASTROPHIC" d = Some (PyNum q5) ->
  (0 <= q1)%Q -> (0 <= q2)%Q -> (0 <= q3)%Q -> (0 <= q4)%Q -> (0 <= q5)%Q ->
  exists score normalized,
    ffsi_score (PyDict d) false = Ok score /\
    ffsi_score (PyDict d) true = Ok normalized /\
    ((q1 + q2 + q3 + q4 + q5) * (1 # 100) <= score)%Q /\
    (score <= 5 * ((q1 + q2 + q3 + q4 + q5) * (1 # 100)))%Q /\
    ((q1 + q2 + q3 + q4 + q5 == 100)%Q ->
     (1 <= score)%Q /\ (score <= 5)%Q /\
     (1 # 5 <= normalized)%Q /\ (normalized <= 1)%Q).
Proof.
  intros E1 E2 E3 E4 E5 H1 H2 H3 H4 H5.
  destruct (ffsi_score_numbers d q1 q2 q3 q4 q5 false E1 E2 E3 E4 E5) as (s & Hs & Vs).
  destruct (ffsi_score_numbers d q1 q2 q3 q4 q5 true E1 E2 E3 E4 E5) as (t & Ht & Vt).
  exists s, t. split; [exact Hs|]. split; [exact Ht|].
  cbv iota in Vs, Vt. split; [lra|]. split; [lra|].
  intros Hsum. repeat split; lra.
Qed.

Lemma ffsi_score_range_witness :
  exists score normalized,
    ffsi_score (PyDict [("MINOR", PyNum 10%Q); ("MODERATE", PyNum 20%Q);
                        ("SERIOUS", PyNum 30%Q); ("SEVERE", PyNum 40%Q);
                        ("CATASTROPHIC", PyNum 0%Q)]) false = Ok score /\
    ffsi_score (PyDict [("MINOR", PyNum 10%Q); ("MODERATE", PyNum 20%Q);
                        ("SERIOUS", PyNum 30%Q); ("SEVERE", PyNum 40%Q);
                        ("CATASTROPHIC", PyNum 0%Q)]) true = Ok normalized /\
    ((10 + 20 + 30 + 40 + 0) * (1 # 100) <= score)%Q /\
    (score <= 5 * ((10 + 20 + 30 + 40 + 0) * (1 # 100)))%Q /\
    ((10 + 20 + 30 + 40 + 0 == 100)%Q ->
     (1 <= score)%Q /\ (score <= 5)%Q /\
     (1 # 5 <= normalized)%Q /\ (normalized <= 1)%Q).
Proof.
  apply (ffsi_score_range _ 10 20 30 40 0);
    try reflexivity; unfold Qle; cbn; lia.
Defined.

(** ** The planner on a negative batch size *)

(** A negative batch size makes no batch at all: the quotient is not
    positive, so the loop over the full batches is empty, and the remainder
    has the sign of the divisor, so no partial batch is added. *)
Theorem define_batches_negative_size (n bs : Z) :
  0 <= n -> bs < 0 -> define_batches n bs = Ok [].
Proof.
  intros Hn Hbs. rewrite define_batches_nonzero by lia.
  pose proof (Z.mod_neg_bound n bs Hbs) as Hmod.
  pose proof (Z.div_mod n bs ltac:(lia)) as Hdm.
  assert (Hq : n / bs <= 0) by nia.
  unfold py_range. replace (Z.to_nat (n / bs)) with 0%nat by lia.
  destruct (Z.gtb_spec (n mod bs) 0); [lia|reflexivity].
Qed.

Lemma define_batches_negative_size_witness :
  0 <= 25 /\ -10 < 0 /\ define_batches 25 (-10) = Ok [].
Proof.
  split; [lia|]. split; [lia|]. apply (define_batches_negative_size 25 (-10)); lia.
Defined.

(** ** The batch limit of the loop *)

Section Limit.
Variable service : nat -> string -> string -> result string.
Variables (lsr_uuid impact_defs : string) (lsr_reports : list string).
Variable wait_time : Z.

Local Abbreviation loop max ids last :=
  (batch_loop service lsr_uuid impact_defs lsr_reports max wait_time ids last).

(** The loop with a limit stops after the batch whose id equals the limit:
    it is the loop without a limit over the ids up to and including that
    one. *)
Lemma batch_loop_limit (m : Z) (l1 l2 : list Z) :
  m <> 0 -> ~ In m l1 ->
  forall last st, loop m (l1 ++ m :: l2)%list last st = loop 0 (l1 ++ [m])%list last st.
Proof.
  intros Hm. induction l1 as [|id l1 IH]; intros Hfresh last st.
  - cbn [app]. rewrite !batch_loop_step. cbv zeta.
    rewrite Z.eqb_refl. destruct (Z.eqb_spec m 0) as [|_]; [contradiction|].
    cbn [negb andb Z.eqb].
    destruct (dict_get Z.eqb m (batches st)) as [b|]; [|reflexivity].
    destruct (processed b); [reflexivity|].
    destruct (process_batch _ _ _ _ _ _ _ _) as [[r|e] st1]; reflexivity.
  - cbn [app]. rewrite !batch_loop_step. cbv zeta.
    assert (Hne : id <> m) by (intros ->; apply Hfresh; now left).
    assert (Hrest : ~ In m l1) by (intros H; apply Hfresh; now right).
    destruct (Z.eqb_spec id m) as [|_]; [contradiction|].
    rewrite andb_false_r. cbn [Z.eqb negb andb].
    destruct (dict_get Z.eqb id (batches st)) as [b|]; [|reflexivity].
    destruct (processed b); [now apply IH|].
    destruct (process_batch _ _ _ _ _ _ _ _) as [[r|e] st1]; [now apply IH|reflexivity].
Qed.

(** A limit that is no id of the loop changes nothing. *)
Lemma batch_loop_limit_absent (m : Z) (ids : list Z) :
  ~ In m ids ->
  forall last st, loop m ids last st = loop 0 ids last st.
Proof.
  induction ids as [|id ids IH]; intros Hfresh last st; [reflexivity|].
  rewrite !batch_loop_step. cbv zeta.
  assert (Hne : id <> m) by (intros ->; apply Hfresh; now left).
  assert (Hrest : ~ In m ids) by (intros H; apply Hfresh; now right).
  destruct (Z.eqb_spec id m) as [|_]; [contradiction|].
  rewrite andb_false_r. cbn [Z.eqb negb andb].
  destruct (dict_get Z.eqb id (batches st)) as [b|]; [|reflexivity].
  destruct (processed b); [now apply IH|].
  destruct (process_batch _ _ _ _ _ _ _ _) as [[r|e] st1]; [now apply IH|reflexivity].
Qed.

End Limit.

Lemma py_range_split (m k : Z) :
  0 <= m < k -> exists l2, py_range k = (py_range m ++ m :: l2)%list.
Proof.
  intros Hm. unfold py_range.
  replace (Z.to_nat k) with (Z.to_nat m + S (Z.to_nat (k - m - 1)))%nat by lia.
  rewrite seq_app, map_app. cbn [seq map Nat.add].
  rewrite Z2Nat.id by lia. now eexists.
Qed.

(** With a limit [m > 0] on the ids 0, ..., k-1 of a plan, the loop visits
    the batches 0 to [m], that is [m + 1] of them, and all [k] when [m >= k]. *)
Theorem batch_limit_visits_one_more (service : nat -> string -> string -> result string)
    (lsr_uuid impact_defs : string) (lsr_reports : list string) (wait_time m k : Z)
    (last : option (option (list (Z * item)))) (st : state) :
  0 < m ->
  batch_loop service lsr_uuid impact_defs lsr_reports m wait_time (py_range k) last st
  = batch_loop service lsr_uuid impact_defs lsr_reports 0 wait_time
      (py_range (Z.min k (m + 1))) last st.
Proof.
  intros Hm. destruct (Z_lt_ge_dec m k) as [Hlt|Hge].
  - rewrite Z.min_r by lia. destruct (py_range_split m k ltac:(lia)) as [l2 ->].
    rewrite py_range_S by lia. apply batch_loop_limit; [lia|].
    rewrite in_py_range. lia.
  - rewrite Z.min_l by lia. apply batch_loop_limit_absent.
    rewrite in_py_range. lia.
Qed.

Lemma batch_limit_visits_one_more_witness :
  0 < 1 /\
  batch_loop steady_service "UUID" "" (sample_reports 25) 1 WAIT_TIME (py_range 3) None
    (mkState sample_plan [] 0 [])
  = batch_loop steady_service "UUID" "" (sample_reports 25) 0 WAIT_TIME [0; 1] None
      (mkState sample_plan [] 0 []) /\
  keys (results_dir
          (snd (batch_loop steady_service "UUID" "" (sample_reports 25) 1 WAIT_TIME
                  (py_range 3) None (mkState sample_plan [] 0 []))))
  = ["UUID_0.json"; "UUID_1.json"].
Proof.
  split; [lia|]. split.
  - exact (batch_limit_visits_one_more steady_service "UUID" "" (sample_reports 25)
             WAIT_TIME 1 3 None (mkState sample_plan [] 0 []) ltac:(lia)).
  - vm_compute. reflexivity.
Defined.

(** ** Failures the driver does not name *)

(** When the attempt on a batch raises an exception that is none of the four
    the driver names, there is no pause and no second attempt: the loop ends
    with that exception in the state the attempt left, with the plan and the
    results directory as they were. *)
Theorem other_failure_not_retried (service : nat -> string -> string -> result string)
    (lsr_uuid impact_defs : string) (lsr_reports : list string)
    (max_batches wait_time batch_id : Z) (rest : list Z)
    (last : option (option (list (Z * item)))) (st : state) (b : batch)
    (e1 : exn) (s1 : state) :
  dict_get Z.eqb batch_id (batches st) = Some b ->
  processed b = false ->
  attempt service impact_defs wait_time lsr_reports b (snd (emit (EvBatch batch_id) st))
  = (Raise e1, s1) ->
  transient e1 = false ->
  batch_loop service lsr_uuid impact_defs lsr_reports max_batches wait_time
    (batch_id :: rest) last st = (Raise e1, s1) /\
  batches s1 = batches st /\
  flag (batches s1) batch_id = false /\
  results_dir s1 = results_dir st /\
  written (console s1) = written (console st).
Proof.
  intros Hb Hp H1 Ht.
  set (st0 := snd (emit (EvBatch batch_id) st)) in *.
  assert (Hb0 : dict_get Z.eqb batch_id (batches st0) = Some b) by exact Hb.
  pose proof (process_batch_eq service lsr_uuid impact_defs lsr_reports wait_time
                batch_id b st0 Hb0) as Hproc.
  rewrite H1, Ht in Hproc.
  pose proof (attempt_keeps service impact_defs lsr_reports wait_time b st0) as Hf.
  rewrite H1 in Hf. cbn [snd] in Hf. destruct Hf as (Hbat & Hdir & evs & Hcon & Hev).
  cbn in Hbat, Hdir, Hcon.
  split; [|split; [exact Hbat|split; [|split; [exact Hdir|]]]].
  - rewrite batch_loop_step, Hb, Hp. cbv zeta. fold st0. now rewrite Hproc.
  - rewrite Hbat. now rewrite (flag_lookup _ _ _ Hb).
  - rewrite Hcon.
    assert (Happ : forall l1 l2, written (l1 ++ l2)%list = (written l1 ++ written l2)%list).
    { induction l1 as [|e l1 IH]; intros l2; [reflexivity|].
      destruct e; cbn; now rewrite ?IH. }
    rewrite <- app_assoc, Happ. cbn [app written].
    rewrite <- (app_nil_r evs), written_service by assumption. cbn. now rewrite app_nil_r.
Qed.

Lemma other_failure_not_retried_witness :
  let st0 := snd (emit (EvBatch 0) (mkState sample_plan [] 0 [])) in
  let b := mkBatch (0, 9) false in
  let s1 := snd (attempt prose_service "" WAIT_TIME (sample_reports 25) b st0) in
  attempt prose_service "" WAIT_TIME (sample_reports 25) b st0
  = (Raise JSONDecodeError, s1) /\
  batch_loop prose_service "UUID" "" (sample_reports 25) MAX_BATCHES WAIT_TIME
    [0; 1; 2] None (mkState sample_plan [] 0 []) = (Raise JSONDecodeError, s1) /\
  results_dir s1 = [] /\
  console s1 = [EvBatch 0; EvRequest "report 0"].
Proof.
  cbv zeta.
  set (b := mkBatch (0, 9) false).
  set (st0 := snd (emit (EvBatch 0) (mkState sample_plan [] 0 []))).
  set (s1 := snd (attempt prose_service "" WAIT_TIME (sample_reports 25) b st0)).
  assert (H1 : attempt prose_service "" WAIT_TIME (sample_reports 25) b st0
               = (Raise JSONDecodeError, s1)) by (vm_compute; reflexivity).
  destruct (other_failure_not_retried prose_service "UUID" "" (sample_reports 25)
              MAX_BATCHES WAIT_TIME 0 [1; 2] None (mkState sample_plan [] 0 []) b
              JSONDecodeError s1 eq_refl eq_refl H1 eq_refl) as (Hrun & _ & _ & Hdir & _).
  split; [exact H1|]. split; [exact Hrun|]. split; [exact Hdir|].
  vm_compute. reflexivity.
Defined.

(** ** A run without reports *)

(** With no report the plan is empty and [main] never returns: over a
    directory without result files of the run the count after the loop reads
    the variable the loop never bound; over one with such a file the scan
    fails on the first one.  Nothing is requested and nothing is written. *)
Theorem main_without_reports_raises (service : nat -> string -> string -> result string)
    (lsr_uuid impact_defs : string) (dir : list (string * artifact)) :
  exists e st',
    main service lsr_uuid impact_defs [] (initial dir) = (Raise e, st') /\
    (e = UnboundLocalError \/ e = KeyError \/ e = ValueError) /\
    results_dir st' = dir /\ requests st' = 0%nat /\
    (result_files_of lsr_uuid RESULTS_OUTPUT (initial dir) = [] -> e = UnboundLocalError).
Proof.
  unfold main. change (define_batches (len []) BATCH_SIZE) with (Ok ([] : plan)).
  unfold bind at 1, lift at 1. unfold bind at 1, set_batches at 1.
  unfold bind at 1, match_batch_results, bind at 1, get_files_in_dir at 1.
  set (st0 := mkState [] (results_dir (initial dir)) (requests (initial dir))
                (console (initial dir))).
  change (filter _ (map _ (filter _ (keys (results_dir st0)))))
    with (result_files_of lsr_uuid RESULTS_OUTPUT (initial dir)).
  destruct (result_files_of lsr_uuid RESULTS_OUTPUT (initial dir)) as [|f files].
  - do 2 eexists. split; [reflexivity|]. split; [now left|]. now repeat split.
  - unfold bind at 1. cbn [mark_found]. unfold bind at 1, lift at 1.
    destruct (py_int (batch_id_of f)) as [n|e] eqn:Hn.
    + do 2 eexists. split; [reflexivity|]. split; [right; now left|].
      split; [reflexivity|]. split; [reflexivity|]. discriminate.
    + assert (e = ValueError).
      { unfold py_int in Hn. destruct (match str_strip (batch_id_of f) with
                                       | EmptyString => _ | String _ _ => _ end);
          congruence. }
      subst e. do 2 eexists. split; [reflexivity|]. split; [right; now right|].
      split; [reflexivity|]. split; [reflexivity|]. discriminate.
Qed.
(** ** The parts of a response *)

(** A response that ends with a brace-free object [{body}] and a brace-free
    tail: the extra text is the last paragraph of the tail and the classes
    are the text between the braces, whatever comes before the object;
    when the two are the same text, the zeros are substituted. *)
Theorem response_parts (pre body post : string) :
  has_char "{" body = false -> has_char "}" body = false ->
  has_char "{" post = false -> has_char "}" post = false ->
  response_extra (pre ++ "{" ++ body ++ "}" ++ post)
  = py_last (str_split (nl ++ nl) post) /\
  response_classes (pre ++ "{" ++ body ++ "}" ++ post)
  = (if String.eqb body (py_last (str_split (nl ++ nl) post))
     then zero_classes else body) /\
  response_json (pre ++ "{" ++ body ++ "}" ++ post)
  = "{" ++ (if String.eqb body (py_last (str_split (nl ++ nl) post))
            then zero_classes else body) ++ "}".
Proof.
  intros Hob Hcb Hop Hcp.
  assert (Hextra : response_extra (pre ++ "{" ++ body ++ "}" ++ post)
                   = py_last (str_split (nl ++ nl) post)).
  { unfold response_extra. f_equal. f_equal. unfold str_split.
    replace (pre ++ "{" ++ body ++ "}" ++ post)
      with ((pre ++ "{" ++ body) ++ String "}" post)
      by (now rewrite !append_assoc).
    now apply (split_last_char "}"). }
  assert (Hclasses : response_classes (pre ++ "{" ++ body ++ "}" ++ post)
                     = (if String.eqb body (py_last (str_split (nl ++ nl) post))
                        then zero_classes else body)).
  { unfold response_classes. rewrite Hextra. unfold str_split.
    replace (py_last (split_go "{" 0 "" (pre ++ "{" ++ body ++ "}" ++ post)))
      with (body ++ "}" ++ post).
    - pose proof (split_first_char "}" body post "" Hcb) as H. cbn [append] in H |- *.
      unfold char in H. now rewrite H.
    - symmetry. apply (split_last_char "{" pre (body ++ "}" ++ post) "").
      rewrite !has_char_app, Hob, Hop. reflexivity. }
  split; [exact Hextra|]. split; [exact Hclasses|].
  unfold response_json. now rewrite Hclasses.
Qed.

Lemma response_parts_witness :
  response_extra sample_response = "Mostly road closures." /\
  response_json sample_response
  = "{" ++ quoted "MINOR" ++ ": 10, " ++ quoted "MODERATE" ++ ": 20, "
        ++ quoted "SERIOUS" ++ ": 30, " ++ quoted "SEVERE" ++ ": 40, "
        ++ quoted "CATASTROPHIC" ++ ": 0" ++ "}".
Proof.
  destruct (response_parts ("Classification:" ++ nl)
              (quoted "MINOR" ++ ": 10, " ++ quoted "MODERATE" ++ ": 20, "
               ++ quoted "SERIOUS" ++ ": 30, " ++ quoted "SEVERE" ++ ": 40, "
               ++ quoted "CATASTROPHIC" ++ ": 0")
              (nl ++ nl ++ "Mostly road closures.")
              eq_refl eq_refl eq_refl eq_refl) as (Hextra & _ & Hjson).
  split; [exact Hextra|exact Hjson].
Defined.
(** ** What a classification returns *)

Lemma classify_response_fields (remark response : string) (it : item) :
  classify_response remark response = Ok it ->
  item_remark it = remark /\
  item_extra it = response_extra response /\
  ffsi_score (item_probs it) false = Ok (item_score it).
Proof.
  unfold classify_response.
  destruct (json_loads _) as [probs|]; [|discriminate]. cbn [rbind].
  destruct (ffsi_score probs false) as [score|] eqn:Hs; [|discriminate]. cbn [rbind].
  intros H. injection H as <-. now repeat split.
Qed.

Section Records.
Variable service : nat -> string -> string -> result string.
Variables (impact_defs : string) (wait_time : Z).

(** The loop without a limit appends one record per remark, under the
    indices from [index] on. *)
Lemma classify_loop_records (total : Z) (remarks : list string) :
  forall index acc st r st',
    ~ (exists k, In k (keys acc) /\ index <= k) ->
    classify_loop service impact_defs wait_time 0 total index remarks acc st = (Ok r, st') ->
    exists its,
      r = (acc ++ combine (map (fun i => index + Z.of_nat i) (seq 0 (List.length remarks)))
                    its)%list /\
      Forall2 classified remarks its.
Proof.
  induction remarks as [|remark rest IH]; intros index acc st r st' Hacc Hrun.
  - cbn in Hrun. injection Hrun as <- _. exists []. cbn. now rewrite app_nil_r.
  - cbn [classify_loop] in Hrun. unfold bind at 1 in Hrun.
    destruct (query_gpt service remark impact_defs st) as [[response|e] s1]; [|discriminate].
    unfold bind at 1, lift at 1 in Hrun.
    destruct (classify_response remark response) as [it|e] eqn:Hit; [|discriminate].
    cbn [Z.eqb negb andb] in Hrun. unfold bind at 1 in Hrun.
    destruct (when _ _ s1) as [[[]|e] s2] eqn:Hw.
    2:{ unfold when, wait_timeout, emit, ret in Hw. destruct (index <? total - 1); discriminate. }
    rewrite dict_set_fresh in Hrun.
    2:{ intros Hin. apply Hacc. exists index. split; [exact Hin|lia]. }
    apply IH in Hrun.
    + destruct Hrun as (its & -> & Hall). exists (it :: its). split.
      * rewrite <- app_assoc. cbn [app List.length seq map combine]. f_equal.
        rewrite Z.add_0_r. f_equal. f_equal. rewrite <- seq_shift, map_map.
        apply map_ext. intros i. lia.
      * constructor; [now exists response|exact Hall].
    + intros (k & Hin & Hk). unfold keys in Hin. rewrite map_app in Hin.
      apply in_app_iff in Hin as [Hin|[<-|[]]]; [|cbn in Hk; lia].
      apply Hacc. exists k. split; [exact Hin|lia].
Qed.

Lemma classify_records (remarks : list string) (verbose : bool) (st : state)
    (r : list (Z * item)) (st' : state) :
  classify_lsr_remarks service remarks impact_defs wait_time 0 0 verbose st = (Ok r, st') ->
  exists its, r = enumerate its /\ Forall2 classified remarks its.
Proof.
  unfold classify_lsr_remarks. cbn [Z.eqb negb andb when].
  rewrite andb_false_r. cbn [when]. unfold bind at 1, ret at 1. unfold bind at 1, ret at 1.
  intros Hrun. apply classify_loop_records in Hrun.
  - destruct Hrun as (its & -> & Hall). exists its. split; [|exact Hall].
    cbn [app]. rewrite enumerate_eq. rewrite (Forall2_length Hall). reflexivity.
  - intros (k & [] & _).
Qed.

End Records.

Lemma Forall2_classified_remarks (remarks : list string) (its : list item) :
  Forall2 classified remarks its -> map item_remark its = remarks.
Proof.
  induction 1 as [|remark it remarks its [response Hit] _ IH]; [reflexivity|].
  cbn [map]. rewrite IH. f_equal. now apply (classify_response_fields _ _ _ Hit).
Qed.

Lemma Forall2_classified_readable (remarks : list string) (its : list item) :
  Forall2 classified remarks its ->
  forall it, In it its -> exists v, fields it = Ok v.
Proof.
  induction 1 as [|remark it0 remarks its [response Hit] _ IH]; intros it Hin;
    [destruct Hin|].
  destruct Hin as [<-|Hin]; [|now apply IH].
  now apply (classified_record_readable remark response).
Qed.

(** A classification of a list of remarks (no starting index, no limit) that
    returns, returns one record per remark under the keys 0, 1, 2, ... in the
    order of the list; each record holds its remark, the score of its own
    probabilities, and five probabilities the consolidation can read. *)
Theorem classify_returns_record_per_remark
    (service : nat -> string -> string -> result string)
    (remarks : list string) (impact_defs : string) (wait_time : Z) (verbose : bool)
    (st : state) (r : list (Z * item)) (st' : state) :
  classify_lsr_remarks service remarks impact_defs wait_time 0 0 verbose st = (Ok r, st') ->
  keys r = py_range (len remarks) /\
  map (fun e => item_remark (snd e)) r = remarks /\
  forall k it, In (k, it) r ->
    ffsi_score (item_probs it) false = Ok (item_score it) /\
    exists v, fields it = Ok v.
Proof.
  intros Hrun. apply classify_records in Hrun as (its & -> & Hall).
  split; [|split].
  - unfold keys. rewrite map_fst_enumerate. unfold len.
    now rewrite (Forall2_length Hall).
  - rewrite <- (map_map snd item_remark), map_snd_enumerate.
    now apply Forall2_classified_remarks.
  - intros k it Hin. apply (in_map snd) in Hin. rewrite map_snd_enumerate in Hin.
    cbn [snd] in Hin. split; [|now apply (Forall2_classified_readable remarks its)].
    clear k. induction Hall as [|remark it0 remarks its [response Hit] _ IH];
      [destruct Hin|].
    destruct Hin as [<-|Hin]; [|now apply IH].
    now apply (classify_response_fields _ _ _ Hit).
Qed.

Lemma classify_returns_record_per_remark_witness :
  classify_lsr_remarks steady_service ["a"; " "; "b"] "" 20 0 0 true (initial [])
  = (Ok [(0, sample_item "a");
         (1, mkItem " " zero_probs 0%Q "NO REMARK FOR THIS LSR!");
         (2, sample_item "b")],
     mkState [] [] 2 [EvRequest "a"; EvWait 20; EvWait 20; EvRequest "b"]) /\
  keys [(0, sample_item "a");
        (1, mkItem " " zero_probs 0%Q "NO REMARK FOR THIS LSR!");
        (2, sample_item "b")] = py_range (len ["a"; " "; "b"]).
Proof.
  assert (H : classify_lsr_remarks steady_service ["a"; " "; "b"] "" 20 0 0 true
                (initial [])
              = (Ok [(0, sample_item "a");
                     (1, mkItem " " zero_probs 0%Q "NO REMARK FOR THIS LSR!");
                     (2, sample_item "b")],
                 mkState [] [] 2 [EvRequest "a"; EvWait 20; EvWait 20; EvRequest "b"]))
    by (vm_compute; reflexivity).
  split; [exact H|].
  exact (proj1 (classify_returns_record_per_remark _ _ _ _ _ _ _ _ H)).
Defined.

(** ** The starting index and the limit *)

Lemma py_slice_from_0 {A : Type} (l : list A) : py_slice_from l 0 = l.
Proof.
  unfold py_slice_from, slice_bound. cbn [Z.ltb Z.compare].
  replace (Z.to_nat (Z.min (Z.of_nat (List.length l)) 0)) with 0%nat by lia.
  reflexivity.
Qed.

Section Limited.
Variable service : nat -> string -> string -> result string.
Variables (impact_defs : string) (wait_time limit : Z).

Lemma classify_loop_limit (l : list string) :
  forall index acc st,
    0 <= index < limit ->
    classify_loop service impact_defs wait_time limit (index + len l) index l acc st
    = classify_loop service impact_defs wait_time 0
        (index + len (firstn (Z.to_nat (limit - index)) l)) index
        (firstn (Z.to_nat (limit - index)) l) acc st.
Proof.
  induction l as [|remark rest IH]; intros index acc st Hidx.
  - now rewrite firstn_nil.
  - replace (Z.to_nat (limit - index)) with (S (Z.to_nat (limit - (index + 1)))) by lia.
    cbn [firstn classify_loop]. unfold bind, lift.
    destruct (query_gpt service remark impact_defs st) as [[response|e] s1]; [|reflexivity].
    destruct (classify_response remark response) as [it|e]; [|reflexivity].
    cbn [Z.eqb negb andb].
    destruct (Z.eqb_spec limit 0) as [|_]; [lia|]. cbn [negb andb].
    destruct (Z.eqb_spec index (limit - 1)) as [Hlast|Hmore].
    + replace (Z.to_nat (limit - (index + 1))) with 0%nat by lia.
      cbn [firstn]. unfold len. cbn [List.length].
      destruct (Z.ltb_spec index (index + Z.of_nat 1 - 1)); [lia|].
      reflexivity.
    + assert (Hwait : (index <? index + len (remark :: rest) - 1)
                      = (index <? index
                                  + len (remark :: firstn (Z.to_nat (limit - (index + 1))) rest)
                                  - 1)).
      { unfold len. cbn [List.length]. destruct rest as [|x rest'].
        - now rewrite firstn_nil.
        - replace (Z.to_nat (limit - (index + 1)))
            with (S (Z.to_nat (limit - (index + 2)))) by lia.
          cbn [firstn List.length].
          destruct (Z.ltb_spec index (index + Z.of_nat (S (S (List.length rest'))) - 1));
            destruct (Z.ltb_spec index
                        (index + Z.of_nat (S (S (List.length
                           (firstn (Z.to_nat (limit - (index + 2))) rest')))) - 1));
            try reflexivity; lia. }
      rewrite <- Hwait.
      destruct (when _ _ s1) as [[[]|e] s2]; [|reflexivity].
      replace (index + len (remark :: rest)) with (index + 1 + len rest)
        by (unfold len; cbn [List.length]; lia).
      replace (index + len (remark :: firstn (Z.to_nat (limit - (index + 1))) rest))
        with (index + 1 + len (firstn (Z.to_nat (limit - (index + 1))) rest))
        by (unfold len; cbn [List.length]; lia).
      apply IH. lia.
Qed.

End Limited.

(** With a limit [limit > 0] and a starting index, a (quiet) classification
    is the classification of the first [limit] remarks from the starting
    index on: same requests, same pauses, same outcome, and so the keys of
    its result count from 0 at the starting index. *)
Theorem classify_limit_is_slice (service : nat -> string -> string -> result string)
    (remarks : list string) (impact_defs : string) (wait_time starting_idx limit : Z)
    (st : state) :
  0 < limit ->
  classify_lsr_remarks service remarks impact_defs wait_time starting_idx limit false st
  = classify_lsr_remarks service
      (firstn (Z.to_nat limit) (py_slice_from remarks starting_idx))
      impact_defs wait_time 0 0 false st.
Proof.
  intros Hlimit. unfold classify_lsr_remarks.
  rewrite !andb_false_r. cbn [andb when Z.eqb]. unfold bind, ret.
  assert (Hl : (if starting_idx =? 0 then remarks else py_slice_from remarks starting_idx)
               = py_slice_from remarks starting_idx).
  { destruct (Z.eqb_spec starting_idx 0) as [->|]; [|reflexivity].
    now rewrite py_slice_from_0. }
  assert (Ht : (if starting_idx =? 0 then len remarks
                else len (py_slice_from remarks starting_idx))
               = len (py_slice_from remarks starting_idx)).
  { destruct (Z.eqb_spec starting_idx 0) as [->|]; [|reflexivity].
    now rewrite py_slice_from_0. }
  rewrite Hl, Ht.
  pose proof (classify_loop_limit service impact_defs wait_time limit
                (py_slice_from remarks starting_idx) 0 [] st ltac:(lia)) as H.
  rewrite Z.sub_0_r in H. cbn [Z.add] in H. exact H.
Qed.

Lemma classify_limit_is_slice_witness :
  0 < 2 /\
  classify_lsr_remarks steady_service ["a"; "b"; "c"; "d"] "" 20 1 2 false (initial [])
  = classify_lsr_remarks steady_service ["b"; "c"] "" 20 0 0 false (initial []) /\
  classify_lsr_remarks steady_service ["a"; "b"; "c"; "d"] "" 20 1 2 false (initial [])
  = (Ok [(0, sample_item "b"); (1, sample_item "c")],
     mkState [] [] 2 [EvRequest "b"; EvWait 20; EvRequest "c"]).
Proof.
  split; [lia|]. split.
  - exact (classify_limit_is_slice steady_service ["a"; "b"; "c"; "d"] "" 20 1 2
             (initial []) ltac:(lia)).
  - vm_compute. reflexivity.
Defined.
(** ** The reports of the batches *)

Lemma slice_bound_in_range {A : Type} (l : list A) (i : Z) :
  0 <= i <= len l -> slice_bound l i = Z.to_nat i.
Proof.
  intros Hi. unfold slice_bound, len in *.
  destruct (Z.ltb_spec i 0); [lia|]. now rewrite Z.min_r by lia.
Qed.

Lemma firstn_then_slice {A : Type} (l : list A) (a b : Z) :
  0 <= a <= b -> b <= len l ->
  (firstn (Z.to_nat a) l ++ py_slice l a b)%list = firstn (Z.to_nat b) l.
Proof.
  intros Hab Hb. unfold py_slice.
  rewrite !slice_bound_in_range by lia.
  rewrite <- (firstn_skipn (Z.to_nat a) l) at 3.
  rewrite firstn_app, firstn_firstn, length_firstn.
  unfold len in Hb. rewrite Nat.min_r by lia. now rewrite Nat.min_l by lia.
Qed.

(** The slices of the first [k] full batches, one after the other, are the
    first [bs * k] reports. *)
Lemma full_batches_slices (l : list string) (bs : Z) (k : nat) :
  0 < bs -> bs * Z.of_nat k <= len l ->
  concat (map (fun e => batch_remarks l (snd e))
            (map (full_batch bs) (map Z.of_nat (seq 0 k))))
  = firstn (Z.to_nat (bs * Z.of_nat k)) l.
Proof.
  intros Hbs. induction k as [|k IH]; intros Hk.
  - rewrite Z.mul_0_r. reflexivity.
  - rewrite seq_S, !map_app, concat_app, IH by lia.
    cbn [map concat Nat.add]. rewrite app_nil_r.
    unfold batch_remarks. cbn [full_batch snd indices fst].
    replace (bs * (Z.of_nat k + 1) - 1 + 1) with (bs * Z.of_nat (S k)) by lia.
    apply firstn_then_slice; lia.
Qed.

(** The batches of a plan share out the reports: the slices that the driver
    takes for the batches of the plan, one after the other in the order of
    the plan, are the list of reports. *)
Theorem batch_slices_are_the_reports (lsr_reports : list string) (batch_size : Z)
    (p : plan) :
  0 <= batch_size ->
  define_batches (len lsr_reports) batch_size = Ok p ->
  concat (map (fun e => batch_remarks lsr_reports (snd e)) p) = lsr_reports.
Proof.
  intros Hbs Hp. pose proof (len_nonneg lsr_reports) as Hn.
  destruct (Z.eq_dec batch_size 0) as [->|Hne].
  - cbn in Hp. injection Hp as <-. cbn [map concat snd]. rewrite app_nil_r.
    unfold batch_remarks. cbn [indices fst snd].
    replace (len lsr_reports - 1 + 1) with (len lsr_reports) by lia.
    unfold py_slice. rewrite !slice_bound_in_range by lia. unfold len.
    rewrite Nat2Z.id. cbn [Z.to_nat skipn]. rewrite Nat.sub_0_r. apply firstn_all.
  - assert (Hpos : 0 < batch_size) by lia.
    rewrite define_batches_planned in Hp by assumption. injection Hp as <-.
    pose proof (Z.div_mod (len lsr_reports) batch_size Hne) as Hdm.
    pose proof (Z.mod_pos_bound (len lsr_reports) batch_size Hpos) as Hmod.
    assert (Hq : 0 <= len lsr_reports / batch_size) by (apply Z.div_pos; lia).
    unfold planned. rewrite map_app, concat_app. unfold py_range.
    rewrite full_batches_slices by lia. rewrite Z2Nat.id by lia.
    destruct (Z.eqb_spec (len lsr_reports mod batch_size) 0) as [Hr|Hr].
    + cbn [map concat]. rewrite app_nil_r.
      replace (batch_size * (len lsr_reports / batch_size)) with (len lsr_reports) by lia.
      unfold len. rewrite Nat2Z.id. apply firstn_all.
    + cbn [map concat snd partial_batch]. rewrite app_nil_r.
      unfold batch_remarks. cbn [indices fst snd].
      replace (len lsr_reports - 1 + 1) with (len lsr_reports) by lia.
      rewrite firstn_then_slice by lia.
      unfold len. rewrite Nat2Z.id. apply firstn_all.
Qed.

Lemma batch_slices_are_the_reports_witness :
  0 <= 10 /\
  define_batches (len (sample_reports 25)) 10 = Ok sample_plan /\
  concat (map (fun e => batch_remarks (sample_reports 25) (snd e)) sample_plan)
  = sample_reports 25.
Proof.
  split; [lia|]. split; [reflexivity|].
  exact (batch_slices_are_the_reports (sample_reports 25) 10 sample_plan ltac:(lia) eq_refl).
Defined.
(** ** The results directory through the batch loop *)


Lemma dict_get_set_other_str {V : Type} (k k0 : string) (v : V) (d : list (string * V)) :
  k <> k0 -> dict_get String.eqb k (dict_set String.eqb k0 v d) = dict_get String.eqb k d.
Proof.
  intros Hne. induction d as [|[k' v'] d IH]; cbn.
  - destruct (String.eqb_spec k k0); [contradiction|reflexivity].
  - destruct (String.eqb_spec k0 k') as [->|Hne']; cbn.
    + destruct (String.eqb_spec k k'); [contradiction|reflexivity].
    + destruct (String.eqb_spec k k'); [reflexivity|exact IH].
Qed.

Lemma keys_dict_set_str {V : Type} (k k0 : string) (v : V) (d : list (string * V)) :
  In k (keys (dict_set String.eqb k0 v d)) <-> k = k0 \/ In k (keys d).
Proof.
  induction d as [|[k' v'] d IH]; cbn.
  - intuition.
  - destruct (String.eqb_spec k0 k') as [->|Hne]; cbn; [intuition|].
    rewrite IH. intuition.
Qed.

Lemma dict_set_fresh_str {V : Type} (k : string) (v : V) (d : list (string * V)) :
  ~ In k (keys d) -> dict_set String.eqb k v d = (d ++ [(k, v)])%list.
Proof.
  induction d as [|[k' v'] d IH]; cbn; intros Hk; [reflexivity|].
  destruct (String.eqb_spec k k') as [->|_]; [tauto|].
  rewrite IH by tauto. reflexivity.
Qed.

Lemma stored_cons (lsr_uuid : string) (e : Z * list item) (recs : list (Z * list item))
    (dir : list (string * artifact)) :
  stored lsr_uuid (e :: recs) dir
  = stored lsr_uuid recs
      (dict_set String.eqb (basename (batch_path lsr_uuid (fst e)))
         (json_dump (enumerate (snd e))) dir).
Proof. reflexivity. Qed.

Section Stored.
Variable lsr_uuid : string.
Hypothesis uuid_plain : has_char "/" lsr_uuid = false.

Lemma stored_get_other (name : string) (recs : list (Z * list item)) :
  forall dir,
    (forall e, In e recs -> name <> batch_filename lsr_uuid (fst e)) ->
    dict_get String.eqb name (stored lsr_uuid recs dir) = dict_get String.eqb name dir.
Proof.
  induction recs as [|e recs IH]; intros dir Hname; [reflexivity|].
  rewrite stored_cons, basename_batch_path by assumption.
  rewrite IH by (intros e' He'; apply Hname; now right).
  apply dict_get_set_other_str, Hname. now left.
Qed.

Lemma stored_keys (name : string) (recs : list (Z * list item)) :
  forall dir,
    In name (keys (stored lsr_uuid recs dir)) <->
    In name (keys dir) \/ exists e, In e recs /\ name = batch_filename lsr_uuid (fst e).
Proof.
  induction recs as [|e recs IH]; intros dir.
  - cbn. split; [now left|]. intros [H|(e & [] & _)]. exact H.
  - rewrite stored_cons, basename_batch_path by assumption.
    rewrite IH, keys_dict_set_str. split.
    + intros [[->|H]|(e' & He' & ->)].
      * right. exists e. split; [now left|reflexivity].
      * now left.
      * right. exists e'. split; [now right|reflexivity].
    + intros [H|(e' & [<-|He'] & ->)].
      * left. now right.
      * left. now left.
      * right. now exists e'.
Qed.

Lemma stored_fresh (recs : list (Z * list item)) :
  forall dir,
    NoDup (map fst recs) ->
    (forall e, In e recs -> ~ In (batch_filename lsr_uuid (fst e)) (keys dir)) ->
    stored lsr_uuid recs dir = (dir ++ map (entry_of lsr_uuid) recs)%list.
Proof.
  induction recs as [|e recs IH]; intros dir Hnd Hfresh.
  - cbn. now rewrite app_nil_r.
  - cbn [map] in Hnd. apply NoDup_cons_iff in Hnd as [He Hnd].
    rewrite stored_cons, basename_batch_path by assumption.
    rewrite dict_set_fresh_str by (apply Hfresh; now left).
    rewrite IH; [now rewrite <- app_assoc|exact Hnd|].
    intros e' He' Hin. unfold keys in Hin. rewrite map_app in Hin.
    apply in_app_iff in Hin as [Hin|[Heq|[]]].
    + apply (Hfresh e'); [now right|exact Hin].
    + cbn in Heq. apply batch_filename_inj in Heq. apply He. rewrite Heq.
      now apply in_map.
Qed.

End Stored.

Lemma in_firstn {A : Type} (x : A) (k : nat) (l : list A) : In x (firstn k l) -> In x l.
Proof.
  revert l. induction k as [|k IH]; intros [|y l] H; cbn in H; try contradiction.
  destruct H as [->|H]; [now left|right; now apply IH].
Qed.

Section LoopStore.
Variable service : nat -> string -> string -> result string.
Variables (lsr_uuid impact_defs : string) (lsr_reports : list string).
Variable wait_time : Z.

Local Abbreviation loop ids last :=
  (batch_loop service lsr_uuid impact_defs lsr_reports 0 wait_time ids last).

(** One iteration on a batch that is not processed: an exception, with the
    plan and the directory as they were; or the records of the batch, one
    per report of its slice, written and the batch marked. *)
Lemma iteration_records (batch_id : Z) (rest : list Z)
    (last : option (option (list (Z * item)))) (st : state) (b : batch) :
  dict_get Z.eqb batch_id (batches st) = Some b ->
  processed b = false ->
  (exists e s1,
      loop (batch_id :: rest) last st = (Raise e, s1) /\
      batches s1 = batches st /\ results_dir s1 = results_dir st) \/
  (exists its s1,
      loop (batch_id :: rest) last st
      = loop rest (Some (Some (enumerate its)))
          (finish lsr_uuid batch_id b (enumerate its) s1) /\
      batches s1 = batches st /\ results_dir s1 = results_dir st /\
      Forall2 classified (batch_remarks lsr_reports b) its).
Proof.
  intros Hb Hp. rewrite batch_loop_step, Hb, Hp. cbv zeta. cbn [Z.eqb negb andb].
  set (st0 := snd (emit (EvBatch batch_id) st)).
  assert (Hb0 : dict_get Z.eqb batch_id (batches st0) = Some b) by exact Hb.
  rewrite (process_batch_eq service lsr_uuid impact_defs lsr_reports wait_time _ _ _ Hb0).
  pose proof (attempt_keeps service impact_defs lsr_reports wait_time b st0) as Hf1.
  destruct (attempt service impact_defs wait_time lsr_reports b st0) as [[r|e] s1] eqn:H1;
    cbn [snd] in Hf1; destruct Hf1 as (Hbat1 & Hdir1 & _);
    cbn [st0 emit snd batches results_dir] in Hbat1, Hdir1.
  - right. unfold attempt in H1. apply classify_records in H1 as (its & -> & Hall).
    exists its, s1. now repeat split.
  - destruct (transient e).
    + set (s1' := snd (wait_timeout 10 s1)).
      pose proof (attempt_keeps service impact_defs lsr_reports wait_time b s1') as Hf2.
      destruct (attempt service impact_defs wait_time lsr_reports b s1') as [[r|e2] s2] eqn:H2;
        cbn [snd] in Hf2; destruct Hf2 as (Hbat2 & Hdir2 & _);
        cbn [s1' wait_timeout emit snd batches results_dir] in Hbat2, Hdir2.
      * right. unfold attempt in H2. apply classify_records in H2 as (its & -> & Hall).
        exists its, s2. repeat split; [congruence|congruence|exact Hall].
      * left. exists e2, s2. repeat split; congruence.
    + left. exists e, s1. now repeat split.
Qed.

(** The loop, whatever its outcome: the directory it leaves is the one it
    found with the records of the batches it completed written over it;
    these are the first batches that were not processed, each with one
    record per report of its slice; they are the batches newly marked; and a
    loop that returns has completed all of them and hands on the records of
    its last batch, or nothing when that batch was skipped. *)
Lemma loop_store (ids : list Z) :
  forall last st,
    NoDup ids ->
    exists recs : list (Z * list item),
      results_dir (snd (loop ids last st)) = stored lsr_uuid recs (results_dir st) /\
      (exists k,
          map fst recs = firstn k (filter (fun id => negb (flag (batches st) id)) ids)) /\
      (forall e, In e recs ->
         exists b, dict_get Z.eqb (fst e) (batches st) = Some b /\
                   Forall2 classified (batch_remarks lsr_reports b) (snd e)) /\
      (forall id, flag (batches (snd (loop ids last st))) id
                  = (flag (batches st) id || among (map fst recs) id)%bool) /\
      (forall last', fst (loop ids last st) = Ok last' ->
         map fst recs = filter (fun id => negb (flag (batches st) id)) ids /\
         (ids = [] -> last' = last) /\
         forall front id, ids = (front ++ [id])%list ->
           if flag (batches st) id then last' = Some None
           else exists its, In (id, its) recs /\ last' = Some (Some (enumerate its))).
Proof.
  induction ids as [|batch_id rest IH]; intros last st Hnd.
  - exists []. cbn. split; [reflexivity|]. split; [now exists 0%nat|].
    split; [intros e []|]. split; [intros id; now rewrite orb_false_r|].
    intros last' H. injection H as <-. split; [reflexivity|]. split; [reflexivity|].
    intros front id H. now destruct front.
  - apply NoDup_cons_iff in Hnd as [Hfresh Hnd].
    destruct (dict_get Z.eqb batch_id (batches st)) as [b|] eqn:Hb.
    2:{ rewrite batch_loop_step, Hb. exists []. cbn [snd fst emit stored fold_left map].
        split; [reflexivity|]. split; [now exists 0%nat|].
        split; [intros e []|]. split; [intros id; now rewrite orb_false_r|].
        intros last' H. discriminate. }
    destruct (processed b) eqn:Hp.
    + destruct (iteration service lsr_uuid impact_defs lsr_reports wait_time
                  batch_id rest last st b Hb) as [[_ Hrun]|(Hp' & _)]; [|congruence].
      rewrite Hrun.
      set (st1 := mkState (batches st) (results_dir st) (requests st)
                    (console st ++ [EvBatch batch_id; EvSkip batch_id])).
      destruct (IH (Some None) st1 Hnd) as (recs & Hdir & [k Hk] & Hshape & Hflag & Hok).
      cbn [st1 batches results_dir] in Hdir, Hk, Hshape, Hflag, Hok.
      exists recs. split; [exact Hdir|].
      cbn [filter]. rewrite (flag_lookup _ _ _ Hb), Hp. cbn [negb].
      split; [now exists k|]. split; [exact Hshape|]. split; [exact Hflag|].
      intros last' Hl. destruct (Hok last' Hl) as (Hall & Hnil & Hlast).
      split; [exact Hall|]. split; [discriminate|].
      intros front id Hids. destruct front as [|x front].
      * cbn in Hids. injection Hids as <- ->.
        rewrite (flag_lookup _ _ _ Hb), Hp. now apply Hnil.
      * cbn in Hids. injection Hids as _ ->. now apply Hlast with (front := front).
    + destruct (iteration_records batch_id rest last st b Hb Hp)
        as [(e & s1 & Hrun & Hbat & Hdir)|(its & s1 & Hrun & Hbat & Hdir & Hall)];
        rewrite Hrun.
      * exists []. cbn [snd fst stored fold_left map].
        split; [exact Hdir|]. split; [now exists 0%nat|].
        split; [intros e0 []|]. split; [intros id; now rewrite Hbat, orb_false_r|].
        intros last' H. discriminate.
      * set (fin := finish lsr_uuid batch_id b (enumerate its) s1).
        assert (Hfin : forall id, id <> batch_id ->
                  dict_get Z.eqb id (batches fin) = dict_get Z.eqb id (batches st)).
        { intros id Hne. cbn [fin finish batches]. rewrite Hbat.
          now apply dict_get_set_other. }
        assert (Hflag_rest : forall id, In id rest ->
                  flag (batches fin) id = flag (batches st) id).
        { intros id Hin. unfold flag. rewrite Hfin; [reflexivity|].
          intros ->. contradiction. }
        destruct (IH (Some (Some (enumerate its))) fin Hnd)
          as (recs & Hdir' & [k Hk] & Hshape & Hflag & Hok).
        rewrite (filter_ext_in _ (fun id => negb (flag (batches st) id)) rest) in Hk
          by (intros id Hin; now rewrite Hflag_rest).
        assert (Hin_rest : forall e, In e recs -> In (fst e) rest).
        { intros e He. apply (in_map fst) in He. rewrite Hk in He.
          apply in_firstn in He. now apply filter_In in He as [He _]. }
        exists ((batch_id, its) :: recs). split; [|split; [|split; [|split]]].
        -- rewrite Hdir'. cbn [fin finish results_dir]. now rewrite Hdir.
        -- exists (S k). cbn [filter map fst]. rewrite (flag_lookup _ _ _ Hb), Hp.
           cbn [negb firstn]. now rewrite Hk.
        -- intros e [<-|He]; [now exists b|].
           destruct (Hshape e He) as (b' & Hb' & Hall').
           exists b'. split; [|exact Hall']. rewrite <- Hfin; [exact Hb'|].
           intros Heq. apply Hfresh. rewrite <- Heq. now apply Hin_rest.
        -- intros id. rewrite Hflag. cbn [map fst among existsb].
           fold (among (map fst recs) id).
           destruct (Z.eqb_spec id batch_id) as [->|Hne].
           ++ unfold flag at 1. cbn [fin finish batches].
              rewrite dict_get_set_same. cbn. now rewrite orb_true_r.
           ++ unfold flag at 1 2. now rewrite Hfin.
        -- intros last' Hl. destruct (Hok last' Hl) as (Hall' & Hnil & Hlast).
           split; [|split; [discriminate|]].
           ++ cbn [filter map fst]. rewrite (flag_lookup _ _ _ Hb), Hp. cbn [negb].
              f_equal. rewrite Hall'. apply filter_ext_in.
              intros id Hin. now rewrite Hflag_rest.
           ++ intros front id Hids. destruct front as [|x front].
              ** cbn in Hids. injection Hids as <- ->.
                 rewrite (flag_lookup _ _ _ Hb), Hp.
                 exists its. split; [now left|now apply Hnil].
              ** cbn in Hids. injection Hids as _ ->.
                 specialize (Hlast front id eq_refl).
                 rewrite Hflag_rest in Hlast by (apply in_app_iff; right; now left).
                 destruct (flag (batches st) id); [exact Hlast|].
                 destruct Hlast as (its0 & Hin0 & ->). exists its0.
                 split; [now right|reflexivity].
Qed.

(** A loop over batches that are all processed skips them all: no request,
    no file, the plan as it was. *)
Lemma loop_all_processed (ids : list Z) :
  forall last st,
    (forall id, In id ids -> flag (batches st) id = true) ->
    exists st',
      loop ids last st = (Ok (match ids with [] => last | _ => Some None end), st') /\
      batches st' = batches st /\ results_dir st' = results_dir st /\
      requests st' = requests st /\
      console st'
      = (console st ++ flat_map (fun id => [EvBatch id; EvSkip id]) ids)%list.
Proof.
  induction ids as [|batch_id rest IH]; intros last st Hall.
  - exists st. cbn. now rewrite app_nil_r.
  - assert (Hflag : flag (batches st) batch_id = true) by (apply Hall; now left).
    unfold flag in Hflag.
    destruct (dict_get Z.eqb batch_id (batches st)) as [b|] eqn:Hb; [|discriminate].
    destruct (iteration service lsr_uuid impact_defs lsr_reports wait_time
                batch_id rest last st b Hb) as [[_ Hrun]|(Hp' & _)]; [|congruence].
    rewrite Hrun.
    destruct (IH (Some None)
                (mkState (batches st) (results_dir st) (requests st)
                   (console st ++ [EvBatch batch_id; EvSkip batch_id])))
      as (st' & Hloop & Hbat & Hdir & Hreq & Hcon).
    { intros id Hin. apply Hall. now right. }
    exists st'. rewrite Hloop. split; [now destruct rest|].
    split; [exact Hbat|]. split; [exact Hdir|]. split; [exact Hreq|].
    rewrite Hcon. cbn [console flat_map app]. now rewrite <- app_assoc.
Qed.

End LoopStore.
(** ** Checkpoints and the directory *)

(** Whatever ends the batch loop, a batch it has marked processed has its
    result file in the directory: the file is written before the mark. *)
Theorem marked_batch_has_file (service : nat -> string -> string -> result string)
    (lsr_uuid impact_defs : string) (lsr_reports : list string) (wait_time : Z)
    (st : state) (out : result (option (option (list (Z * item))))) (st' : state) :
  has_char "/" lsr_uuid = false ->
  NoDup (keys (batches st)) ->
  batch_loop service lsr_uuid impact_defs lsr_reports MAX_BATCHES wait_time
    (keys (batches st)) None st = (out, st') ->
  forall id,
    flag (batches st') id = true ->
    flag (batches st) id = true \/ In (batch_filename lsr_uuid id) (keys (results_dir st')).
Proof.
  intros Hu Hnd Hrun id Hid.
  destruct (loop_store service lsr_uuid impact_defs lsr_reports wait_time
              (keys (batches st)) None st Hnd) as (recs & Hdir & _ & _ & Hflag & _).
  unfold MAX_BATCHES in Hrun. rewrite Hrun in Hdir, Hflag. cbn [snd] in Hdir, Hflag.
  rewrite Hflag in Hid. apply orb_true_iff in Hid as [Hid|Hid]; [now left|].
  right. apply among_spec in Hid. rewrite Hdir. apply stored_keys; [exact Hu|]. right.
  apply in_map_iff in Hid as (e & <- & He). now exists e.
Qed.

Lemma marked_batch_has_file_witness :
  has_char "/" "UUID" = false /\
  NoDup (keys (batches resumed_state)) /\
  forall id,
    flag (batches (snd (batch_loop limited_service "UUID" "" (sample_reports 25)
                          MAX_BATCHES WAIT_TIME (keys (batches resumed_state)) None
                          resumed_state))) id = true ->
    flag (batches resumed_state) id = true \/
    In (batch_filename "UUID" id)
      (keys (results_dir (snd (batch_loop limited_service "UUID" "" (sample_reports 25)
                                 MAX_BATCHES WAIT_TIME (keys (batches resumed_state)) None
                                 resumed_state)))).
Proof.
  assert (Hnd : NoDup (keys (batches resumed_state))).
  { change (NoDup [0; 1; 2]). repeat constructor; simpl; intuition discriminate. }
  split; [reflexivity|]. split; [exact Hnd|].
  exact (marked_batch_has_file limited_service "UUID" "" (sample_reports 25) WAIT_TIME
           resumed_state _ _ eq_refl Hnd (surjective_pairing _)).
Defined.

(** Whatever ends the batch loop, it has written only result files of
    batches that were not processed: every other file of the directory, the
    results of the processed batches among them, has the content it had, and
    no file is removed. *)
Theorem loop_writes_only_pending_files
    (service : nat -> string -> string -> result string)
    (lsr_uuid impact_defs : string) (lsr_reports : list string) (wait_time : Z)
    (st : state) (out : result (option (option (list (Z * item))))) (st' : state) :
  has_char "/" lsr_uuid = false ->
  NoDup (keys (batches st)) ->
  batch_loop service lsr_uuid impact_defs lsr_reports MAX_BATCHES wait_time
    (keys (batches st)) None st = (out, st') ->
  (forall name,
      (forall id, In id (pending (batches st)) -> name <> batch_filename lsr_uuid id) ->
      dict_get String.eqb name (results_dir st') = dict_get String.eqb name (results_dir st)) /\
  (forall name, In name (keys (results_dir st)) -> In name (keys (results_dir st'))).
Proof.
  intros Hu Hnd Hrun.
  destruct (loop_store service lsr_uuid impact_defs lsr_reports wait_time
              (keys (batches st)) None st Hnd) as (recs & Hdir & [k Hk] & _).
  unfold MAX_BATCHES in Hrun. rewrite Hrun in Hdir. cbn [snd] in Hdir.
  split.
  - intros name Hname. rewrite Hdir. apply stored_get_other; [exact Hu|].
    intros e He. apply Hname. apply (in_map fst) in He. rewrite Hk in He.
    now apply in_firstn in He.
  - intros name Hin. rewrite Hdir. apply stored_keys; [exact Hu|]. now left.
Qed.

Lemma loop_writes_only_pending_files_witness :
  has_char "/" "UUID" = false /\
  NoDup (keys (batches resumed_state)) /\
  pending (batches resumed_state) = [2] /\
  (forall name,
      (forall id, In id (pending (batches resumed_state)) ->
                  name <> batch_filename "UUID" id) ->
      dict_get String.eqb name
        (results_dir (snd (batch_loop steady_service "UUID" "" (sample_reports 25)
                             MAX_BATCHES WAIT_TIME (keys (batches resumed_state)) None
                             resumed_state)))
      = dict_get String.eqb name (results_dir resumed_state)) /\
  keys (results_dir (snd (batch_loop steady_service "UUID" "" (sample_reports 25)
                            MAX_BATCHES WAIT_TIME (keys (batches resumed_state)) None
                            resumed_state)))
  = ["UUID_0.json"; "UUID_1.json"; "UUID_2.json"].
Proof.
  assert (Hnd : NoDup (keys (batches resumed_state))).
  { change (NoDup [0; 1; 2]). repeat constructor; simpl; intuition discriminate. }
  split; [reflexivity|]. split; [exact Hnd|]. split; [reflexivity|]. split.
  - exact (proj1 (loop_writes_only_pending_files steady_service "UUID" ""
                    (sample_reports 25) WAIT_TIME resumed_state _ _ eq_refl Hnd
                    (surjective_pairing _))).
  - vm_compute. reflexivity.
Defined.

(** ** The count of processed reports *)

Lemma dict_get_unique_Z {V : Type} (k : Z) (v : V) (d : list (Z * V)) :
  NoDup (keys d) -> In (k, v) d -> dict_get Z.eqb k d = Some v.
Proof.
  induction d as [|[k' v'] d IH]; intros Hnd Hin; [destruct Hin|].
  cbn [keys map fst] in Hnd. apply NoDup_cons_iff in Hnd as [Hfresh Hnd].
  cbn [dict_get]. destruct (Z.eqb_spec k k') as [->|Hne].
  - destruct Hin as [Heq|Hin]; [congruence|].
    exfalso. apply Hfresh. apply in_map_iff. now exists (k', v).
  - destruct Hin as [Heq|Hin]; [congruence|]. now apply IH.
Qed.

Lemma len_enumerate {A : Type} (l : list A) : len (enumerate l) = len l.
Proof.
  unfold len. rewrite <- (length_map fst). fold (keys (enumerate l)).
  unfold keys. rewrite map_fst_enumerate. unfold py_range.
  rewrite length_map, length_seq. unfold len. now rewrite Nat2Z.id.
Qed.

(** The number of reports that a run which gets through its loop reports as
    processed is not the total over the batches: it is the number of reports
    of the last batch of the plan when that batch was classified in this run,
    and 0 when it was skipped. *)
Theorem run_counts_last_batch (service : nat -> string -> string -> result string)
    (lsr_uuid impact_defs : string) (lsr_reports : list string) (wait_time : Z)
    (st : state) (total_processed : Z) (st' : state) :
  NoDup (keys (batches st)) ->
  run_batches service lsr_uuid impact_defs lsr_reports MAX_BATCHES wait_time st
  = (Ok total_processed, st') ->
  exists front id b,
    batches st = (front ++ [(id, b)])%list /\
    total_processed = if processed b then 0 else len (batch_remarks lsr_reports b).
Proof.
  intros Hnd Hrun. unfold run_batches, bind, get_batches, MAX_BATCHES in Hrun.
  destruct (loop_store service lsr_uuid impact_defs lsr_reports wait_time
              (keys (batches st)) None st Hnd) as (recs & _ & _ & Hshape & _ & Hok).
  destruct (batch_loop service lsr_uuid impact_defs lsr_reports 0 wait_time
              (keys (batches st)) None st) as [[last'|e] st2]; [|discriminate].
  destruct (Hok last' eq_refl) as (_ & Hnil & Hlast).
  destruct (batches st) as [|e0 p0] eqn:Hp.
  { rewrite (Hnil eq_refl) in Hrun. discriminate. }
  destruct (exists_last (l := e0 :: p0) ltac:(discriminate)) as (front & [id b] & Hsplit).
  rewrite Hsplit in *. exists front, id, b. split; [reflexivity|].
  assert (Hb : dict_get Z.eqb id (front ++ [(id, b)])%list = Some b).
  { apply dict_get_unique_Z; [exact Hnd|]. apply in_app_iff. right. now left. }
  specialize (Hlast (keys front) id). rewrite keys_app in Hlast.
  specialize (Hlast eq_refl). rewrite (flag_lookup _ _ _ Hb) in Hlast.
  destruct (processed b).
  - subst last'. unfold ret in Hrun. congruence.
  - destruct Hlast as (its & Hin & ->). unfold ret in Hrun. injection Hrun as <- _.
    destruct (Hshape _ Hin) as (b' & Hb' & Hall). cbn [fst snd] in Hb', Hall.
    assert (b' = b) by congruence. subst b'.
    rewrite len_enumerate. unfold len. now rewrite (Forall2_length Hall).
Qed.

Lemma run_counts_last_batch_witness :
  NoDup (keys (batches (mkState sample_plan [] 0 []))) /\
  fst (run_batches steady_service "UUID" "" (sample_reports 25) MAX_BATCHES WAIT_TIME
         (mkState sample_plan [] 0 [])) = Ok 5 /\
  exists front id b,
    batches (mkState sample_plan [] 0 []) = (front ++ [(id, b)])%list /\
    5 = if processed b then 0 else len (batch_remarks (sample_reports 25) b).
Proof.
  assert (Hnd : NoDup (keys (batches (mkState sample_plan [] 0 [])))).
  { change (NoDup [0; 1; 2]). repeat constructor; simpl; intuition discriminate. }
  assert (Hrun : run_batches steady_service "UUID" "" (sample_reports 25) MAX_BATCHES
                   WAIT_TIME (mkState sample_plan [] 0 [])
                 = (Ok 5, snd (run_batches steady_service "UUID" "" (sample_reports 25)
                                 MAX_BATCHES WAIT_TIME (mkState sample_plan [] 0 []))))
    by (vm_compute; reflexivity).
  split; [exact Hnd|]. split; [now rewrite Hrun|].
  exact (run_counts_last_batch steady_service "UUID" "" (sample_reports 25) WAIT_TIME
           (mkState sample_plan [] 0 []) 5 _ Hnd Hrun).
Defined.
(** ** A complete run, and the run after it *)

Lemma dict_get_app_absent {V : Type} (k : string) (d1 d2 : list (string * V)) :
  ~ In k (keys d1) -> dict_get String.eqb k (d1 ++ d2)%list = dict_get String.eqb k d2.
Proof.
  induction d1 as [|[k' v'] d1 IH]; intros Hk; [reflexivity|].
  cbn [app dict_get]. cbn [keys map fst In] in Hk.
  destruct (String.eqb_spec k k') as [->|_]; [tauto|]. apply IH. tauto.
Qed.

Lemma dict_get_in_Z {V : Type} (k : Z) (v : V) (d : list (Z * V)) :
  dict_get Z.eqb k d = Some v -> In (k, v) d.
Proof.
  induction d as [|[k' v'] d IH]; cbn; [discriminate|].
  destruct (Z.eqb_spec k k') as [->|_].
  - intros H. injection H as ->. now left.
  - intros H. right. now apply IH.
Qed.

Lemma result_files_of_app (file_uuid results_path : string) (st : state)
    (d1 d2 : list (string * artifact)) :
  results_dir st = (d1 ++ d2)%list ->
  result_files_of file_uuid results_path st
  = (result_files_of file_uuid results_path (initial d1)
     ++ result_files_of file_uuid results_path (initial d2))%list.
Proof.
  intros Hdir. unfold result_files_of. rewrite Hdir. cbn [initial results_dir].
  now rewrite keys_app, filter_app, map_app, filter_app.
Qed.

(** A directory without result files of the run holds no file under the
    name of one of its batches. *)
Lemma no_result_file_lacks (lsr_uuid : string) (dir : list (string * artifact)) (id : Z) :
  has_char "/" lsr_uuid = false ->
  result_files_of lsr_uuid RESULTS_OUTPUT (initial dir) = [] ->
  ~ In (batch_filename lsr_uuid id) (keys dir).
Proof.
  intros Hu Hnone Hin.
  assert (H : In (batch_path lsr_uuid id)
                (result_files_of lsr_uuid RESULTS_OUTPUT (initial dir))).
  { unfold result_files_of. apply filter_In. split; [|now apply contains_uuid_path].
    apply in_map_iff. exists (batch_filename lsr_uuid id). split; [reflexivity|].
    apply filter_In. split; [exact Hin|apply endswith_json]. }
  now rewrite Hnone in H.
Qed.

(** The scan over a directory without result files of the run. *)
Lemma scan_nothing (file_uuid results_path : string) (st : state) :
  result_files_of file_uuid results_path st = [] ->
  match_batch_results file_uuid results_path st
  = (Ok (batches st),
     mkState (batches st) (results_dir st) (requests st) (console st ++ [EvNoPrevious])).
Proof.
  intros Hnone. unfold match_batch_results, bind at 1, get_files_in_dir at 1.
  fold (result_files_of file_uuid results_path st). now rewrite Hnone.
Qed.

Lemma planned_flags (n bs : Z) :
  0 <= n -> 0 < bs -> forall id, flag (planned n bs) id = false.
Proof.
  intros Hn Hbs id. unfold flag.
  destruct (dict_get Z.eqb id (planned n bs)) as [b|] eqn:Hb; [|reflexivity].
  apply dict_get_in_Z in Hb. now apply (planned_entry n bs Hn Hbs id b).
Qed.

Lemma planned_NoDup (n bs : Z) : 0 <= n -> 0 < bs -> NoDup (keys (planned n bs)).
Proof. intros Hn Hbs. rewrite planned_keys by assumption. apply NoDup_py_range. Qed.

(** The slice of a batch of the plan has the length of the batch. *)
Lemma batch_remarks_length (lsr_reports : list string) (bs id : Z) (b : batch) :
  0 < bs ->
  In (id, b) (planned (len lsr_reports) bs) ->
  len (batch_remarks lsr_reports b) = batch_length b.
Proof.
  intros Hbs Hin.
  destruct (planned_entry _ _ (len_nonneg lsr_reports) Hbs id b Hin)
    as (Hid & Hstart & _ & Hlen & Hend & _).
  unfold batch_remarks, py_slice. unfold batch_length in *.
  rewrite !slice_bound_in_range by nia.
  unfold len in *. rewrite length_firstn, length_skipn. nia.
Qed.

Lemma records_of_in (recs : list (Z * list item)) (e : Z * list item) :
  NoDup (map fst recs) -> In e recs -> records_of recs (fst e) = snd e.
Proof.
  intros Hnd Hin. unfold records_of.
  rewrite (dict_get_unique_Z (fst e) (snd e) recs Hnd); [reflexivity|]. now destruct e.
Qed.

(** The result files of a plan whose records are those of the batches [recs]. *)
Lemma artifacts_of_records (lsr_uuid : string) (p : plan) (recs : list (Z * list item)) :
  map fst recs = keys p -> NoDup (keys p) ->
  artifacts lsr_uuid p (records_of recs) = map (entry_of lsr_uuid) recs.
Proof.
  intros Hkeys Hnd. unfold artifacts.
  rewrite <- (map_map fst (fun id => (batch_filename lsr_uuid id,
                                      json_dump (enumerate (records_of recs id))))).
  fold (keys p). rewrite <- Hkeys, map_map. apply map_ext_in.
  intros e He. unfold entry_of. rewrite records_of_in; [reflexivity| |exact He].
  now rewrite Hkeys.
Qed.

(** The consolidation over a directory that holds, among files of other
    runs, the result file of every batch of the plan. *)
Lemma consolidate_expected (lsr_uuid : string) (batch_size : Z)
    (lsr_reports : list string) (records : Z -> list item) (st : state)
    (dir0 d : list (string * artifact)) :
  0 < batch_size ->
  has_char "/" lsr_uuid = false ->
  lsr_reports <> [] ->
  (forall id b, In (id, b) (planned (len lsr_reports) batch_size) ->
                len (records id) = batch_length b) ->
  (forall id b it, In (id, b) (planned (len lsr_reports) batch_size) ->
                   In it (records id) -> exists v, fields it = Ok v) ->
  results_dir st = (dir0 ++ d)%list ->
  result_files_of lsr_uuid RESULTS_OUTPUT (initial dir0) = [] ->
  Permutation d (artifacts lsr_uuid (planned (len lsr_reports) batch_size) records) ->
  consolidate lsr_uuid lsr_reports batch_size st
  = (Ok (Some (expected_table batch_size records lsr_reports)), st).
Proof.
  intros Hbs Hu Hne Hsized Hread Hdir Hnone Hperm.
  set (n := len lsr_reports) in *. set (p := planned n batch_size) in *.
  set (recorded := map (fun e : Z * batch => (fst e, records (fst e))) p).
  assert (Hn : 0 <= n) by apply len_nonneg.
  assert (Hart : artifacts lsr_uuid p records = map (entry_of lsr_uuid) recorded).
  { unfold artifacts, recorded. now rewrite map_map. }
  rewrite Hart in Hperm.
  apply Permutation_map_inv in Hperm as (es & Hd & Hes).
  assert (Hkeys : NoDup (map fst es)).
  { eapply Permutation_NoDup; [apply Permutation_map, Hes|].
    unfold recorded. rewrite map_map. cbn [fst].
    change (NoDup (keys p)). now apply planned_NoDup. }
  assert (Hlookup : forall e, In e es ->
            dict_get String.eqb (batch_filename lsr_uuid (fst e)) (results_dir st)
            = Some (json_dump (enumerate (snd e)))).
  { intros e He. rewrite Hdir, dict_get_app_absent by now apply no_result_file_lacks.
    apply dict_get_unique.
    - unfold keys. rewrite Hd, map_map. cbn [entry_of fst].
      rewrite <- (map_map fst (batch_filename lsr_uuid)).
      apply NoDup_map_injective; [apply batch_filename_inj|exact Hkeys].
    - rewrite Hd. apply in_map_iff. now exists e. }
  assert (Hvalid : forall e, In e es ->
            (forall it, In it (snd e) -> exists v, fields it = Ok v) /\
            0 <= fst e * batch_size /\
            fst e * batch_size + len (snd e) <= len (map blank_row lsr_reports)).
  { intros e He. apply (Permutation_in _ (Permutation_sym Hes)) in He.
    unfold recorded in He. apply in_map_iff in He as ([id b] & <- & Hin).
    cbn [fst snd].
    destruct (planned_entry n batch_size Hn Hbs id b Hin) as (Hid & _ & _ & _ & Hend & _).
    rewrite len_map, (Hsized id b Hin). repeat split.
    - intros it Hit. now apply (Hread id b).
    - nia.
    - fold n. lia. }
  assert (Hsome : es <> []).
  { intros ->. apply Permutation_sym, Permutation_nil in Hes.
    unfold recorded in Hes. apply map_eq_nil in Hes.
    assert (Hcov : covered p = []) by now rewrite Hes.
    unfold p in Hcov. rewrite planned_covered in Hcov by assumption.
    destruct lsr_reports as [|r l]; [contradiction|].
    assert (Hin : In 0 (py_range n)) by (apply in_py_range; unfold n, len; cbn; lia).
    now rewrite Hcov in Hin. }
  assert (Hfiles : result_files_of lsr_uuid RESULTS_OUTPUT st
                   = map (fun e => batch_path lsr_uuid (fst e)) es).
  { rewrite (result_files_of_app _ _ _ _ _ Hdir), Hnone. cbn [app].
    apply result_files_of_entries; [exact Hu|]. now rewrite Hd. }
  pose proof (merge_files_reads lsr_uuid batch_size Hu es st Hlookup
                (map blank_row lsr_reports)) as Hmerge.
  rewrite (merge_all_writes batch_size es _ Hvalid) in Hmerge.
  rewrite (writes_fill_table batch_size lsr_reports records Hbs Hsized Hread es Hes)
    in Hmerge.
  destruct (map (fun e => batch_path lsr_uuid (fst e)) es) as [|f files] eqn:Hmap.
  { apply map_eq_nil in Hmap. contradiction. }
  exact (consolidate_files _ _ _ _ _ _ _ Hfiles Hmerge).
Qed.

Section CompleteRun.
Variable service : nat -> string -> string -> result string.
Variables (lsr_uuid impact_defs : string) (lsr_reports : list string).
Variable dir0 : list (string * artifact).
Hypothesis uuid_plain : has_char "/" lsr_uuid = false.
Hypothesis no_files : result_files_of lsr_uuid RESULTS_OUTPUT (initial dir0) = [].

Local Abbreviation p := (planned (len lsr_reports) BATCH_SIZE).

(** The loop over a fresh plan, when it returns: the records of every batch
    of the plan, one per report of its slice, are in the directory after the
    files that were there. *)
Lemma fresh_loop_records (rq : nat) (con : list event)
    (last' : option (option (list (Z * item)))) (st2 : state) :
  batch_loop service lsr_uuid impact_defs lsr_reports 0 WAIT_TIME (keys p) None
    (mkState p dir0 rq con) = (Ok last', st2) ->
  exists recs,
    map fst recs = keys p /\
    results_dir st2 = (dir0 ++ artifacts lsr_uuid p (records_of recs))%list /\
    (forall id b, In (id, b) p ->
       Forall2 classified (batch_remarks lsr_reports b) (records_of recs id)).
Proof.
  intros Hloop.
  assert (Hbs : 0 < BATCH_SIZE) by reflexivity.
  pose proof (len_nonneg lsr_reports) as Hn.
  pose proof (planned_NoDup _ _ Hn Hbs) as Hnd.
  destruct (loop_store service lsr_uuid impact_defs lsr_reports WAIT_TIME (keys p) None
              (mkState p dir0 rq con) Hnd) as (recs & Hdir & _ & Hshape & _ & Hok).
  rewrite Hloop in Hdir, Hok. cbn [snd fst batches results_dir] in Hdir, Hshape, Hok.
  destruct (Hok last' eq_refl) as (Hkeys & _).
  rewrite filter_all in Hkeys by (intros id _; now rewrite planned_flags).
  assert (Hnd' : NoDup (map fst recs)) by now rewrite Hkeys.
  exists recs. split; [exact Hkeys|]. split.
  - rewrite Hdir, stored_fresh; [|exact uuid_plain|exact Hnd'|].
    + now rewrite artifacts_of_records.
    + intros e _. now apply no_result_file_lacks.
  - intros id b Hin.
    assert (Hid : In id (map fst recs)).
    { rewrite Hkeys. apply in_map_iff. now exists (id, b). }
    apply in_map_iff in Hid as ([id' its] & Heq & He). cbn in Heq. subst id'.
    pose proof (records_of_in recs (id, its) Hnd' He) as Hr. cbn [fst snd] in Hr.
    rewrite Hr.
    destruct (Hshape _ He) as (b' & Hb' & Hall). cbn [fst snd] in Hb', Hall.
    rewrite (dict_get_unique_Z id b p Hnd Hin) in Hb'. now injection Hb' as <-.
Qed.

(** What [main] comes to over a directory without result files of the run,
    once its loop has returned. *)
Lemma main_fresh (t : option (list row)) (st' : state) :
  main service lsr_uuid impact_defs lsr_reports (initial dir0) = (Ok t, st') ->
  exists last' st2,
    batch_loop service lsr_uuid impact_defs lsr_reports 0 WAIT_TIME (keys p) None
      (mkState p dir0 0 [EvNoPrevious]) = (Ok last', st2) /\
    consolidate lsr_uuid lsr_reports BATCH_SIZE st2 = (Ok t, st').
Proof.
  unfold main. unfold bind at 1, lift at 1.
  rewrite define_batches_planned by (apply len_nonneg || reflexivity).
  unfold bind at 1, set_batches at 1. unfold bind at 1.
  rewrite scan_nothing by exact no_files.
  cbn [initial batches results_dir requests console app].
  unfold bind at 1, run_batches, bind at 1, get_batches at 1. cbn [batches].
  unfold bind at 1, MAX_BATCHES.
  destruct (batch_loop service lsr_uuid impact_defs lsr_reports 0 WAIT_TIME (keys p) None
              (mkState p dir0 0 [EvNoPrevious])) as [[last'|e] st2]; [|discriminate].
  intros Hmain. exists last', st2. split; [reflexivity|].
  destruct last' as [[r|]|]; [exact Hmain|exact Hmain|discriminate].
Qed.

End CompleteRun.

(** A run of [main] that returns, over a directory without result files of
    the run, has left the records of every batch of the plan and returns the
    table filled from them. *)
Lemma complete_run (service : nat -> string -> string -> result string)
    (lsr_uuid impact_defs : string) (lsr_reports : list string)
    (dir0 : list (string * artifact)) (t : option (list row)) (st' : state) :
  has_char "/" lsr_uuid = false ->
  result_files_of lsr_uuid RESULTS_OUTPUT (initial dir0) = [] ->
  main service lsr_uuid impact_defs lsr_reports (initial dir0) = (Ok t, st') ->
  exists records,
    results_dir st'
    = (dir0 ++ artifacts lsr_uuid (planned (len lsr_reports) BATCH_SIZE) records)%list /\
    (forall id b, In (id, b) (planned (len lsr_reports) BATCH_SIZE) ->
       Forall2 classified (batch_remarks lsr_reports b) (records id)) /\
    t = Some (expected_table BATCH_SIZE records lsr_reports) /\
    lsr_reports <> [] /\
    (forall id b, In (id, b) (planned (len lsr_reports) BATCH_SIZE) ->
       len (records id) = batch_length b) /\
    (forall id b it, In (id, b) (planned (len lsr_reports) BATCH_SIZE) ->
       In it (records id) -> exists v, fields it = Ok v).
Proof.
  intros Hu Hnone Hmain.
  assert (Hbs : 0 < BATCH_SIZE) by reflexivity.
  assert (Hne : lsr_reports <> []).
  { intros ->.
    destruct (main_fresh service lsr_uuid impact_defs [] dir0 Hnone t st' Hmain)
      as (last' & st2 & Hloop & _).
    cbn in Hloop. injection Hloop as <- _.
    unfold main, bind, lift, set_batches in Hmain.
    change (define_batches (len []) BATCH_SIZE) with (Ok ([] : plan)) in Hmain.
    cbn [initial batches results_dir requests console] in Hmain.
    rewrite scan_nothing in Hmain by exact Hnone. discriminate. }
  destruct (main_fresh service lsr_uuid impact_defs lsr_reports dir0 Hnone t st' Hmain)
    as (last' & st2 & Hloop & Hcons).
  destruct (fresh_loop_records service lsr_uuid impact_defs lsr_reports dir0 Hu Hnone
              _ _ _ _ Hloop) as (recs & Hkeys & Hdir & Hshape).
  assert (Hsized : forall id b, In (id, b) (planned (len lsr_reports) BATCH_SIZE) ->
                     len (records_of recs id) = batch_length b).
  { intros id b Hin. rewrite <- (batch_remarks_length lsr_reports BATCH_SIZE id b Hbs Hin).
    unfold len. now rewrite (Forall2_length (Hshape id b Hin)). }
  assert (Hread : forall id b it, In (id, b) (planned (len lsr_reports) BATCH_SIZE) ->
                    In it (records_of recs id) -> exists v, fields it = Ok v).
  { intros id b it Hin Hit.
    now apply (Forall2_classified_readable _ _ (Hshape id b Hin)). }
  rewrite (consolidate_expected lsr_uuid BATCH_SIZE lsr_reports (records_of recs) st2
             dir0 _ Hbs Hu Hne Hsized Hread Hdir Hnone (Permutation_refl _)) in Hcons.
  injection Hcons as <- <-.
  exists (records_of recs). split; [exact Hdir|]. split; [exact Hshape|].
  split; [reflexivity|]. split; [exact Hne|]. split; [exact Hsized|exact Hread].
Qed.

(** A run of [main] that returns, over a directory without result files of
    the run: every batch of the plan has its result file in the directory,
    with one record per report of its slice, after the files that were there;
    and the table returned is the one filled from these records, with its
    rows in the order of the reports and none of them a placeholder. *)
Theorem complete_run_table (service : nat -> string -> string -> result string)
    (lsr_uuid impact_defs : string) (lsr_reports : list string)
    (dir0 : list (string * artifact)) (t : option (list row)) (st' : state) :
  has_char "/" lsr_uuid = false ->
  result_files_of lsr_uuid RESULTS_OUTPUT (initial dir0) = [] ->
  main service lsr_uuid impact_defs lsr_reports (initial dir0) = (Ok t, st') ->
  exists records,
    results_dir st'
    = (dir0 ++ artifacts lsr_uuid (planned (len lsr_reports) BATCH_SIZE) records)%list /\
    (forall id b, In (id, b) (planned (len lsr_reports) BATCH_SIZE) ->
       Forall2 classified (batch_remarks lsr_reports b) (records id)) /\
    t = Some (expected_table BATCH_SIZE records lsr_reports) /\
    map row_remark (expected_table BATCH_SIZE records lsr_reports) = lsr_reports /\
    forallb complete (expected_table BATCH_SIZE records lsr_reports) = true.
Proof.
  intros Hu Hnone Hmain.
  destruct (complete_run service lsr_uuid impact_defs lsr_reports dir0 t st' Hu Hnone Hmain)
    as (records & Hdir & Hshape & Ht & _ & Hsized & Hread).
  exists records. split; [exact Hdir|]. split; [exact Hshape|]. split; [exact Ht|].
  split; [apply expected_table_remarks|].
  apply expected_table_complete; [reflexivity|exact Hsized|exact Hread].
Qed.

Lemma complete_run_table_witness :
  has_char "/" "UUID" = false /\
  result_files_of "UUID" RESULTS_OUTPUT (initial [("OTHER_0.json", [])]) = [] /\
  exists records,
    results_dir (snd (main steady_service "UUID" "" (sample_reports 25)
                        (initial [("OTHER_0.json", [])])))
    = ([("OTHER_0.json", [])]
       ++ artifacts "UUID" (planned (len (sample_reports 25)) BATCH_SIZE) records)%list /\
    (forall id b, In (id, b) (planned (len (sample_reports 25)) BATCH_SIZE) ->
       Forall2 classified (batch_remarks (sample_reports 25) b) (records id)) /\
    fst (main steady_service "UUID" "" (sample_reports 25) (initial [("OTHER_0.json", [])]))
    = Ok (Some (expected_table BATCH_SIZE records (sample_reports 25))) /\
    map row_remark (expected_table BATCH_SIZE records (sample_reports 25))
    = sample_reports 25 /\
    forallb complete (expected_table BATCH_SIZE records (sample_reports 25)) = true.
Proof.
  split; [reflexivity|]. split; [reflexivity|].
  assert (Hrun : exists t,
            main steady_service "UUID" "" (sample_reports 25) (initial [("OTHER_0.json", [])])
            = (Ok t, snd (main steady_service "UUID" "" (sample_reports 25)
                            (initial [("OTHER_0.json", [])])))).
  { eexists. vm_compute. reflexivity. }
  destruct Hrun as [t Hrun].
  destruct (complete_run_table steady_service "UUID" "" (sample_reports 25)
              [("OTHER_0.json", [])] t _ eq_refl eq_refl Hrun)
    as (records & Hdir & Hshape & Ht & Hrem & Hall).
  exists records. split; [exact Hdir|]. split; [exact Hshape|].
  split; [rewrite Hrun; cbn [fst]; now rewrite Ht|]. split; [exact Hrem|exact Hall].
Defined.
Lemma mark_found_quiet (files : list string) :
  forall st,
    requests (snd (mark_found files st)) = requests st /\
    console (snd (mark_found files st)) = console st.
Proof.
  induction files as [|f rest IH]; intros st; [now split|].
  cbn [mark_found]. unfold bind, lift, get_batches, set_batches, dict_getitem.
  destruct (py_int (batch_id_of f)) as [n|e]; [|now split].
  cbn [batches]. destruct (dict_get Z.eqb n (batches st)) as [b|]; [|now split].
  destruct (IH (mkState (dict_set Z.eqb n (mkBatch (indices b) true) (batches st))
                  (results_dir st) (requests st) (console st))) as [Hr Hc].
  now split.
Qed.

Lemma written_skips (ids : list Z) :
  written (flat_map (fun id => [EvBatch id; EvSkip id]) ids) = [].
Proof. induction ids as [|id ids IH]; [reflexivity|exact IH]. Qed.

Section Rerun.
Variable service : nat -> string -> string -> result string.
Variables (lsr_uuid impact_defs : string) (lsr_reports : list string).
Variable records : Z -> list item.
Variables dir0 d : list (string * artifact).
Hypothesis uuid_plain : has_char "/" lsr_uuid = false.
Hypothesis no_files : result_files_of lsr_uuid RESULTS_OUTPUT (initial dir0) = [].
Hypothesis some_reports : lsr_reports <> [].
Hypothesis sized :
  forall id b, In (id, b) (planned (len lsr_reports) BATCH_SIZE) ->
               len (records id) = batch_length b.
Hypothesis readable :
  forall id b it, In (id, b) (planned (len lsr_reports) BATCH_SIZE) ->
                  In it (records id) -> exists v, fields it = Ok v.
Hypothesis all_files :
  Permutation d (artifacts lsr_uuid (planned (len lsr_reports) BATCH_SIZE) records).

Local Abbreviation p := (planned (len lsr_reports) BATCH_SIZE).

(** Over a directory that holds the result file of every batch of the plan,
    [main] marks every batch from the files, skips them all without a request
    and returns the table filled from the files. *)
Lemma rerun :
  exists st2,
    main service lsr_uuid impact_defs lsr_reports (initial (dir0 ++ d))
    = (Ok (Some (expected_table BATCH_SIZE records lsr_reports)), st2) /\
    requests st2 = 0%nat /\
    results_dir st2 = (dir0 ++ d)%list /\
    written (console st2) = [].
Proof.
  assert (Hbs : 0 < BATCH_SIZE) by reflexivity.
  pose proof (len_nonneg lsr_reports) as Hn.
  pose proof (planned_NoDup _ _ Hn Hbs) as Hnd.
  set (recorded := map (fun e : Z * batch => (fst e, records (fst e))) p).
  assert (Hart : artifacts lsr_uuid p records = map (entry_of lsr_uuid) recorded).
  { unfold artifacts, recorded. now rewrite map_map. }
  pose proof all_files as Hperm. rewrite Hart in Hperm.
  apply Permutation_map_inv in Hperm as (es & Hd & Hes).
  assert (Hids : Permutation (keys p) (map fst es)).
  { replace (keys p) with (map fst recorded); [now apply Permutation_map|].
    unfold recorded. now rewrite map_map. }
  assert (Hsome : keys p <> []).
  { intros Hk. assert (Hp : p = []) by (now apply map_eq_nil in Hk).
    assert (Hcov : covered p = []) by now rewrite Hp.
    rewrite planned_covered in Hcov by assumption.
    destruct lsr_reports as [|r l]; [now apply some_reports|].
    assert (Hin : In 0 (py_range (len (r :: l))))
      by (apply in_py_range; unfold len; cbn; lia).
    now rewrite Hcov in Hin. }
  set (st_a := mkState p (dir0 ++ d) 0 []).
  assert (Hfiles : result_files_of lsr_uuid RESULTS_OUTPUT st_a
                   = map (fun e => batch_path lsr_uuid (fst e)) es).
  { rewrite (result_files_of_app _ _ st_a dir0 d eq_refl), no_files. cbn [app].
    apply result_files_of_entries; [exact uuid_plain|]. now rewrite Hd. }
  assert (Hparse : map (fun f => py_int (batch_id_of f))
                     (result_files_of lsr_uuid RESULTS_OUTPUT st_a)
                   = map Ok (map fst es)).
  { rewrite Hfiles, !map_map. apply map_ext. intros e.
    now rewrite batch_id_of_path, py_int_str. }
  assert (Hamong : forallb (among (keys (batches st_a))) (map fst es) = true).
  { apply forallb_forall. intros id Hin. apply among_spec.
    now apply (Permutation_in _ (Permutation_sym Hids)). }
  destruct (mark_found_present _ _ st_a Hparse Hamong)
    as (st_m & Hmark & Hdir_m & Hkeys_m & Hget_m).
  pose proof (mark_found_quiet (result_files_of lsr_uuid RESULTS_OUTPUT st_a) st_a)
    as [Hreq_m Hcon_m].
  rewrite Hmark in Hreq_m, Hcon_m. cbn [snd st_a requests console] in Hreq_m, Hcon_m.
  assert (Hscan : match_batch_results lsr_uuid RESULTS_OUTPUT st_a
                  = (Ok (batches st_m), st_m)).
  { unfold match_batch_results, bind at 1, get_files_in_dir at 1.
    fold (result_files_of lsr_uuid RESULTS_OUTPUT st_a).
    destruct (result_files_of lsr_uuid RESULTS_OUTPUT st_a) as [|f files] eqn:Hlist.
    - exfalso. symmetry in Hfiles. apply map_eq_nil in Hfiles. subst es.
      apply Permutation_sym, Permutation_nil in Hids. contradiction.
    - unfold bind at 1. now rewrite Hmark. }
  assert (Hflags : forall id, In id (keys (batches st_m)) ->
                     flag (batches st_m) id = true).
  { intros id Hin. rewrite Hkeys_m in Hin. cbn [st_a batches] in Hin.
    destruct (in_keys_dict_get id _ Hin) as [b Hb].
    unfold flag. rewrite (Hget_m id b Hb). cbn [processed].
    apply orb_true_iff. right. apply among_spec.
    now apply (Permutation_in _ Hids). }
  destruct (loop_all_processed service lsr_uuid impact_defs lsr_reports WAIT_TIME
              (keys (batches st_m)) None st_m Hflags)
    as (st_l & Hloop & Hbat_l & Hdir_l & Hreq_l & Hcon_l).
  assert (Hkeys_some : keys (batches st_m) <> []) by (rewrite Hkeys_m; exact Hsome).
  assert (Hcons : consolidate lsr_uuid lsr_reports BATCH_SIZE st_l
                  = (Ok (Some (expected_table BATCH_SIZE records lsr_reports)), st_l)).
  { apply (consolidate_expected lsr_uuid BATCH_SIZE lsr_reports records st_l dir0 d);
      try assumption. now rewrite Hdir_l, Hdir_m. }
  exists st_l. split; [|split; [congruence|split; [now rewrite Hdir_l, Hdir_m|]]].
  - unfold main. unfold bind at 1, lift at 1.
    rewrite define_batches_planned by assumption.
    unfold bind at 1, set_batches at 1. unfold bind at 1.
    cbn [initial batches results_dir requests console]. fold st_a. rewrite Hscan.
    unfold bind at 1, run_batches, bind at 1, get_batches at 1.
    unfold bind at 1, MAX_BATCHES. rewrite Hloop.
    destruct (keys (batches st_m)); [contradiction|]. exact Hcons.
  - rewrite Hcon_l, Hcon_m. cbn [app]. apply written_skips.
Qed.

End Rerun.

(** Running [main] again over the directory that a complete run left: every
    batch is found processed, no request is made, no file is written, and the
    table returned is the table of the first run, whatever the service now
    answers. *)
Theorem rerun_after_complete_run
    (service service' : nat -> string -> string -> result string)
    (lsr_uuid impact_defs impact_defs' : string) (lsr_reports : list string)
    (dir0 : list (string * artifact)) (t : option (list row)) (st1 : state) :
  has_char "/" lsr_uuid = false ->
  result_files_of lsr_uuid RESULTS_OUTPUT (initial dir0) = [] ->
  main service lsr_uuid impact_defs lsr_reports (initial dir0) = (Ok t, st1) ->
  exists st2,
    main service' lsr_uuid impact_defs' lsr_reports (initial (results_dir st1))
    = (Ok t, st2) /\
    requests st2 = 0%nat /\
    results_dir st2 = results_dir st1 /\
    written (console st2) = [].
Proof.
  intros Hu Hnone Hmain.
  destruct (complete_run service lsr_uuid impact_defs lsr_reports dir0 t st1 Hu Hnone Hmain)
    as (records & Hdir & _ & -> & Hne & Hsized & Hread).
  rewrite Hdir.
  exact (rerun service' lsr_uuid impact_defs' lsr_reports records dir0 _ Hu Hnone Hne
           Hsized Hread (Permutation_refl _)).
Qed.

Lemma rerun_after_complete_run_witness :
  has_char "/" "UUID" = false /\
  result_files_of "UUID" RESULTS_OUTPUT (initial []) = [] /\
  exists t st1 st2,
    main steady_service "UUID" "" (sample_reports 25) (initial []) = (Ok t, st1) /\
    main limited_service "UUID" "" (sample_reports 25) (initial (results_dir st1))
    = (Ok t, st2) /\
    requests st2 = 0%nat /\
    results_dir st2 = results_dir st1 /\
    written (console st2) = [].
Proof.
  split; [reflexivity|]. split; [reflexivity|].
  assert (Hrun : exists t,
            main steady_service "UUID" "" (sample_reports 25) (initial [])
            = (Ok t, snd (main steady_service "UUID" "" (sample_reports 25) (initial [])))).
  { eexists. vm_compute. reflexivity. }
  destruct Hrun as [t Hrun].
  set (st1 := snd (main steady_service "UUID" "" (sample_reports 25) (initial []))) in *.
  destruct (rerun_after_complete_run steady_service limited_service "UUID" "" ""
              (sample_reports 25) [] t st1 eq_refl eq_refl Hrun)
    as (st2 & Hmain & Hreq & Hdir & Hw).
  exists t, st1, st2.
  split; [exact Hrun|]. split; [exact Hmain|]. split; [exact Hreq|].
  split; [exact Hdir|exact Hw].
Defined.
(** ** The run identifier *)

(** The identifier of a report file depends on the name of the file only,
    not on the directory it lies in; a path that ends with a slash is hashed
    as the empty name. *)
Theorem hash_filename_ignores_directory (uuid : string -> string) (dir name : string) :
  has_char "/" name = false ->
  hash_filename uuid (dir ++ "/" ++ name) = uuid name /\
  hash_filename uuid name = uuid name /\
  hash_filename uuid (dir ++ "/") = uuid "".
Proof.
  intros Hname. unfold hash_filename, str_split. cbv zeta.
  split; [|split].
  - f_equal. now apply (split_last_char "/" dir name "").
  - f_equal. pose proof (split_go_char_absent "/" name "" Hname) as H.
    unfold char in H. now rewrite H.
  - f_equal. now apply (split_last_char "/" dir "" "").
Qed.

Lemma hash_filename_ignores_directory_witness :
  has_char "/" "test_flashflood_LSRs.csv" = false /\
  hash_filename (fun name => name) "./data/test_flashflood_LSRs.csv"
  = "test_flashflood_LSRs.csv".
Proof.
  split; [reflexivity|].
  exact (proj1 (hash_filename_ignores_directory (fun name => name) "./data"
                  "test_flashflood_LSRs.csv" eq_refl)).
Defined.

(** ** The key file *)








(** ** The consolidated file and the scan *)

Lemma append_last_char (a b : string) (c d : ascii) :
  a ++ String c "" = b ++ String d "" -> c = d.
Proof.
  revert b. induction a as [|x a IH]; intros [|y b] H; cbn in H.
  - now injection H.
  - injection H as _ H. destruct b; discriminate.
  - injection H as _ H. destruct a; discriminate.
  - injection H as _ H. now apply IH in H.
Qed.

Lemma endswith_split (s suffix : string) :
  str_endswith s suffix = true -> exists a, s = a ++ suffix.
Proof.
  induction s as [|x s IH]; cbn [str_endswith]; intros H.
  - rewrite orb_false_r in H. apply String.eqb_eq in H. subst. now exists "".
  - apply orb_true_iff in H as [H|H].
    + apply String.eqb_eq in H. subst. now exists "".
    + destruct (IH H) as [a ->]. now exists (String x a).
Qed.

(** The consolidated CSV file that [main] leaves in the results directory is
    no result file for the scan of a later run or for the consolidation:
    its name does not end in [.json], so [get_files_in_dir] never lists it. *)
Theorem classified_csv_not_scanned (lsr_uuid file_uuid : string) (content : artifact)
    (d1 d2 : list (string * artifact)) (st st' : state) :
  results_dir st = (d1 ++ d2)%list ->
  results_dir st' = (d1 ++ (basename (classified_csv lsr_uuid), content) :: d2)%list ->
  str_endswith (basename (classified_csv lsr_uuid)) ".json" = false /\
  fst (get_files_in_dir RESULTS_OUTPUT ".json" st')
  = fst (get_files_in_dir RESULTS_OUTPUT ".json" st) /\
  result_files_of file_uuid RESULTS_OUTPUT st'
  = result_files_of file_uuid RESULTS_OUTPUT st.
Proof.
  intros Hst Hst'.
  assert (Hend : forall name, str_endswith (name ++ "_classified.csv") ".json" = false).
  { intros name. destruct (str_endswith _ _) eqn:E; [|reflexivity].
    apply endswith_split in E as [a E]. exfalso.
    change "_classified.csv" with ("_classified.cs" ++ String "v" "") in E.
    change ".json" with (".jso" ++ String "n" "") in E.
    rewrite <- !append_assoc in E. apply append_last_char in E. discriminate. }
  assert (Hcsv : str_endswith (basename (classified_csv lsr_uuid)) ".json" = false).
  { unfold basename, classified_csv, str_split.
    destruct (split_last_suffix "/" ("./results/" ++ lsr_uuid) "_classified.csv"
                eq_refl "") as [y Hy].
    rewrite append_assoc in Hy. unfold char in Hy. rewrite Hy. apply Hend. }
  assert (Hlist : filter (fun file => str_endswith file ".json") (keys (results_dir st'))
                  = filter (fun file => str_endswith file ".json") (keys (results_dir st))).
  { rewrite Hst, Hst', !keys_app, !filter_app. cbn [keys map fst filter].
    now rewrite Hcsv. }
  split; [exact Hcsv|]. split.
  - unfold get_files_in_dir. cbn [fst]. now rewrite Hlist.
  - unfold result_files_of. now rewrite Hlist.
Qed.

Lemma classified_csv_not_scanned_witness :
  str_endswith (basename (classified_csv "UUID")) ".json" = false /\
  result_files_of "UUID" RESULTS_OUTPUT
    (mkState [] [("UUID_0.json", []); ("UUID_classified.csv", [])] 0 [])
  = result_files_of "UUID" RESULTS_OUTPUT (mkState [] [("UUID_0.json", [])] 0 []).
Proof.
  destruct (classified_csv_not_scanned "UUID" "UUID" [] [("UUID_0.json", [])] []
              (mkState [] [("UUID_0.json", [])] 0 [])
              (mkState [] [("UUID_0.json", []); ("UUID_classified.csv", [])] 0 [])
              eq_refl eq_refl) as (Hend & _ & Hfiles).
  split; [exact Hend|exact Hfiles].
Defined.

(** ** Writing and reading a batch result *)


(** ** Records outside the table *)

(** A record whose row position lies outside the table is not dropped: the
    first write to its row raises [KeyError]. *)
Theorem merge_item_out_of_range (start_index : Z) (batch_index : string) (i : Z)
    (it : item) (v : Q * Q * Q * Q * Q) (t : list row) :
  py_int batch_index = Ok i ->
  fields it = Ok v ->
  ~ (0 <= start_index + i < len t) ->
  merge_item start_index batch_index it t = Raise KeyError.
Proof.
  intros Hi Hv Hidx. unfold merge_item. rewrite Hi. cbn [rbind].
  unfold fields in Hv.
  destruct (pyval_getitem (item_probs it) "MINOR") as [p1|]; [|discriminate].
  destruct (pyval_getitem (item_probs it) "MODERATE") as [p2|]; [|discriminate].
  destruct (pyval_getitem (item_probs it) "SERIOUS") as [p3|]; [|discriminate].
  destruct (pyval_getitem (item_probs it) "SEVERE") as [p4|]; [|discriminate].
  destruct (pyval_getitem (item_probs it) "CATASTROPHIC") as [p5|]; [|discriminate].
  cbn [rbind] in Hv |- *.
  destruct (percent p1) as [v1|]; [|discriminate]. cbn [rbind].
  unfold loc_set at 1.
  destruct (Z.leb_spec 0 (start_index + i)); destruct (Z.ltb_spec (start_index + i) (len t));
    cbn [andb rbind]; try reflexivity. lia.
Qed.

Lemma merge_item_out_of_range_witness :
  py_int "5" = Ok 5 /\
  (exists v, fields (sample_item "report") = Ok v) /\
  ~ (0 <= 20 + 5 < len (map blank_row (sample_reports 25))) /\
  merge_item 20 "5" (sample_item "report") (map blank_row (sample_reports 25))
  = Raise KeyError.
Proof.
  assert (Hv : exists v, fields (sample_item "report") = Ok v)
    by (eexists; vm_compute; reflexivity).
  assert (Hidx : ~ (0 <= 20 + 5 < len (map blank_row (sample_reports 25))))
    by (vm_compute; intros [_ H]; discriminate).
  split; [reflexivity|]. split; [exact Hv|]. split; [exact Hidx|].
  destruct Hv as [v Hv].
  exact (merge_item_out_of_range 20 "5" 5 (sample_item "report") v _ eq_refl Hv Hidx).
Defined.
